(** * Countdown bot (bot.js): a shallow embedding and its properties

    The development follows the layout of [bot.js]:
    - JavaScript strings are sequences of UTF-16 code units ([jsstring]);
    - JavaScript numbers are exact: integers are [Z], and the divisions and
      remainders of [getTimeRemaining] are carried out in [Q], which stands
      for the doubles of the runtime;
    - exceptions are explicit ([result]); the try/catch blocks of the source
      are written out;
    - the chat platform, the clock, the file system and the host time zone
      are an environment ([Env]) that answers every call by its position in
      the run, so that an answer may change from one call to the next;
    - a refresh cycle is given the messages that arrive while each of its
      refreshes is awaited: their handlers run in the middle of the loop,
      on the array that the loop is iterating;
    - a write that throws leaves of the file what the environment says:
      the file is truncated when it is opened. *)

From Stdlib Require Import ZArith QArith Qround List String Ascii Bool Lia.
From Stdlib Require Decimal DecimalZ DecimalN DecimalPos DecimalFacts.
Import ListNotations.

Local Open Scope Z_scope.
Set Warnings "-register-all".

(** ** JavaScript strings *)

Module JS.

(** A string is the list of its UTF-16 code units. *)
Definition jsstring := list N.

(** The code units of an ASCII literal of the source. *)
Definition lit (s : string) : jsstring :=
  map N_of_ascii (list_ascii_of_string s).

Fixpoint jseqb (a b : jsstring) : bool :=
  match a, b with
  | [], [] => true
  | x :: a', y :: b' => N.eqb x y && jseqb a' b'
  | _, _ => false
  end.

(** [String.prototype.startsWith]. *)
Fixpoint startsWith (s p : jsstring) : bool :=
  match p, s with
  | [], _ => true
  | x :: p', y :: s' => N.eqb x y && startsWith s' p'
  | _ :: _, [] => false
  end.

(** [Array.prototype.join] on strings. *)
Fixpoint join (sep : jsstring) (parts : list jsstring) : jsstring :=
  match parts with
  | [] => []
  | [p] => p
  | p :: rest => p ++ sep ++ join sep rest
  end.

(** Decimal digits of a [Decimal.uint], most significant first. *)
Fixpoint units_of_uint (d : Decimal.uint) : jsstring :=
  match d with
  | Decimal.Nil => []
  | Decimal.D0 r => 48%N :: units_of_uint r
  | Decimal.D1 r => 49%N :: units_of_uint r
  | Decimal.D2 r => 50%N :: units_of_uint r
  | Decimal.D3 r => 51%N :: units_of_uint r
  | Decimal.D4 r => 52%N :: units_of_uint r
  | Decimal.D5 r => 53%N :: units_of_uint r
  | Decimal.D6 r => 54%N :: units_of_uint r
  | Decimal.D7 r => 55%N :: units_of_uint r
  | Decimal.D8 r => 56%N :: units_of_uint r
  | Decimal.D9 r => 57%N :: units_of_uint r
  end.

(** [Number.prototype.toString] on an integer (below 10^21 in absolute
    value, where the runtime prints every digit). *)
Definition string_of_Z (z : Z) : jsstring :=
  match Z.to_int z with
  | Decimal.Pos d => units_of_uint d
  | Decimal.Neg d => 45%N :: units_of_uint d
  end.

(** Truthiness of a string: only the empty string is falsy. *)
Definition truthy (s : jsstring) : bool :=
  match s with [] => false | _ => true end.

(** [a || b] on strings. *)
Definition or_else (a b : jsstring) : jsstring :=
  if truthy a then a else b.

End JS.
Import JS.

(** ** Exact arithmetic for the numeric operators *)

(** Rounding towards zero, as in the quotient of the [%] operator. *)
Definition Qtruncate (x : Q) : Z :=
  if Qle_bool 0 x then Qfloor x else Qceiling x.

(** The [%] operator: the remainder has the sign of the dividend. *)
Definition js_rem (n d : Q) : Q :=
  (n - d * inject_Z (Qtruncate (n / d)))%Q.

(** [Math.floor]. *)
Definition Math_floor (x : Q) : Z := Qfloor x.

(** ** Duration calculator and formatter *)

Record TimeRemaining := mkTR {
  expired : bool;
  total : Z;
  days : Z;
  hours : Z;
  minutes : Z;
  seconds : Z
}.

(** [getTimeRemaining(targetDate)]; [now] is the value read from
    [Date.now()]. *)
Definition getTimeRemaining (targetDate now : Z) : TimeRemaining :=
  let total := targetDate - now in
  if total <=? 0 then
    mkTR true 0 0 0 0 0
  else
    let t := inject_Z total in
    let seconds := Math_floor (js_rem (t / 1000) 60) in
    let minutes := Math_floor (js_rem (t / 1000 / 60) 60) in
    let hours := Math_floor (js_rem (t / (1000 * 60 * 60)) 24) in
    let days := Math_floor (t / (1000 * 60 * 60 * 24)) in
    mkTR false total days hours minutes seconds.

(** One entry pushed on [parts]: the number, the unit and the plural
    mark, which is left out when the value is 1. *)
Definition part (v : Z) (unit : string) : jsstring :=
  string_of_Z v ++ lit " " ++ lit unit ++ (if v =? 1 then [] else lit "s").

(** [if (v > 0) parts.push(...)]. *)
Definition push_if_pos (v : Z) (unit : string) (parts : list jsstring)
  : list jsstring :=
  if 0 <? v then parts ++ [part v unit] else parts.

Definition expired_phrase : jsstring := lit "This countdown has expired!".
Definition moment_phrase : jsstring := lit "Just a moment".

(** [formatTimeRemaining(tr)]. *)
Definition formatTimeRemaining (tr : TimeRemaining) : jsstring :=
  if expired tr then expired_phrase
  else
    let parts := [] in
    let parts := push_if_pos (days tr) "day" parts in
    let parts := push_if_pos (hours tr) "hour" parts in
    let parts := push_if_pos (minutes tr) "minute" parts in
    let parts := push_if_pos (seconds tr) "second" parts in
    or_else (join (lit ", ") parts) moment_phrase.

(** ** Character classes and string helpers of the runtime *)

(** White space and line terminators: the set of [\s] in a regular
    expression, of [String.prototype.trim] and of the prefix skipped by
    [parseInt]. *)
Definition is_space (c : N) : bool :=
  ((9 <=? c) && (c <=? 13) || (c =? 32) || (c =? 160) || (c =? 5760)
   || (8192 <=? c) && (c <=? 8202) || (c =? 8232) || (c =? 8233)
   || (c =? 8239) || (c =? 8287) || (c =? 12288) || (c =? 65279))%N.

(** [\d]. *)
Definition is_digit (c : N) : bool := ((48 <=? c) && (c <=? 57))%N.

Fixpoint drop_while (p : N -> bool) (s : jsstring) : jsstring :=
  match s with
  | [] => []
  | c :: r => if p c then drop_while p r else s
  end.

(** [String.prototype.trim]. *)
Definition trim (s : jsstring) : jsstring :=
  rev (drop_while is_space (rev (drop_while is_space s))).

(** [String.prototype.slice(n)] for [n] within the string. *)
Definition slice (n : nat) (s : jsstring) : jsstring := skipn n s.

(** [s.split(/ +/)]: the separator is a run of U+0020. [cur] holds the
    current piece, last unit first; [in_sep] says that the scan is inside
    a separator. *)
Fixpoint split_spaces_aux (s cur : jsstring) (in_sep : bool)
  : list jsstring :=
  match s with
  | [] => [rev cur]
  | c :: r =>
      if (c =? 32)%N then
        if in_sep then split_spaces_aux r cur true
        else rev cur :: split_spaces_aux r [] true
      else split_spaces_aux r (c :: cur) false
  end.

Definition split_spaces (s : jsstring) : list jsstring :=
  split_spaces_aux s [] false.

(** [s.split(sep)] for a separator of one code unit. *)
Fixpoint split_on_aux (sep : N) (s cur : jsstring) : list jsstring :=
  match s with
  | [] => [rev cur]
  | c :: r =>
      if (c =? sep)%N then rev cur :: split_on_aux sep r []
      else split_on_aux sep r (c :: cur)
  end.

Definition split_on (sep : N) (s : jsstring) : list jsstring :=
  split_on_aux sep s [].

(** [String.prototype.toLowerCase] on one code unit. The letters A-Z are
    lowered; every other unit is left as it is. The result is only ever
    compared with the command names, made of the letters
    c, d, e, h, l, n, o, p, s, t, u, w, and no unit outside ASCII lowers to
    one of these, so that every comparison is decided as by the runtime. *)
Definition lower_unit (c : N) : N :=
  if ((65 <=? c) && (c <=? 90))%N then (c + 32)%N else c.

Definition toLowerCase (s : jsstring) : jsstring := map lower_unit s.

(** Value of a run of decimal digits, most significant first. *)
Fixpoint digits_value (acc : Z) (s : jsstring) : Z :=
  match s with
  | [] => acc
  | c :: r => digits_value (10 * acc + (Z.of_N c - 48)) r
  end.

(** [Number(s)] for the strings that reach it here, which the regular
    expression of the create command makes runs of decimal digits; [None]
    is NaN. *)
Definition Number (s : jsstring) : option Z :=
  if forallb is_digit s then Some (digits_value 0 s) else None.

Fixpoint take_while (p : N -> bool) (s : jsstring) : jsstring :=
  match s with
  | [] => []
  | c :: r => if p c then c :: take_while p r else []
  end.

(** [parseInt(s, 10)]: leading white space is skipped, a sign is read, and
    the longest run of decimal digits that follows is the value; [None]
    is NaN, returned when there is no digit there. *)
Definition parseInt10 (s : jsstring) : option Z :=
  let s := drop_while is_space s in
  let '(sign, s) :=
    match s with
    | c :: r =>
        if (c =? 45)%N then (-1, r)
        else if (c =? 43)%N then (1, r)
        else (1, s)
    | [] => (1, s)
    end in
  match take_while is_digit s with
  | [] => None
  | ds => Some (sign * digits_value 0 ds)
  end.

(** ** Regular expressions with captures, matched by backtracking *)

Inductive re :=
| Eps                          (* the empty expression *)
| Chr (p : N -> bool)          (* one code unit of a class *)
| Seq (a b : re)
| Opt (a : re)                 (* a?  greedy *)
| Star (a : re)                (* a*  greedy *)
| Group (i : nat) (a : re)     (* capture group number i *)
| Eos.                         (* $ without the m flag *)

Definition captures := list (nat * jsstring).

Fixpoint capture (i : nat) (caps : captures) : option jsstring :=
  match caps with
  | [] => None
  | (j, s) :: r => if Nat.eqb i j then Some s else capture i r
  end.

(** The matcher in continuation-passing style: [k] is what remains to be
    matched after [r]; a failure of [k] makes the greedy operators try
    their next alternative. Every iteration of a star consumes a code
    unit in the expressions used here, so that [length s] iterations are
    enough. *)
Fixpoint rmatch (r : re) (s : jsstring) (caps : captures)
    (k : jsstring -> captures -> option captures) : option captures :=
  match r with
  | Eps => k s caps
  | Chr p =>
      match s with
      | c :: s' => if p c then k s' caps else None
      | [] => None
      end
  | Seq a b => rmatch a s caps (fun s' caps' => rmatch b s' caps' k)
  | Opt a =>
      match rmatch a s caps k with
      | Some res => Some res
      | None => k s caps
      end
  | Star a =>
      (fix star (n : nat) (s : jsstring) (caps : captures) {struct n}
         : option captures :=
         match
           match n with
           | O => None
           | S n' => rmatch a s caps (fun s' caps' => star n' s' caps')
           end
         with
         | Some res => Some res
         | None => k s caps
         end) (List.length s) s caps
  | Group i a =>
      rmatch a s caps
        (fun s' caps' =>
           k s' ((i, firstn (List.length s - List.length s') s) :: caps'))
  | Eos =>
      match s with
      | [] => k [] caps
      | _ :: _ => None
      end
  end.

(** A match anchored at the start of the input ([^]). *)
Definition exec (r : re) (s : jsstring) : option captures :=
  rmatch r s [] (fun _ caps => Some caps).

Definition chr (c : N) : re := Chr (N.eqb c).
Definition plus (a : re) : re := Seq a (Star a).
Definition in_range (lo hi : N) : re :=
  Chr (fun c => ((lo <=? c) && (c <=? hi))%N).
Definition ws : re := Chr is_space.
Definition dgt : re := Chr is_digit.

Fixpoint seqs (l : list re) : re :=
  match l with
  | [] => Eps
  | [a] => a
  | a :: r => Seq a (seqs r)
  end.

Definition literal (s : string) : re := seqs (map chr (lit s)).

(** The expression of the create command, where Q stands for the double
    quote (code unit 34):
    [/^!countdown\s+Q([^Q]+)Q\s+(\d{4}-\d{2}-\d{2})(?:\s+([0-2]?\d:[0-5]\d(?::[0-5]\d)?))?\s*$/] *)
Definition countdown_re : re :=
  seqs
    [ literal "!countdown"; plus ws;
      chr 34; Group 1 (plus (Chr (fun c => negb (c =? 34)%N))); chr 34;
      plus ws;
      Group 2 (seqs [dgt; dgt; dgt; dgt; chr 45; dgt; dgt; chr 45; dgt; dgt]);
      Opt (seqs
             [ plus ws;
               Group 3
                 (seqs [ Opt (in_range 48 50); dgt; chr 58;
                         in_range 48 53; dgt;
                         Opt (seqs [chr 58; in_range 48 53; dgt]) ]) ]);
      Star ws; Eos ].

(** ** The Date constructor of the runtime *)

Module JSDate.

Definition msPerDay : Z := 86400000.

(** Number of the first day of year [y], counted from 1970-01-01. *)
Definition DayFromYear (y : Z) : Z :=
  365 * (y - 1970) + (y - 1969) / 4 - (y - 1901) / 100 + (y - 1601) / 400.

Definition InLeapYear (y : Z) : bool :=
  (y mod 4 =? 0) && (negb (y mod 100 =? 0) || (y mod 400 =? 0)).

(** Days from the start of the year to the start of month [m] (0-11). *)
Definition DayWithinYear (leap : bool) (m : Z) : Z :=
  let l := if leap then 1 else 0 in
  match m with
  | 0 => 0
  | 1 => 31
  | 2 => 59 + l
  | 3 => 90 + l
  | 4 => 120 + l
  | 5 => 151 + l
  | 6 => 181 + l
  | 7 => 212 + l
  | 8 => 243 + l
  | 9 => 273 + l
  | 10 => 304 + l
  | _ => 334 + l
  end.

(** [MakeDay]: months beyond 0-11 carry into the year, and the date is
    added as a plain day count, so that a day beyond the end of the month
    runs into the months that follow. *)
Definition MakeDay (year month date : Z) : Z :=
  let ym := year + month / 12 in
  let mn := month mod 12 in
  DayFromYear ym + DayWithinYear (InLeapYear ym) mn + date - 1.

Definition MakeTime (hour min sec ms : Z) : Z :=
  hour * 3600000 + min * 60000 + sec * 1000 + ms.

Definition MakeDate (day time : Z) : Z := day * msPerDay + time.

(** [TimeClip]: [None] is NaN, the time value of an invalid Date. *)
Definition TimeClip (t : Z) : option Z :=
  if Z.abs t <=? 8640000000000000 then Some t else None.

(** [new Date(year, month, day, hour, minute, second)], all six read in
    local time; [utc] turns a local time value into UTC according to the
    time zone of the host. A NaN argument gives an invalid Date. *)
Definition construct (utc : Z -> Z)
    (year month day hour minute second : option Z) : option Z :=
  match year, month, day, hour, minute, second with
  | Some y, Some m, Some dt, Some h, Some mi, Some s =>
      let yr := if (0 <=? y) && (y <=? 99) then 1900 + y else y in
      TimeClip (utc (MakeDate (MakeDay yr m dt) (MakeTime h mi s 0)))
  | _, _, _, _, _, _ => None
  end.

End JSDate.

(** ** JSON values, [JSON.stringify] and [JSON.parse] *)

Inductive json :=
| JNull
| JBool (b : bool)
| JNum (q : Q)
| JStr (s : jsstring)
| JArr (items : list json)
| JObj (members : list (jsstring * json)).

Module JSON.

Definition hex_unit (d : N) : N :=
  if (d <? 10)%N then (48 + d)%N else (87 + d)%N.

(** [\uXXXX] with four lower-case hexadecimal digits. *)
Definition unicode_escape (c : N) : jsstring :=
  [92; 117; hex_unit (c / 4096 mod 16); hex_unit (c / 256 mod 16);
   hex_unit (c / 16 mod 16); hex_unit (c mod 16)]%N.

Definition is_high_surrogate (c : N) : bool :=
  ((55296 <=? c) && (c <=? 56319))%N.
Definition is_low_surrogate (c : N) : bool :=
  ((56320 <=? c) && (c <=? 57343))%N.

(** The text of one code unit that is not part of a surrogate pair, in
    [QuoteJSONString]. *)
Definition quote_unit (c : N) : jsstring :=
  if (c =? 8)%N then [92; 98]%N
  else if (c =? 9)%N then [92; 116]%N
  else if (c =? 10)%N then [92; 110]%N
  else if (c =? 12)%N then [92; 102]%N
  else if (c =? 13)%N then [92; 114]%N
  else if (c =? 34)%N then [92; 34]%N
  else if (c =? 92)%N then [92; 92]%N
  else if (c <? 32)%N || is_high_surrogate c || is_low_surrogate c
       then unicode_escape c
  else [c].

(** The body of [QuoteJSONString]: a surrogate pair is copied, a lone
    surrogate is escaped. *)
Fixpoint quote_units (s : jsstring) : jsstring :=
  match s with
  | [] => []
  | c :: r =>
      match r with
      | d :: r' =>
          if is_high_surrogate c && is_low_surrogate d
          then c :: d :: quote_units r'
          else quote_unit c ++ quote_units r
      | [] => quote_unit c
      end
  end.

Definition quote (s : jsstring) : jsstring :=
  34%N :: quote_units s ++ [34%N].

(** The text of a number. An integer prints its decimal digits. A number
    that is not an integer never occurs in a countdown record; its text
    (the shortest decimal that reads back as the same double) is outside
    this model, and [null] stands in its place. *)
Definition number_text (q : Q) : jsstring :=
  if (Zpos (Qden q) =? 1) then string_of_Z (Qnum q) else lit "null".

Definition newline : jsstring := [10%N].

(** What stands between two elements or members at indentation
    [indent]. *)
Definition separator (indent : jsstring) : jsstring :=
  lit "," ++ newline ++ indent.

(** [SerializeJSONProperty] with a gap: [indent] is the current
    indentation and [gap] what one more level adds. *)
Fixpoint serialize (gap indent : jsstring) (v : json) : jsstring :=
  match v with
  | JNull => lit "null"
  | JBool true => lit "true"
  | JBool false => lit "false"
  | JNum q => number_text q
  | JStr s => quote s
  | JArr items =>
      match items with
      | [] => lit "[]"
      | _ =>
          let stepback := indent in
          let indent := indent ++ gap in
          let partial := map (serialize gap indent) items in
          let separator := separator indent in
          lit "[" ++ newline ++ indent ++ join separator partial
            ++ newline ++ stepback ++ lit "]"
      end
  | JObj members =>
      match members with
      | [] => lit "{}"
      | _ =>
          let stepback := indent in
          let indent := indent ++ gap in
          let partial :=
            map (fun kv => quote (fst kv) ++ lit ": "
                             ++ serialize gap indent (snd kv)) members in
          let separator := separator indent in
          lit "{" ++ newline ++ indent ++ join separator partial
            ++ newline ++ stepback ++ lit "}"
      end
  end.

(** [JSON.stringify(v, null, 2)]. *)
Definition stringify2 (v : json) : jsstring :=
  serialize (lit "  ") [] v.

(** White space of the JSON grammar. *)
Definition is_json_ws (c : N) : bool :=
  ((c =? 32) || (c =? 9) || (c =? 10) || (c =? 13))%N.

Definition skip_ws (s : jsstring) : jsstring := drop_while is_json_ws s.

Definition hex_value (c : N) : option N :=
  if ((48 <=? c) && (c <=? 57))%N then Some (c - 48)%N
  else if ((97 <=? c) && (c <=? 102))%N then Some (c - 87)%N
  else if ((65 <=? c) && (c <=? 70))%N then Some (c - 55)%N
  else None.

Definition hex4 (a b c d : N) : option N :=
  match hex_value a, hex_value b, hex_value c, hex_value d with
  | Some x, Some y, Some z, Some w =>
      Some (x * 4096 + y * 256 + z * 16 + w)%N
  | _, _, _, _ => None
  end.

(** The unit named by a one-letter escape. *)
Definition unescape (e : N) : option N :=
  if (e =? 34)%N then Some 34%N
  else if (e =? 92)%N then Some 92%N
  else if (e =? 47)%N then Some 47%N
  else if (e =? 98)%N then Some 8%N
  else if (e =? 102)%N then Some 12%N
  else if (e =? 110)%N then Some 10%N
  else if (e =? 114)%N then Some 13%N
  else if (e =? 116)%N then Some 9%N
  else None.

Definition cons_fst {A B} (a : A) (r : option (list A * B))
  : option (list A * B) :=
  match r with
  | Some (l, b) => Some (a :: l, b)
  | None => None
  end.

(** A string after its opening quote: the units up to the closing quote,
    and the input that follows it. *)
Fixpoint parse_string_body (s : jsstring) : option (jsstring * jsstring) :=
  match s with
  | [] => None
  | c :: r =>
      if (c =? 34)%N then Some ([], r)
      else if (c =? 92)%N then
        match r with
        | [] => None
        | e :: r' =>
            if (e =? 117)%N then
              match r' with
              | h1 :: h2 :: h3 :: h4 :: r'' =>
                  match hex4 h1 h2 h3 h4 with
                  | Some u => cons_fst u (parse_string_body r'')
                  | None => None
                  end
              | _ => None
              end
            else
              match unescape e with
              | Some u => cons_fst u (parse_string_body r')
              | None => None
              end
        end
      else if (c <? 32)%N then None
      else cons_fst c (parse_string_body r)
  end.

(** The digits of the integer part: a leading 0 stands alone. *)
Definition int_digits (s : jsstring) : jsstring * jsstring :=
  match s with
  | c :: r =>
      if (c =? 48)%N then ([48%N], r)
      else (take_while is_digit s, drop_while is_digit s)
  | [] => ([], [])
  end.

Definition pow10 (e : Z) : Q := Qpower (10 # 1) e.

(** A number of the JSON grammar, read exactly: an optional minus sign,
    an integer part (0 alone, or digits that do not start with 0), an
    optional fraction (a point and digits) and an optional exponent
    (e or E, an optional sign and digits). *)
Definition parse_number (s : jsstring) : option (Q * jsstring) :=
  let '(neg, s1) :=
    match s with
    | c :: r => if (c =? 45)%N then (true, r) else (false, s)
    | [] => (false, s)
    end in
  let '(ds, s2) := int_digits s1 in
  match ds with
  | [] => None
  | _ :: _ =>
      let sign := if neg then -1 else 1 in
      let frac :=
        match s2 with
        | 46%N :: r =>
            match take_while is_digit r with
            | [] => None
            | fs => Some (Some fs, drop_while is_digit r)
            end
        | _ => Some (None, s2)
        end in
      match frac with
      | None => None
      | Some (fs, s3) =>
          let exp :=
            match s3 with
            | c :: r =>
                if ((c =? 101) || (c =? 69))%N then
                  let '(eneg, r1) :=
                    match r with
                    | 45%N :: r' => (true, r')
                    | 43%N :: r' => (false, r')
                    | _ => (false, r)
                    end in
                  match take_while is_digit r1 with
                  | [] => None
                  | es =>
                      Some (Some ((if eneg then -1 else 1)
                                  * digits_value 0 es),
                            drop_while is_digit r1)
                  end
                else Some (None, s3)
            | [] => Some (None, s3)
            end in
          match exp with
          | None => None
          | Some (e, s4) =>
              match fs, e with
              | None, None => Some (inject_Z (sign * digits_value 0 ds), s4)
              | _, _ =>
                  let fs := match fs with Some f => f | None => [] end in
                  let e := match e with Some e => e | None => 0 end in
                  let mant := sign * digits_value 0 (ds ++ fs) in
                  Some (Qred (inject_Z mant
                              * pow10 (e - Z.of_nat (List.length fs))),
                        s4)
              end
          end
      end
  end.

Definition parser (A : Type) := jsstring -> option (A * jsstring).

(** The elements of an array after the first one is known to be there:
    [value (, value)* \]]. *)
Fixpoint parse_elements (n : nat) (pv : parser json) (s : jsstring)
  : option (list json * jsstring) :=
  match n with
  | O => None
  | S n' =>
      match pv s with
      | None => None
      | Some (v, r) =>
          match skip_ws r with
          | c :: r' =>
              if (c =? 44)%N then cons_fst v (parse_elements n' pv r')
              else if (c =? 93)%N then Some ([v], r')
              else None
          | [] => None
          end
      end
  end.

(** The members of an object: [string : value (, string : value)* \}]. *)
Fixpoint parse_members (n : nat) (pv : parser json) (s : jsstring)
  : option (list (jsstring * json) * jsstring) :=
  match n with
  | O => None
  | S n' =>
      match skip_ws s with
      | 34%N :: r =>
          match parse_string_body r with
          | None => None
          | Some (key, r1) =>
              match skip_ws r1 with
              | 58%N :: r2 =>
                  match pv r2 with
                  | None => None
                  | Some (v, r3) =>
                      match skip_ws r3 with
                      | c :: r4 =>
                          if (c =? 44)%N then
                            cons_fst (key, v) (parse_members n' pv r4)
                          else if (c =? 125)%N then Some ([(key, v)], r4)
                          else None
                      | [] => None
                      end
                  end
              | _ => None
              end
          end
      | _ => None
      end
  end.

(** A key that occurs again replaces the value and keeps the place of its
    first occurrence. (The runtime moreover lists keys that are array
    indices first; no key of a countdown record is one.) *)
Fixpoint set_member (k : jsstring) (v : json)
    (members : list (jsstring * json)) : list (jsstring * json) :=
  match members with
  | [] => [(k, v)]
  | (k', v') :: r =>
      if jseqb k k' then (k, v) :: r else (k', v') :: set_member k v r
  end.

Definition build_object (raw : list (jsstring * json))
  : list (jsstring * json) :=
  fold_left (fun acc kv => set_member (fst kv) (snd kv) acc) raw [].

Definition expect (word : string) (v : json) (s : jsstring)
  : option (json * jsstring) :=
  if startsWith s (lit word)
  then Some (v, skipn (List.length (lit word)) s)
  else None.

(** One JSON value. [fuel] bounds the nesting depth and the number of
    elements of an array or object; the length of the input bounds both. *)
Fixpoint parse_value (fuel : nat) (s : jsstring)
  : option (json * jsstring) :=
  match fuel with
  | O => None
  | S fuel' =>
      match skip_ws s with
      | [] => None
      | c :: r =>
          if (c =? 110)%N then expect "null" JNull (c :: r)
          else if (c =? 116)%N then expect "true" (JBool true) (c :: r)
          else if (c =? 102)%N then expect "false" (JBool false) (c :: r)
          else if (c =? 34)%N then
            match parse_string_body r with
            | Some (str, r') => Some (JStr str, r')
            | None => None
            end
          else if (c =? 91)%N then
            match skip_ws r with
            | 93%N :: r' => Some (JArr [], r')
            | r' =>
                match parse_elements fuel' (parse_value fuel') r' with
                | Some (items, r'') => Some (JArr items, r'')
                | None => None
                end
            end
          else if (c =? 123)%N then
            match skip_ws r with
            | 125%N :: r' => Some (JObj [], r')
            | r' =>
                match parse_members fuel' (parse_value fuel') r' with
                | Some (raw, r'') => Some (JObj (build_object raw), r'')
                | None => None
                end
            end
          else
            match parse_number (c :: r) with
            | Some (q, r') => Some (JNum q, r')
            | None => None
            end
      end
  end.

(** [JSON.parse(text)]: one value and nothing but white space after it;
    [None] is the SyntaxError. *)
Definition parse (text : jsstring) : option json :=
  match parse_value (S (List.length text)) text with
  | Some (v, r) =>
      match skip_ws r with
      | [] => Some v
      | _ :: _ => None
      end
  | None => None
  end.

End JSON.

(** ** Countdown records and their JSON form *)

Record Countdown := mkCountdown {
  name : jsstring;
  targetDate : Z;
  channelId : jsstring;
  messageId : jsstring;
  createdBy : jsstring;
  createdAt : Z
}.

(** The object literal pushed by the create command, as a JSON value. *)
Definition to_json (cd : Countdown) : json :=
  JObj [ (lit "name", JStr (name cd));
         (lit "targetDate", JNum (inject_Z (targetDate cd)));
         (lit "channelId", JStr (channelId cd));
         (lit "messageId", JStr (messageId cd));
         (lit "createdBy", JStr (createdBy cd));
         (lit "createdAt", JNum (inject_Z (createdAt cd))) ].

(** The array [countdowns] as a JSON value. *)
Definition encode_store (cds : list Countdown) : json :=
  JArr (map to_json cds).

Fixpoint member (k : jsstring) (members : list (jsstring * json))
  : option json :=
  match members with
  | [] => None
  | (k', v) :: r => if jseqb k k' then Some v else member k r
  end.

Definition as_string (v : option json) : option jsstring :=
  match v with Some (JStr s) => Some s | _ => None end.

Definition as_integer (v : option json) : option Z :=
  match v with
  | Some (JNum q) => if Zpos (Qden q) =? 1 then Some (Qnum q) else None
  | _ => None
  end.

(** Reading a JSON value back field by field: it is a countdown record
    when it has exactly the six fields, in the order of the literal. *)
Definition of_json (v : json) : option Countdown :=
  match v with
  | JObj members =>
      match map fst members with
      | [k1; k2; k3; k4; k5; k6] =>
          if jseqb k1 (lit "name") && jseqb k2 (lit "targetDate")
             && jseqb k3 (lit "channelId") && jseqb k4 (lit "messageId")
             && jseqb k5 (lit "createdBy") && jseqb k6 (lit "createdAt")
          then
            match as_string (member (lit "name") members),
                  as_integer (member (lit "targetDate") members),
                  as_string (member (lit "channelId") members),
                  as_string (member (lit "messageId") members),
                  as_string (member (lit "createdBy") members),
                  as_integer (member (lit "createdAt") members) with
            | Some n, Some t, Some c, Some m, Some u, Some a =>
                Some (mkCountdown n t c m u a)
            | _, _, _, _, _, _ => None
            end
          else None
      | _ => None
      end
  | _ => None
  end.

Fixpoint of_json_list (l : list json) : option (list Countdown) :=
  match l with
  | [] => Some []
  | v :: r =>
      match of_json v, of_json_list r with
      | Some cd, Some cds => Some (cd :: cds)
      | _, _ => None
      end
  end.

Definition decode_store (v : json) : option (list Countdown) :=
  match v with
  | JArr items => of_json_list items
  | _ => None
  end.

(** ** The world around the bot *)

(** A completion: a value, or an exception with its message. *)
Inductive result (A : Type) :=
| Ok (a : A)
| Throw (message : jsstring).
Arguments Ok {A} a.
Arguments Throw {A} message.

(** [countdowns.json]: absent, present but unreadable (the read throws
    with [message]), or present with [data] as its text. *)
Inductive FileState :=
| Missing
| Unreadable (message : jsstring)
| Content (data : jsstring).

(** What an [EmbedBuilder] holds. *)
Record Embed := mkEmbed {
  color : jsstring;
  title : jsstring;
  description : jsstring;
  footer : jsstring;
  timestamp : option Z;
  fields : list (jsstring * jsstring)
}.

(** What the bot does to the outside, in order. A request carries the
    answer it got. *)
Inductive Event :=
| ConsoleLog (text : jsstring)
| ConsoleError (label message : jsstring)
| Reply (text : jsstring)
| React (emoji : jsstring) (ok : bool)
| Send (channel : jsstring) (e : Embed) (answer : result jsstring)
| Edit (channel message : jsstring) (e : Embed) (ok : bool)
| WriteFile (data : jsstring) (ok : bool)
| SetActivity (text : jsstring).

(** The answers of the outside. The first argument of an answer is the
    position of the call in the run ([step]), so that the clock moves and
    a message that could be edited once may be gone the next time. *)
Record Env := mkEnv {
  clock : nat -> Z;                               (* Date.now() *)
  utc_of_local : Z -> Z;                          (* host time zone *)
  toLocaleString : Z -> jsstring;                 (* Date text *)
  embed_ok : Embed -> bool;                       (* builder validation *)
  fetch_channel : nat -> jsstring -> result unit;
  fetch_message : nat -> jsstring -> jsstring -> result unit;
  edit_message : nat -> jsstring -> jsstring -> Embed -> result unit;
  send_message : nat -> jsstring -> Embed -> result jsstring;
  react_message : nat -> jsstring -> result unit;
  write_file : nat -> jsstring -> result unit;
  failed_write : nat -> FileState -> jsstring -> FileState
    (* what a write that throws leaves of the file *)
}.

(** The state of the process: the array [countdowns], the file, the
    presence text, and the number of calls made to the outside. *)
Record State := mkState {
  step : nat;
  countdowns : list Countdown;
  file : FileState;
  activity : option jsstring
}.

(** Computations of the bot: they read the environment, change the state,
    complete or throw, and leave a trace of events. *)
Definition M (A : Type) : Type :=
  Env -> State -> result A * State * list Event.

Definition ret {A} (a : A) : M A := fun _ s => (Ok a, s, []).

Definition throw {A} (message : jsstring) : M A :=
  fun _ s => (Throw message, s, []).

Definition bind {A B} (m : M A) (k : A -> M B) : M B :=
  fun env s =>
    match m env s with
    | (Ok a, s', ev) =>
        let '(r, s'', ev') := k a env s' in (r, s'', ev ++ ev')
    | (Throw message, s', ev) => (Throw message, s', ev)
    end.

(** [try { m } catch (err) { handler(err.message) }]. *)
Definition try_catch {A} (m : M A) (handler : jsstring -> M A) : M A :=
  fun env s =>
    match m env s with
    | (Ok a, s', ev) => (Ok a, s', ev)
    | (Throw message, s', ev) =>
        let '(r, s'', ev') := handler message env s' in (r, s'', ev ++ ev')
    end.

Declare Scope bot_scope.
Delimit Scope bot_scope with bot.
Notation "x <- m ;; k" := (bind m (fun x => k))
  (at level 61, m at next level, right associativity) : bot_scope.
Notation "m ;; k" := (bind m (fun _ => k))
  (at level 61, right associativity) : bot_scope.
Local Open Scope bot_scope.

Definition emit (e : Event) : M unit := fun _ s => (Ok tt, s, [e]).

Definition get_countdowns : M (list Countdown) :=
  fun _ s => (Ok (countdowns s), s, []).

Definition set_countdowns (cds : list Countdown) : M unit :=
  fun _ s => (Ok tt, mkState (step s) cds (file s) (activity s), []).

(** A call to the outside: [ask] picks the answer for the current step,
    and the step advances. *)
Definition call {A} (ask : Env -> nat -> A) : M A :=
  fun env s =>
    (Ok (ask env (step s)),
     mkState (S (step s)) (countdowns s) (file s) (activity s), []).

Definition lift {A} (r : result A) : M A :=
  fun _ s => (r, s, []).

Definition Date_now : M Z := call clock.

Definition console_log (text : jsstring) : M unit := emit (ConsoleLog text).
Definition console_error (label message : jsstring) : M unit :=
  emit (ConsoleError label message).

(** ** Persistence *)

Definition file_exists (f : FileState) : bool :=
  match f with Missing => false | _ => true end.

(** [fs.readFileSync(COUNTDOWNS_FILE, 'utf8')]. *)
Definition readFileSync (f : FileState) : result jsstring :=
  match f with
  | Content data => Ok data
  | Unreadable message => Throw message
  | Missing => Throw (lit "ENOENT: no such file or directory")
  end.

(** [JSON.parse(data)]. *)
Definition JSON_parse (data : jsstring) : result json :=
  match JSON.parse data with
  | Some v => Ok v
  | None => Throw (lit "SyntaxError")
  end.

(** The text of [countdowns.length] in the template literal of the log
    line. Reading a property of [null] throws. An array and a string have
    a length; [undefined] is printed for the other values (an object with
    a member of that very name prints the member, which is not modelled). *)
Definition length_text (v : json) : result jsstring :=
  match v with
  | JNull => Throw (lit "TypeError: Cannot read properties of null")
  | JArr items => Ok (string_of_Z (Z.of_nat (List.length items)))
  | JStr s => Ok (string_of_Z (Z.of_nat (List.length s)))
  | _ => Ok (lit "undefined")
  end.

(** The try block of [loadCountdowns]: the value of [countdowns] when the
    block ends, how the block completes, and what it logs. *)
Definition load_try (f : FileState) (countdowns : json)
  : json * result unit * list Event :=
  if file_exists f then
    match readFileSync f with
    | Throw message => (countdowns, Throw message, [])
    | Ok data =>
        match JSON_parse data with
        | Throw message => (countdowns, Throw message, [])
        | Ok v =>
            (* countdowns = JSON.parse(data) has been assigned *)
            match length_text v with
            | Throw message => (v, Throw message, [])
            | Ok n =>
                (v, Ok tt,
                 [ConsoleLog (lit "Loaded " ++ n
                              ++ lit " countdown(s) from file.")])
            end
        end
    end
  else (countdowns, Ok tt, []).

(** [loadCountdowns()]: [countdowns] is the value of the variable before
    the call, the empty array in a process that has just started; the
    result is its value after the call, with the log. *)
Definition loadCountdowns (f : FileState) (countdowns : json)
  : json * list Event :=
  match load_try f countdowns with
  | (v, Ok _, ev) => (v, ev)
  | (_, Throw message, ev) =>
      (JArr [], ev ++ [ConsoleError (lit "Error loading countdowns:") message])
  end.

(** [fs.writeFileSync(COUNTDOWNS_FILE, data)]: the file holds [data] when
    the write goes through. The file is opened with the flag [w], which
    truncates it before anything is written: a write that throws leaves
    the file as it was when the opening fails, and empty or cut short when
    the failure comes later. What it leaves is the answer [failed_write]
    of the environment, from the file as it was and the text. *)
Definition writeFileSync (data : jsstring) : M unit :=
  fun env s =>
    match write_file env (step s) data with
    | Ok _ =>
        (Ok tt, mkState (S (step s)) (countdowns s) (Content data)
                  (activity s),
         [WriteFile data true])
    | Throw message =>
        (Throw message,
         mkState (S (step s)) (countdowns s)
           (failed_write env (step s) (file s) data) (activity s),
         [WriteFile data false])
    end.

Definition count_text (n : nat) : jsstring :=
  string_of_Z (Z.of_nat n).

(** [saveCountdowns()]. *)
Definition saveCountdowns : M unit :=
  try_catch
    (cds <- get_countdowns ;;
     writeFileSync (JSON.stringify2 (encode_store cds)) ;;
     console_log (lit "Saved " ++ count_text (List.length cds)
                  ++ lit " countdown(s) to file."))
    (fun message => console_error (lit "Error saving countdowns:") message).

(** ** Presentation and the refresh of one tracking message *)

Definition prefix : jsstring := lit "!".

(** The stopwatch glyph and the space that start a title. *)
Definition icon : jsstring := [9201; 65039; 32]%N.
Definition check_mark : jsstring := [9989%N].

Definition blue : jsstring := lit "#0099ff".
Definition red : jsstring := lit "#ff0000".

Definition remaining_text (formatted : jsstring) : jsstring :=
  lit "Time remaining: **" ++ formatted ++ lit "**".

(** A chain of [EmbedBuilder] setters that ends in [setTimestamp()]: a
    setter throws when the builder refuses its argument, and the time
    stamp reads the clock. *)
Definition build_embed (c t d f : jsstring) : M Embed :=
  fun env =>
    (let e := mkEmbed c t d f None [] in
     if embed_ok env e then
       now <- Date_now ;;
       ret (mkEmbed c t d f (Some now) [])
     else throw (lit "ValidationError")) env.

(** [addFields({ name, value })]. *)
Definition add_field (e : Embed) (n v : jsstring) : M Embed :=
  fun env =>
    (let e' := mkEmbed (color e) (title e) (description e) (footer e)
                 (timestamp e) (fields e ++ [(n, v)]) in
     if embed_ok env e' then ret e' else throw (lit "ValidationError")) env.

Definition target_text (env : Env) (t : Z) : jsstring :=
  lit "Target: " ++ toLocaleString env t.

(** The embed of a tracking message during a refresh. *)
Definition refresh_embed (cd : Countdown) (tr : TimeRemaining) : M Embed :=
  fun env =>
    build_embed
      (if expired tr then red else blue)
      (icon ++ name cd)
      (if expired tr then expired_phrase
       else remaining_text (formatTimeRemaining tr))
      (target_text env (targetDate cd)) env.

Definition channels_fetch (channel : jsstring) : M unit :=
  r <- call (fun env k => fetch_channel env k channel) ;; lift r.

Definition messages_fetch (channel message : jsstring) : M unit :=
  r <- call (fun env k => fetch_message env k channel message) ;; lift r.

Definition message_edit (channel message : jsstring) (e : Embed) : M unit :=
  r <- call (fun env k => edit_message env k channel message e) ;;
  match r with
  | Ok _ => emit (Edit channel message e true)
  | Throw m => emit (Edit channel message e false) ;; throw m
  end.

(** [updateCountdownMessage(countdown)]. *)
Definition updateCountdownMessage (cd : Countdown) : M bool :=
  try_catch
    (now <- Date_now ;;
     let tr := getTimeRemaining (targetDate cd) now in
     embed <- refresh_embed cd tr ;;
     channels_fetch (channelId cd) ;;
     messages_fetch (channelId cd) (messageId cd) ;;
     message_edit (channelId cd) (messageId cd) embed ;;
     ret (negb (expired tr)))
    (fun message =>
       console_error (lit "Error updating countdown") message ;;
       ret false).

(** [updateBotStatus()]. *)
Definition updateBotStatus : M unit :=
  fun env s =>
    let n := List.length (countdowns s) in
    let text := count_text n ++ lit " countdown"
                ++ (if Nat.eqb n 1 then [] else lit "s") in
    (Ok tt, mkState (step s) (countdowns s) (file s) (Some text),
     [SetActivity text]).

(** ** The message handler *)

Record Message := mkMessage {
  author_bot : bool;
  author_id : jsstring;
  content : jsstring;
  channel_id : jsstring;
  can_manage_messages : bool   (* member.permissions.has('ManageMessages') *)
}.

Definition quote_mark : jsstring := [34%N].

Definition usage_text : jsstring :=
  lit "Usage: `!countdown " ++ quote_mark ++ lit "Event Name" ++ quote_mark
  ++ lit " YYYY-MM-DD [HH:MM:SS]`".

Definition invalid_date_text : jsstring :=
  lit "Invalid date" ++ [8212%N] ++ lit "I couldn" ++ [8217%N]
  ++ lit "t parse that. Please use YYYY-MM-DD [HH:MM:SS]".

Definition create_error_text (message : jsstring) : jsstring :=
  lit "An error occurred while creating the countdown: " ++ message.

Definition no_countdowns_text : jsstring := lit "No active countdowns.".

Definition need_index_text : jsstring :=
  lit "Please specify the index number of the countdown to delete. Use `!countdowns` to see the list.".

Definition invalid_index_text : jsstring := lit "Invalid countdown index.".

Definition not_owner_text : jsstring :=
  lit "You can only delete countdowns that you created.".

Definition deleted_text (n : jsstring) : jsstring :=
  lit "Countdown " ++ quote_mark ++ n ++ quote_mark ++ lit " has been deleted.".

Definition reply (text : jsstring) : M unit := emit (Reply text).

Definition channel_send (channel : jsstring) (e : Embed) : M jsstring :=
  r <- call (fun env k => send_message env k channel e) ;;
  emit (Send channel e r) ;;
  lift r.

Definition react (emoji : jsstring) : M unit :=
  r <- call (fun env k => react_message env k emoji) ;;
  match r with
  | Ok _ => emit (React emoji true)
  | Throw m => emit (React emoji false) ;; throw m
  end.

(** An element of a destructured array: [None] when the array is too
    short, which is [undefined]. *)
Definition element (l : list (option Z)) (i : nat) : option (option Z) :=
  nth_error l i.

(** [undefined] turns into NaN as an argument of [Date]. *)
Definition or_nan (x : option (option Z)) : option Z :=
  match x with Some v => v | None => None end.

(** [x = 0] in a destructuring pattern. *)
Definition or_zero (x : option (option Z)) : option Z :=
  match x with Some v => v | None => Some 0 end.

(** The create command, from the regular expression on. *)
Definition create_countdown (message : Message) : M unit :=
  match exec countdown_re (content message) with
  | None => reply usage_text
  | Some fullMatch =>
      let eventName :=
        match capture 1 fullMatch with Some s => s | None => [] end in
      let datePart :=
        match capture 2 fullMatch with Some s => s | None => [] end in
      let timePart := capture 3 fullMatch in
      let ymd := map Number (split_on 45 datePart) in
      let year := or_nan (element ymd 0) in
      let month := or_nan (element ymd 1) in
      let day := or_nan (element ymd 2) in
      let hms :=
        map Number
          (split_on 58
             (match timePart with
              | Some t => or_else t (lit "00:00:00")
              | None => lit "00:00:00"
              end)) in
      let hour := or_zero (element hms 0) in
      let minute := or_zero (element hms 1) in
      let second := or_zero (element hms 2) in
      fun env =>
        (match JSDate.construct (utc_of_local env) year
                 (option_map (fun m => m - 1) month) day hour minute second
         with
         | None => reply invalid_date_text
         | Some target =>
             now <- Date_now ;;
             let tr := getTimeRemaining target now in
             let initialDesc := formatTimeRemaining tr in
             embed <- build_embed blue (icon ++ eventName)
                        (remaining_text initialDesc)
                        (target_text env target) ;;
             try_catch
               (id <- channel_send (channel_id message) embed ;;
                created <- Date_now ;;
                cds <- get_countdowns ;;
                set_countdowns
                  (cds ++ [mkCountdown eventName target (channel_id message)
                             id (author_id message) created]) ;;
                saveCountdowns ;;
                updateBotStatus ;;
                react check_mark)
               (fun err =>
                  console_error (lit "Error creating countdown:") err ;;
                  reply (create_error_text err))
         end) env
  end.

(** The fields of the list embed, one per record, numbered from 1. *)
Fixpoint list_fields (cds : list Countdown) (i : nat) (e : Embed)
  : M Embed :=
  match cds with
  | [] => ret e
  | cd :: rest =>
      now <- Date_now ;;
      let tr := getTimeRemaining (targetDate cd) now in
      e' <- (fun env =>
               add_field e
                 (count_text (i + 1) ++ lit ". " ++ name cd)
                 (remaining_text (formatTimeRemaining tr) ++ JSON.newline
                  ++ target_text env (targetDate cd)) env) ;;
      list_fields rest (S i) e'
  end.

(** A send whose promise is left alone: a failure reaches nobody. *)
Definition send_detached (channel : jsstring) (e : Embed) : M unit :=
  try_catch (channel_send channel e ;; ret tt) (fun _ => ret tt).

(** The list command. *)
Definition list_countdowns (message : Message) : M unit :=
  cds <- get_countdowns ;;
  if Nat.eqb (List.length cds) 0 then reply no_countdowns_text
  else
    embed <- build_embed blue (lit "Active Countdowns")
               (lit "Here are all the active countdowns:") [] ;;
    embed <- list_fields cds 0 embed ;;
    send_detached (channel_id message) embed.

(** [countdowns.splice(idx, 1)]. *)
Definition splice1 (idx : nat) (cds : list Countdown) : list Countdown :=
  firstn idx cds ++ skipn (S idx) cds.

(** The delete command; [args] is what follows the command name. *)
Definition delete_countdown (message : Message) (args : list jsstring)
  : M unit :=
  match args with
  | [] => reply need_index_text
  | arg0 :: _ =>
      if negb (truthy arg0) then reply need_index_text
      else
        cds <- get_countdowns ;;
        match option_map (fun n => n - 1) (parseInt10 arg0) with
        | None => reply invalid_index_text
        | Some idx =>
            if (idx <? 0) || (idx >=? Z.of_nat (List.length cds)) then
              reply invalid_index_text
            else
              match nth_error cds (Z.to_nat idx) with
              | None => throw (lit "TypeError")
              | Some cd =>
                  if negb (jseqb (createdBy cd) (author_id message))
                     && negb (can_manage_messages message)
                  then reply not_owner_text
                  else
                    set_countdowns (splice1 (Z.to_nat idx) cds) ;;
                    saveCountdowns ;;
                    updateBotStatus ;;
                    reply (deleted_text (name cd))
              end
        end
  end.

(** The help command. *)
Definition help (message : Message) : M unit :=
  e <- (fun env =>
          (let e := mkEmbed blue (lit "Countdown Bot Help")
                      (lit "Here are the available commands:")
                      (lit "Countdown Bot") None
                      [ (prefix ++ lit "countdown " ++ quote_mark
                         ++ lit "Event Name" ++ quote_mark
                         ++ lit " YYYY-MM-DD [HH:MM:SS]",
                         lit "Create a new countdown for an event");
                        (prefix ++ lit "countdowns",
                         lit "List all active countdowns");
                        (prefix ++ lit "delcountdown <index>",
                         lit "Delete a countdown by its index number");
                        (prefix ++ lit "help",
                         lit "Show this help message") ] in
           if embed_ok env e then
             now <- Date_now ;;
             ret (mkEmbed (color e) (title e) (description e) (footer e)
                    (Some now) (fields e))
           else throw (lit "ValidationError")) env) ;;
  send_detached (channel_id message) e.

(** [content.slice(config.prefix.length).trim().split(/ +/)]. *)
Definition arguments_of (content : jsstring) : list jsstring :=
  split_spaces (trim (slice (List.length prefix) content)).

(** The [messageCreate] handler. A [Throw] is a rejection of the promise
    of the handler, which nobody catches. *)
Definition messageCreate (message : Message) : M unit :=
  if author_bot message then ret tt
  else if negb (startsWith (content message) prefix) then ret tt
  else
    let args := arguments_of (content message) in
    let command := toLowerCase (hd [] args) in     (* args.shift() *)
    let args := tl args in
    if jseqb command (lit "countdown") then create_countdown message
    else if jseqb command (lit "countdowns") then list_countdowns message
    else if jseqb command (lit "delcountdown") then
      delete_countdown message args
    else if jseqb command (lit "help") then help message
    else ret tt.

(** ** The refresh cycle

    [updateAllCountdowns] comes after the message handler here, because
    the handlers of the messages that arrive while it awaits run in the
    middle of it. *)

(** The handlers of the messages that arrive during an await, run one
    after the other. A handler is run whole, at the place where its block
    that writes the array runs (the create command awaits its send before
    that block, and reads nothing of the state before it). A handler that
    throws ends the process, and the pass with it. *)
Fixpoint handle_all (arriving : list Message) : M unit :=
  match arriving with
  | [] => ret tt
  | m :: rest => messageCreate m ;; handle_all rest
  end.

(** The loop over the records that are left, once no more message
    arrives: the array no longer changes under the loop. *)
Fixpoint refresh_rest (cds stillActive : list Countdown)
  : M (list Countdown) :=
  match cds with
  | [] => ret stillActive
  | cd :: rest =>
      active <- updateCountdownMessage cd ;;
      refresh_rest rest
        (if active : bool then stillActive ++ [cd] else stillActive)
  end.

(** The loop [for (const cd of countdowns)] of [updateAllCountdowns]. The
    iterator holds the array and an index [i], and reads the array as it
    is when the loop comes back from an await: a [splice] made by a
    handler in the meantime shifts the records under the index, a [push]
    extends what is visited. [arriving] gives, for the records visited in
    turn, the messages whose handlers run while the refresh of the record
    is awaited; they are run after the refresh, which reads nothing that
    they write. When [arriving] is used up no more message arrives. One
    cycle runs at a time: the handlers change the array in place and
    nothing rebinds [countdowns] during the loop. *)
Fixpoint refresh_each (arriving : list (list Message)) (i : nat)
    (stillActive : list Countdown) : M (list Countdown) :=
  match arriving with
  | [] =>
      cds <- get_countdowns ;;
      refresh_rest (skipn i cds) stillActive
  | during :: later =>
      cds <- get_countdowns ;;
      match nth_error cds i with
      | None => ret stillActive
      | Some cd =>
          active <- updateCountdownMessage cd ;;
          handle_all during ;;
          refresh_each later (S i)
            (if active : bool then stillActive ++ [cd] else stillActive)
      end
  end.

(** [updateAllCountdowns()]. The length that [stillActive] is compared
    with is that of the array when the loop has ended. *)
Definition updateAllCountdowns (arriving : list (list Message)) : M unit :=
  stillActive <- refresh_each arriving 0 [] ;;
  cds <- get_countdowns ;;
  if negb (Nat.eqb (List.length stillActive) (List.length cds)) then
    set_countdowns stillActive ;;
    saveCountdowns ;;
    updateBotStatus
  else ret tt.

(** The [ready] handler, run in a process that has just started, where
    the array is empty. The value that [loadCountdowns] leaves in
    [countdowns] is read as an array of records; [None] stands for a
    value that is none, which the state does not represent. The timer
    that the handler starts is what runs [updateAllCountdowns]. *)
Definition ready (tag : jsstring) (f : FileState) : option (M unit) :=
  let '(v, loaded) := loadCountdowns f (JArr []) in
  match decode_store v with
  | None => None
  | Some cds =>
      Some (console_log (lit "Logged in as " ++ tag ++ lit ".") ;;
            (fun _ s =>
               (Ok tt, mkState (step s) cds (file s) (activity s), loaded)) ;;
            updateBotStatus)
  end.

(** ** Vocabulary of the properties *)

(** *** The formatter, as the specification words it *)

(** The four components in the order of the phrase. *)
Definition components (tr : TimeRemaining) : list (Z * string) :=
  [ (days tr, "day"); (hours tr, "hour");
    (minutes tr, "minute"); (seconds tr, "second") ]%string.

(** Singular for the value 1, plural for every other value. *)
Definition noun (v : Z) (unit : string) : jsstring :=
  if v =? 1 then lit unit else lit unit ++ lit "s".

Definition phrase (c : Z * string) : jsstring :=
  string_of_Z (fst c) ++ lit " " ++ noun (fst c) (snd c).

Definition nonzero (c : Z * string) : bool := negb (fst c =? 0).

Definition all_zero (tr : TimeRemaining) : bool :=
  (days tr =? 0) && (hours tr =? 0) && (minutes tr =? 0)
  && (seconds tr =? 0).

(** The phrase of the specification: the fixed phrase of an expired
    countdown; the fixed phrase of a countdown with nothing left to show;
    otherwise the phrases of the components that are not zero, joined by
    commas. *)
Definition format_spec (tr : TimeRemaining) : jsstring :=
  if expired tr then expired_phrase
  else if all_zero tr then moment_phrase
  else join (lit ", ") (map phrase (filter nonzero (components tr))).

(** A duration as the calculator returns it has no negative field. *)
Definition nonnegative (tr : TimeRemaining) : Prop :=
  0 <= days tr /\ 0 <= hours tr /\ 0 <= minutes tr /\ 0 <= seconds tr.

(** *** The refresh of one record, read off the environment *)

Definition is_ok {A} (r : result A) : bool :=
  match r with Ok _ => true | Throw _ => false end.

(** The duration computed for [cd] by a refresh that starts at step [k]. *)
Definition duration_at (env : Env) (cd : Countdown) (k : nat)
  : TimeRemaining :=
  getTimeRemaining (targetDate cd) (clock env k).

(** The embed of that refresh, before and after its time stamp. *)
Definition draft_at (env : Env) (cd : Countdown) (k : nat) : Embed :=
  let tr := duration_at env cd k in
  mkEmbed (if expired tr then red else blue) (icon ++ name cd)
    (if expired tr then expired_phrase
     else remaining_text (formatTimeRemaining tr))
    (target_text env (targetDate cd)) None [].

Definition embed_at (env : Env) (cd : Countdown) (k : nat) : Embed :=
  let e := draft_at env cd k in
  mkEmbed (color e) (title e) (description e) (footer e)
    (Some (clock env (1 + k))) [].

(** The refresh gets as far as the edit request: the embed is built and
    the channel and the message are fetched. *)
Definition reaches_edit (env : Env) (cd : Countdown) (k : nat) : bool :=
  embed_ok env (draft_at env cd k)
  && is_ok (fetch_channel env (2 + k) (channelId cd))
  && is_ok (fetch_message env (3 + k) (channelId cd) (messageId cd)).

(** The edit of the tracking message succeeds. *)
Definition edit_succeeds (env : Env) (cd : Countdown) (k : nat) : bool :=
  reaches_edit env cd k
  && is_ok (edit_message env (4 + k) (channelId cd) (messageId cd)
              (embed_at env cd k)).

(** The record is kept: its edit succeeds and its duration is not
    expired. *)
Definition kept (env : Env) (cd : Countdown) (k : nat) : bool :=
  edit_succeeds env cd k && negb (expired (duration_at env cd k)).

Definition state_after {A} (x : result A * State * list Event) : State :=
  snd (fst x).

Definition events_of {A} (x : result A * State * list Event)
  : list Event := snd x.

Definition value_of {A} (x : result A * State * list Event) : result A :=
  fst (fst x).

(** The records of a pass, each with the step at which its refresh
    starts. *)
Fixpoint pass_steps (env : Env) (cds : list Countdown) (s : State)
  : list (Countdown * nat) :=
  match cds with
  | [] => []
  | cd :: rest =>
      (cd, step s)
      :: pass_steps env rest (state_after (updateCountdownMessage cd env s))
  end.

Definition kept_at (env : Env) (p : Countdown * nat) : bool :=
  kept env (fst p) (snd p).

(** The retained set of a refresh cycle that starts in state [s]. *)
Definition retained (env : Env) (s : State) : list Countdown :=
  map fst (filter (kept_at env) (pass_steps env (countdowns s) s)).

(** A save or a refresh of the status text. *)
Definition is_save_or_status (e : Event) : bool :=
  match e with
  | WriteFile _ _ => true
  | SetActivity _ => true
  | _ => false
  end.

(** *** Sample data *)

Definition sample_env : Env :=
  mkEnv (fun k => 1700000000000 + Z.of_nat k) (fun t => t)
    (fun _ => lit "a date") (fun _ => true)
    (fun _ _ => Ok tt) (fun _ _ _ => Ok tt) (fun _ _ _ _ => Ok tt)
    (fun k _ _ => Ok (lit "M" ++ count_text k))
    (fun _ _ => Ok tt) (fun _ _ => Ok tt) (fun _ f _ => f).

Definition sample_record (n : string) (target : Z) (user : string)
  : Countdown :=
  mkCountdown (lit n) target (lit "C") (lit ("M-" ++ n)) (lit user)
    1690000000000.

Definition sample_store : list Countdown :=
  [ sample_record "Launch" 4070952000000 "U1";
    sample_record "Past" 1600000000000 "U2";
    sample_record "Party" 1800000000000 "U1" ].

Definition sample_state : State :=
  mkState 0 sample_store Missing None.

Definition command_message (bot : bool) (user : string)
    (text : jsstring) (manage : bool) : Message :=
  mkMessage bot (lit user) text (lit "C") manage.

Definition bad_date_command : jsstring :=
  lit "!countdown " ++ quote_mark ++ lit "Bad" ++ quote_mark
  ++ lit " 2024-13-40".

Definition hour_25_command : jsstring :=
  lit "!countdown " ++ quote_mark ++ lit "X" ++ quote_mark
  ++ lit " 2099-01-01 25:00".

(** No save and no refresh of the status text among the events. *)
Definition quiet (ev : list Event) : Prop :=
  Forall (fun e => is_save_or_status e = false) ev.

(** The array, the file and the status text are the same in both states. *)
Definition same_store (s s' : State) : Prop :=
  countdowns s' = countdowns s /\ file s' = file s
  /\ activity s' = activity s.

(** *** Reading JSON text back *)

(** A run of JSON white space. *)
Definition blank (w : jsstring) : Prop :=
  forallb JSON.is_json_ws w = true.

(** What may follow the text of a number in the output of
    [JSON.stringify]: nothing, a comma or a line break. *)
Definition ends_number (rest : jsstring) : Prop :=
  match rest with
  | [] => True
  | c :: _ => c = 44%N \/ c = 10%N
  end.

(** A string or an integer. *)
Definition scalar (v : json) : Prop :=
  (exists s, v = JStr s) \/ (exists z, v = JNum (inject_Z z)).

(** The text of one member of an object, at indentation [inner]. *)
Definition member_text (gap inner : jsstring) (kv : jsstring * json)
  : jsstring :=
  JSON.quote (fst kv) ++ lit ": " ++ JSON.serialize gap inner (snd kv).

(** *** The index argument of the delete command, as the claim words it *)

(** A numeral: decimal digits and nothing else. *)
Definition numeric (s : jsstring) : bool :=
  truthy s && forallb is_digit s.

(** "A non-numeric index argument is a validation failure, and the store
    is unchanged", for every delete command. *)
Definition non_numeric_is_refused : Prop :=
  forall (env : Env) (s : State) (m : Message) (arg0 : jsstring),
    author_bot m = false ->
    startsWith (content m) prefix = true ->
    toLowerCase (hd [] (arguments_of (content m))) = lit "delcountdown" ->
    hd_error (tl (arguments_of (content m))) = Some arg0 ->
    numeric arg0 = false ->
    countdowns (state_after (messageCreate m env s)) = countdowns s.

(** The line that [loadCountdowns] logs when its try block throws. *)
Definition load_error (message : jsstring) : Event :=
  ConsoleError (lit "Error loading countdowns:") message.

(** *** More sample data *)

(** An environment in which the tracking message of "Party" is gone. *)
Definition flaky_env : Env :=
  mkEnv (clock sample_env) (utc_of_local sample_env)
    (toLocaleString sample_env) (embed_ok sample_env)
    (fetch_channel sample_env)
    (fun _ _ message =>
       if jseqb message (lit "M-Party") then Throw (lit "Unknown Message")
       else Ok tt)
    (edit_message sample_env) (send_message sample_env)
    (react_message sample_env) (write_file sample_env)
    (failed_write sample_env).

(** A store in which nothing is due and every message is there. *)
Definition calm_state : State :=
  mkState 0
    [ sample_record "Launch" 4070952000000 "U1";
      sample_record "Party" 1800000000000 "U1" ]
    (Content (lit "[]")) (Some (lit "2 countdowns")).

(** *** The status text, the error lines and the order of the records *)

(** The presence text that [updateBotStatus] sets for a store of [n]
    records. *)
Definition status_text (n : nat) : jsstring :=
  count_text n ++ lit " countdown" ++ (if Nat.eqb n 1 then [] else lit "s").

Definition is_console_error (e : Event) : bool :=
  match e with ConsoleError _ _ => true | _ => false end.

(** [subseq l l']: [l] is [l'] with some elements left out, the others in
    their order. *)
Inductive subseq {A : Type} : list A -> list A -> Prop :=
| subseq_nil : subseq [] []
| subseq_skip a l l' : subseq l l' -> subseq l (a :: l')
| subseq_keep a l l' : subseq l l' -> subseq (a :: l) (a :: l').

(** *** What a handler leaves behind *)

(** The presence text tells the size of the array. *)
Definition in_step (s : State) : Prop :=
  activity s = Some (status_text (List.length (countdowns s))).

(** The file holds the text of the array. *)
Definition synced (s : State) : Prop :=
  file s = Content (JSON.stringify2 (encode_store (countdowns s))).

(** Every write of the file goes through. *)
Definition reliable_disk (env : Env) : Prop :=
  forall k data, write_file env k data = Ok tt.

(** What a run that changed the array leaves behind. *)
Definition committed (env : Env) (s' : State) (ev : list Event) : Prop :=
  in_step s'
  /\ (exists ok,
        In (WriteFile (JSON.stringify2 (encode_store (countdowns s'))) ok) ev
        /\ (ok = true -> synced s'))
  /\ (reliable_disk env -> synced s').

(** A run is settled when it left the array, the file and the status text
    alone and made no save, or when it committed a new array. *)
Definition settled (env : Env) (s : State)
    (x : result unit * State * list Event) : Prop :=
  same_store s (state_after x) /\ quiet (events_of x)
  \/ committed env (state_after x) (events_of x).

(** A run keeps the house in order when it keeps the status text in step
    with the array, and the file too on a disk whose writes go through. *)
Definition tidy (env : Env) (s s' : State) : Prop :=
  (in_step s -> in_step s')
  /\ (reliable_disk env -> synced s -> synced s').

(** *** The three ends of the create branch *)

(** Nothing is sent and the state is as before. *)
Definition create_kept (s : State) (x : result unit * State * list Event)
  : Prop :=
  same_store s (state_after x)
  /\ (events_of x = [Reply usage_text]
      \/ events_of x = [Reply invalid_date_text]
      \/ events_of x = []).

(** The send throws. *)
Definition create_send_failed (s : State) (m : Message)
    (x : result unit * State * list Event) : Prop :=
  exists e err,
    same_store s (state_after x)
    /\ value_of x = Ok tt
    /\ events_of x
       = [Send (channel_id m) e (Throw err);
          ConsoleError (lit "Error creating countdown:") err;
          Reply (create_error_text err)].

(** The send goes through, and a record is appended and saved. *)
Definition create_stored (env : Env) (s : State) (m : Message)
    (x : result unit * State * list Event) : Prop :=
  exists e id cd ok saved tail,
    events_of x
    = Send (channel_id m) e (Ok id)
      :: WriteFile (JSON.stringify2 (encode_store (countdowns s ++ [cd]))) ok
      :: saved
      :: SetActivity (status_text (List.length (countdowns s ++ [cd])))
      :: tail
    /\ ((exists text, saved = ConsoleLog text)
        \/ exists label message, saved = ConsoleError label message)
    /\ (tail = [React check_mark true]
        \/ exists err,
             tail = [React check_mark false;
                     ConsoleError (lit "Error creating countdown:") err;
                     Reply (create_error_text err)])
    /\ value_of x = Ok tt
    /\ countdowns (state_after x) = countdowns s ++ [cd]
    /\ messageId cd = id
    /\ channelId cd = channel_id m
    /\ createdBy cd = author_id m
    /\ title e = icon ++ name cd
    /\ activity (state_after x)
       = Some (status_text (List.length (countdowns s ++ [cd])))
    /\ (if ok : bool
        then file (state_after x)
             = Content (JSON.stringify2 (encode_store (countdowns s ++ [cd])))
        else exists k,
               file (state_after x)
               = failed_write env k (file s)
                   (JSON.stringify2 (encode_store (countdowns s ++ [cd]))))
    /\ (reliable_disk env -> ok = true).

(** *** What the expression of the create command matches *)

(** What a regular expression matches: [matches r s caps s' caps'] when
    [r] matches a prefix of [s], leaves [s'] and turns the captures [caps]
    into [caps']. *)
Inductive matches
  : re -> jsstring -> captures -> jsstring -> captures -> Prop :=
| matches_eps s c : matches Eps s c s c
| matches_chr p x s c : p x = true -> matches (Chr p) (x :: s) c s c
| matches_seq a b s c s1 c1 s2 c2 :
    matches a s c s1 c1 -> matches b s1 c1 s2 c2 ->
    matches (Seq a b) s c s2 c2
| matches_opt_some a s c s1 c1 :
    matches a s c s1 c1 -> matches (Opt a) s c s1 c1
| matches_opt_none a s c : matches (Opt a) s c s c
| matches_star_stop a s c : matches (Star a) s c s c
| matches_star_step a s c s1 c1 s2 c2 :
    matches a s c s1 c1 -> matches (Star a) s1 c1 s2 c2 ->
    matches (Star a) s c s2 c2
| matches_group i a s c s1 c1 :
    matches a s c s1 c1 ->
    matches (Group i a) s c s1
      ((i, firstn (List.length s - List.length s1) s) :: c1)
| matches_eos c : matches Eos [] c [] c.

(** The expression of the time group. *)
Definition time_re : re :=
  seqs [ Opt (in_range 48 50); dgt; chr 58; in_range 48 53; dgt;
         Opt (seqs [chr 58; in_range 48 53; dgt]) ].

(** A run of white space. *)
Definition spaces (w : jsstring) : bool := forallb is_space w.

Definition not_quote (c : N) : bool := negb (c =? 34)%N.

Definition not_blank (c : N) : bool := negb (c =? 32)%N.

Definition between (lo hi c : N) : bool := ((lo <=? c) && (c <=? hi))%N.

(** The texts of the date group: four digits, two digits and two digits
    with a hyphen between them. *)
Definition is_date_text (s : jsstring) : bool :=
  match s with
  | [y1; y2; y3; y4; h1; m1; m2; h2; d1; d2] =>
      forallb is_digit [y1; y2; y3; y4; m1; m2; d1; d2]
      && (h1 =? 45)%N && (h2 =? 45)%N
  | _ => false
  end.

(** A colon and two digits, the first of them at most 5. *)
Definition is_sixtieth (s : jsstring) : bool :=
  match s with
  | [c; a; b] => (c =? 58)%N && between 48 53 a && is_digit b
  | _ => false
  end.

(** Minutes, and seconds or nothing after them. *)
Definition is_clock_tail (s : jsstring) : bool :=
  is_sixtieth (firstn 3 s)
  && (match skipn 3 s with [] => true | r => is_sixtieth r end).

(** The texts of the time group: an hour of one digit, or of two digits
    the first of which is at most 2, then the minutes and the optional
    seconds. *)
Definition is_time_text (s : jsstring) : bool :=
  match s with
  | h :: r =>
      is_digit h
      && (is_clock_tail r
          || match r with
             | h' :: r' => between 48 50 h && is_digit h' && is_clock_tail r'
             | [] => false
             end)
  | [] => false
  end.

(** The contents that the expression of the create command is written
    for, with the name, the date and the optional time that they hold. *)
Definition create_shape (content name date : jsstring)
    (time : option jsstring) : Prop :=
  exists w1 w2 rest,
    content = lit "!countdown" ++ w1 ++ quote_mark ++ name ++ quote_mark
              ++ w2 ++ date ++ rest
    /\ w1 <> [] /\ spaces w1 = true
    /\ name <> [] /\ forallb not_quote name = true
    /\ w2 <> [] /\ spaces w2 = true
    /\ is_date_text date = true
    /\ match time with
       | None => spaces rest = true
       | Some t =>
           exists w3 w4,
             rest = w3 ++ t ++ w4
             /\ w3 <> [] /\ spaces w3 = true
             /\ is_time_text t = true /\ spaces w4 = true
       end.

(** The captures of a match on such a content. *)
Definition create_captures (name date : jsstring) (time : option jsstring)
  : captures :=
  match time with
  | Some t => [(3%nat, t); (2%nat, date); (1%nat, name)]
  | None => [(2%nat, date); (1%nat, name)]
  end.

(** *** The local date and time of a create command *)

(** The numbers that a date text and a time text spell, read by position;
    seconds that are left out are 0, and so is every field of a time that
    is left out. *)
Definition date_year (date : jsstring) : Z := digits_value 0 (firstn 4 date).
Definition date_month (date : jsstring) : Z :=
  digits_value 0 (firstn 2 (skipn 5 date)).
Definition date_day (date : jsstring) : Z := digits_value 0 (skipn 8 date).

Definition clock_fields (time : option jsstring) : Z * Z * Z :=
  match time with
  | None => (0, 0, 0)
  | Some t =>
      let h := take_while is_digit t in
      let r := skipn (List.length h + 1) t in
      (digits_value 0 h, digits_value 0 (firstn 2 r),
       digits_value 0 (skipn 3 r))
  end.

(** The time value of the local date and time that the texts spell: the
    month counts from 1 in the text and from 0 in the constructor, and
    fields beyond their range carry over. *)
Definition create_target (utc : Z -> Z) (date : jsstring)
    (time : option jsstring) : Z :=
  let y := date_year date in
  let '(h, mi, se) := clock_fields time in
  utc (JSDate.MakeDate
         (JSDate.MakeDay (if (0 <=? y) && (y <=? 99) then 1900 + y else y)
            (date_month date - 1) (date_day date))
         (JSDate.MakeTime h mi se 0)).

(** The offset of local time from UTC stays within a day. *)
Definition zone_within_a_day (env : Env) : Prop :=
  forall t, Z.abs (utc_of_local env t - t) <= JSDate.msPerDay.

(** The state of a process that has just started, with the file [f]. *)
Definition fresh (f : FileState) : State := mkState 0 [] f None.

(** *** Sample data of the handlers *)

Definition launch_command : jsstring :=
  lit "!countdown " ++ quote_mark ++ lit "Launch" ++ quote_mark
  ++ lit " 2030-06-15 09:30".

(** The same command with a tab after the command word. *)
Definition tab_command : jsstring :=
  lit "!countdown" ++ [9%N] ++ quote_mark ++ lit "Launch" ++ quote_mark
  ++ lit " 2030-06-15 09:30".

(** The delete command of the user U1 for the first record. *)
Definition delete_first : Message :=
  command_message false "U1" (lit "!delcountdown 1") false.

(** An environment in which no message can be sent. *)
Definition deaf_env : Env :=
  mkEnv (clock sample_env) (utc_of_local sample_env)
    (toLocaleString sample_env) (embed_ok sample_env)
    (fetch_channel sample_env) (fetch_message sample_env)
    (edit_message sample_env)
    (fun _ _ _ => Throw (lit "Missing Access"))
    (react_message sample_env) (write_file sample_env)
    (failed_write sample_env).

(** An environment in which no reaction can be added. *)
Definition mute_env : Env :=
  mkEnv (clock sample_env) (utc_of_local sample_env)
    (toLocaleString sample_env) (embed_ok sample_env)
    (fetch_channel sample_env) (fetch_message sample_env)
    (edit_message sample_env) (send_message sample_env)
    (fun _ _ => Throw (lit "Missing Permissions"))
    (write_file sample_env) (failed_write sample_env).

(** An environment whose disk is full: every write throws after the
    file was truncated. *)
Definition full_disk_env : Env :=
  mkEnv (clock sample_env) (utc_of_local sample_env)
    (toLocaleString sample_env) (embed_ok sample_env)
    (fetch_channel sample_env) (fetch_message sample_env)
    (edit_message sample_env) (send_message sample_env)
    (react_message sample_env)
    (fun _ _ => Throw (lit "ENOSPC: no space left on device"))
    (fun _ _ _ => Content []).

(** A state whose file and status text agree with its array. *)
Definition tidy_state : State :=
  mkState 0 sample_store
    (Content (JSON.stringify2 (encode_store sample_store)))
    (Some (lit "3 countdowns")).

(** *** Commands that arrive during a refresh cycle *)

(** The clock stays before [target] over the [n] calls to the outside
    that follow the state [s]. *)
Definition ahead_during (env : Env) (s : State) (n : nat) (target : Z)
  : Prop :=
  forall k, (step s <= k <= step s + n)%nat -> clock env k < target.

(** The clock has reached [target] over those calls. *)
Definition due_during (env : Env) (s : State) (n : nat) (target : Z)
  : Prop :=
  forall k, (step s <= k <= step s + n)%nat -> target <= clock env k.

(** A store whose last record is due, with its file and status text. *)
Definition busy_state : State :=
  mkState 0
    [ sample_record "Launch" 4070952000000 "U1";
      sample_record "Party" 1800000000000 "U1";
      sample_record "Past" 1600000000000 "U2" ]
    (Content (lit "[]")) (Some (lit "3 countdowns")).

(** * Properties *)

(** ** The duration calculator *)

Section ExactArithmetic.

Lemma Qfloor_div_pos (x : Q) (m : positive) :
  Qfloor (x / inject_Z (Zpos m)) = Qfloor x / Zpos m.
Proof.
  destruct x as [n d]. unfold Qdiv, Qinv, Qmult, Qfloor, inject_Z. simpl.
  rewrite Z.mul_1_r, Pos2Z.inj_mul, Z.div_div by lia. reflexivity.
Qed.

Lemma Qfloor_sub_Z (x : Q) (k : Z) :
  Qfloor (x - inject_Z k) = Qfloor x - k.
Proof.
  destruct x as [n d]. unfold Qminus, Qplus, Qopp, Qfloor, inject_Z. simpl.
  rewrite Pos.mul_1_r, Z.mul_1_r.
  replace (n + - k * Zpos d) with (n + (- k) * Zpos d) by ring.
  rewrite Z.div_add by lia. ring.
Qed.

Lemma Qdiv_pos_nonneg (x : Q) (m : positive) :
  (0 <= x)%Q -> Qle_bool 0 (x / inject_Z (Zpos m)) = true.
Proof.
  intros Hx. apply Qle_bool_iff. apply Qle_shift_div_l.
  - reflexivity.
  - rewrite Qmult_0_l. exact Hx.
Qed.

Lemma floor_rem (x : Q) (m : positive) :
  (0 <= x)%Q ->
  Math_floor (js_rem x (inject_Z (Zpos m))) = Qfloor x mod Zpos m.
Proof.
  intros Hx. unfold Math_floor, js_rem, Qtruncate.
  rewrite Qdiv_pos_nonneg by exact Hx.
  rewrite Qfloor_div_pos.
  rewrite <- inject_Z_mult, Qfloor_sub_Z.
  rewrite Z.mod_eq by lia. reflexivity.
Qed.

End ExactArithmetic.

Lemma getTimeRemaining_fields (target now : Z) :
  0 < target - now ->
  getTimeRemaining target now =
    mkTR false (target - now)
      ((target - now) / 86400000)
      (((target - now) / 3600000) mod 24)
      (((target - now) / 1000 / 60) mod 60)
      (((target - now) / 1000) mod 60).
Proof.
  intros Hpos. unfold getTimeRemaining.
  destruct (Z.leb_spec (target - now) 0) as [H | _]; [lia |].
  set (T := target - now) in *.
  assert (Ht : (0 <= inject_Z T)%Q).
  { change 0%Q with (inject_Z 0). rewrite <- Zle_Qle. lia. }
  f_equal.
  - unfold Math_floor. 
    change (1000 * 60 * 60 * 24)%Q with (inject_Z 86400000).
    rewrite Qfloor_div_pos, Qfloor_Z. reflexivity.
  - change (1000 * 60 * 60)%Q with (inject_Z 3600000).
    change 24%Q with (inject_Z 24).
    rewrite floor_rem.
    + rewrite Qfloor_div_pos, Qfloor_Z. reflexivity.
    + apply Qle_shift_div_l; [reflexivity | rewrite Qmult_0_l; exact Ht].
  - change 60%Q with (inject_Z 60). change 1000%Q with (inject_Z 1000).
    rewrite floor_rem.
    + rewrite !Qfloor_div_pos, Qfloor_Z. reflexivity.
    + apply Qle_shift_div_l; [reflexivity | rewrite Qmult_0_l].
      apply Qle_shift_div_l; [reflexivity | rewrite Qmult_0_l; exact Ht].
  - change 60%Q with (inject_Z 60). change 1000%Q with (inject_Z 1000).
    rewrite floor_rem.
    + rewrite Qfloor_div_pos, Qfloor_Z. reflexivity.
    + apply Qle_shift_div_l; [reflexivity | rewrite Qmult_0_l; exact Ht].
Qed.

(** C3. For every target instant and current instant: when the target
    is not after the current instant the calculator returns
    [expired = true] with every numeric field zero; otherwise it returns
    [expired = false], the days are the floor of the difference divided
    by 86400000, the hours lie in 0..23, the minutes and the seconds in
    0..59, and days, hours, minutes and seconds add up to the floor of
    the difference in seconds. *)
Theorem getTimeRemaining_contract (target now : Z) :
  let tr := getTimeRemaining target now in
  (target - now <= 0 ->
     expired tr = true /\ total tr = 0 /\ days tr = 0 /\ hours tr = 0
     /\ minutes tr = 0 /\ seconds tr = 0)
  /\
  (0 < target - now ->
     expired tr = false
     /\ days tr = (target - now) / 86400000
     /\ 0 <= hours tr <= 23
     /\ 0 <= minutes tr <= 59
     /\ 0 <= seconds tr <= 59
     /\ days tr * 86400 + hours tr * 3600 + minutes tr * 60 + seconds tr
        = (target - now) / 1000).
Proof.
  cbv zeta. split.
  - intros Hle. unfold getTimeRemaining.
    destruct (Z.leb_spec (target - now) 0) as [_ | H]; [| lia].
    cbn. repeat split; reflexivity.
  - intros Hpos. rewrite (getTimeRemaining_fields target now Hpos). cbn.
    set (T := target - now) in *.
    set (S := T / 1000).
    assert (HS : 0 <= S) by (apply Z.div_pos; lia).
    replace (T / 3600000) with (S / 3600)
      by (unfold S; rewrite Z.div_div by lia; reflexivity).
    replace (T / 86400000) with (S / 86400)
      by (unfold S; rewrite Z.div_div by lia; reflexivity).
    pose proof (Z.mod_pos_bound (S / 3600) 24 ltac:(lia)).
    pose proof (Z.mod_pos_bound (S / 60) 60 ltac:(lia)).
    pose proof (Z.mod_pos_bound S 60 ltac:(lia)).
    pose proof (Z.div_mod S 60 ltac:(lia)).
    pose proof (Z.div_mod (S / 60) 60 ltac:(lia)).
    pose proof (Z.div_mod (S / 3600) 24 ltac:(lia)).
    replace (S / 60 / 60) with (S / 3600) in * by (rewrite Z.div_div by lia; reflexivity).
    replace (S / 3600 / 24) with (S / 86400) in * by (rewrite Z.div_div by lia; reflexivity).
    repeat split; lia.
Qed.

Lemma getTimeRemaining_nonnegative (target now : Z) :
  nonnegative (getTimeRemaining target now).
Proof.
  unfold nonnegative.
  destruct (Z.leb_spec (target - now) 0) as [Hle | Hpos].
  - unfold getTimeRemaining. apply Z.leb_le in Hle. rewrite Hle. cbn. lia.
  - rewrite (getTimeRemaining_fields target now Hpos). cbn.
    pose proof (Z.mod_pos_bound ((target - now) / 3600000) 24 ltac:(lia)).
    pose proof (Z.mod_pos_bound ((target - now) / 1000 / 60) 60 ltac:(lia)).
    pose proof (Z.mod_pos_bound ((target - now) / 1000) 60 ltac:(lia)).
    assert (0 <= (target - now) / 86400000) by (apply Z.div_pos; lia).
    lia.
Qed.

Lemma getTimeRemaining_contract_witness :
  0 < 90061999 - 0
  /\ getTimeRemaining 90061999 0 = mkTR false 90061999 1 1 1 1
  /\ days (getTimeRemaining 90061999 0) * 86400
     + hours (getTimeRemaining 90061999 0) * 3600
     + minutes (getTimeRemaining 90061999 0) * 60
     + seconds (getTimeRemaining 90061999 0)
     = (90061999 - 0) / 1000.
Proof.
  assert (H : 0 < 90061999 - 0) by lia.
  split; [exact H |]. split; [reflexivity |].
  exact (proj2 (proj2 (proj2 (proj2 (proj2
           (proj2 (getTimeRemaining_contract 90061999 0) H)))))).
Defined.


(** ** The duration formatter *)

Section Formatter.

Lemma part_phrase (v : Z) (u : string) : part v u = phrase (v, u).
Proof.
  unfold part, phrase, noun. cbn [fst snd].
  destruct (v =? 1); [rewrite app_nil_r |]; reflexivity.
Qed.

Lemma push_if_pos_filter (v : Z) (u : string) (parts : list jsstring) :
  0 <= v ->
  push_if_pos v u parts = parts ++ map phrase (filter nonzero [(v, u)]).
Proof.
  intros Hv. unfold push_if_pos, nonzero. cbn [filter fst].
  destruct (Z.ltb_spec 0 v) as [Hpos | Hle].
  - destruct (Z.eqb_spec v 0) as [-> | _]; [lia |].
    cbn. rewrite part_phrase. reflexivity.
  - assert (v = 0) as -> by lia. cbn. rewrite app_nil_r. reflexivity.
Qed.

Lemma truthy_app_r (a b : jsstring) : truthy b = true -> truthy (a ++ b) = true.
Proof. destruct a; [trivial | reflexivity]. Qed.

Lemma truthy_phrase (c : Z * string) : truthy (phrase c) = true.
Proof. unfold phrase. apply truthy_app_r. reflexivity. Qed.

Lemma truthy_join (sep : jsstring) (l : list jsstring) :
  l <> [] -> (forall x, In x l -> truthy x = true) ->
  truthy (join sep l) = true.
Proof.
  destruct l as [| p rest]; [congruence |]. intros _ Hall.
  assert (Hp : truthy p = true) by (apply Hall; left; reflexivity).
  destruct rest as [| q rest]; cbn [join]; [exact Hp |].
  destruct p; [discriminate | reflexivity].
Qed.

Lemma filter_nonzero_nil (tr : TimeRemaining) :
  filter nonzero (components tr) = [] <-> all_zero tr = true.
Proof.
  unfold components, all_zero, nonzero. cbn [filter fst].
  destruct (days tr =? 0), (hours tr =? 0), (minutes tr =? 0),
    (seconds tr =? 0); cbn; split; congruence.
Qed.

End Formatter.

(** C4. For every duration with no negative field, the formatter returns
    the fixed phrase of an expired countdown when the duration is
    expired; the fixed phrase "Just a moment" when it is not expired and
    every component is zero; and otherwise the components that are not
    zero, in the order days, hours, minutes, seconds, each as its number
    and its unit, singular for the value 1 and plural for every other
    value, joined by a comma and a space: no unit with the value zero
    occurs. *)
Theorem formatTimeRemaining_spec (tr : TimeRemaining) :
  nonnegative tr ->
  formatTimeRemaining tr = format_spec tr
  /\ (expired tr = true -> formatTimeRemaining tr = expired_phrase)
  /\ (expired tr = false -> all_zero tr = true ->
        formatTimeRemaining tr = moment_phrase)
  /\ (expired tr = false -> all_zero tr = false ->
        formatTimeRemaining tr
        = join (lit ", ") (map phrase (filter nonzero (components tr)))).
Proof.
  intros (Hd & Hh & Hm & Hs).
  assert (Hparts :
    formatTimeRemaining tr
    = if expired tr then expired_phrase
      else or_else
             (join (lit ", ") (map phrase (filter nonzero (components tr))))
             moment_phrase).
  { unfold formatTimeRemaining. destruct (expired tr); [reflexivity |].
    cbv zeta. rewrite !push_if_pos_filter by assumption.
    rewrite app_nil_l, <- !map_app, <- !filter_app. reflexivity. }
  assert (Hmain : formatTimeRemaining tr = format_spec tr).
  { rewrite Hparts. unfold format_spec. destruct (expired tr); [reflexivity |].
    destruct (all_zero tr) eqn:Hz.
    - apply filter_nonzero_nil in Hz. rewrite Hz. reflexivity.
    - unfold or_else. rewrite truthy_join; [reflexivity | |].
      + intros Hnil. apply map_eq_nil in Hnil.
        apply filter_nonzero_nil in Hnil. congruence.
      + intros x Hx. apply in_map_iff in Hx as (c & <- & _).
        apply truthy_phrase. }
  split; [exact Hmain |]. rewrite Hmain. unfold format_spec.
  repeat split; intros; repeat match goal with H : _ = _ |- _ => rewrite H end; reflexivity.
Qed.

Lemma formatTimeRemaining_spec_witness :
  nonnegative (mkTR false 86521000 1 0 2 1)
  /\ formatTimeRemaining (mkTR false 86521000 1 0 2 1)
     = lit "1 day, 2 minutes, 1 second".
Proof.
  assert (H : nonnegative (mkTR false 86521000 1 0 2 1))
    by (unfold nonnegative; cbn; lia).
  split; [exact H |].
  rewrite (proj1 (formatTimeRemaining_spec _ H)). reflexivity.
Defined.


Example format_expired :
  formatTimeRemaining (getTimeRemaining 1600000000000 1700000000000)
  = lit "This countdown has expired!".
Proof. reflexivity. Qed.

Example format_sub_second :
  formatTimeRemaining (getTimeRemaining 1700000000500 1700000000000)
  = lit "Just a moment".
Proof. reflexivity. Qed.

Example format_plural_and_singular :
  formatTimeRemaining (getTimeRemaining 1700180061000 1700000000000)
  = lit "2 days, 2 hours, 1 minute, 1 second".
Proof. reflexivity. Qed.

(** ** The refresh loop *)

(** Running a sequence. *)

Lemma bind_get {A} (k : list Countdown -> M A) (env : Env) (s : State) :
  (cds <- get_countdowns ;; k cds) env s = k (countdowns s) env s.
Proof.
  unfold bind, get_countdowns.
  destruct (k (countdowns s) env s) as [[r s1] ev]. reflexivity.
Qed.

Lemma bind_ret {A B} (a : A) (k : A -> M B) (env : Env) (s : State) :
  (x <- ret a ;; k x) env s = k a env s.
Proof.
  unfold bind, ret. destruct (k a env s) as [[r s1] ev]. reflexivity.
Qed.

Lemma bind_ok {A B} (m : M A) (k : A -> M B) (env : Env) (s s1 : State)
    (a : A) (ev1 : list Event) :
  m env s = (Ok a, s1, ev1) ->
  (x <- m ;; k x) env s
  = let '(r, s2, ev2) := k a env s1 in (r, s2, ev1 ++ ev2).
Proof. intros H. unfold bind. rewrite H. reflexivity. Qed.

Lemma bind_throw {A B} (m : M A) (k : A -> M B) (env : Env) (s s1 : State)
    (message : jsstring) (ev1 : list Event) :
  m env s = (Throw message, s1, ev1) ->
  (x <- m ;; k x) env s = (Throw message, s1, ev1).
Proof. intros H. unfold bind. rewrite H. reflexivity. Qed.

Section Refresh.

Variable env : Env.


Lemma update_one (cd : Countdown) (s : State) :
  let x := updateCountdownMessage cd env s in
  value_of x = Ok (kept env cd (step s))
  /\ same_store s (state_after x)
  /\ quiet (events_of x)
  /\ (reaches_edit env cd (step s) = true ->
      In (Edit (channelId cd) (messageId cd) (embed_at env cd (step s))
            (edit_succeeds env cd (step s)))
         (events_of x)).
Proof.
  unfold kept, edit_succeeds, reaches_edit, embed_at, draft_at, duration_at.
  unfold updateCountdownMessage, refresh_embed, build_embed, channels_fetch,
    messages_fetch, message_edit, try_catch, bind, call, lift, Date_now,
    console_error, emit, ret, throw, value_of, state_after, events_of,
    same_store, quiet.
  cbn.
  destruct (embed_ok env _) eqn:He; cbn.
  2:{ repeat split; try discriminate; repeat constructor. }
  destruct (fetch_channel env _ _) eqn:Hc; cbn.
  2:{ repeat split; try discriminate; repeat constructor. }
  destruct (fetch_message env _ _ _) eqn:Hm; cbn.
  2:{ repeat split; try discriminate; repeat constructor. }
  destruct (edit_message env _ _ _ _) eqn:Hed; cbn.
  - repeat split; repeat constructor.
  - repeat split; repeat constructor.
Qed.


Lemma pass_steps_records (cds : list Countdown) (s : State) :
  map fst (pass_steps env cds s) = cds.
Proof.
  revert s. induction cds as [| cd rest IH]; intros s; cbn; [reflexivity |].
  rewrite IH. reflexivity.
Qed.

Lemma refresh_rest_run (cds acc : list Countdown) (s : State) :
  let x := refresh_rest cds acc env s in
  value_of x
  = Ok (acc ++ map fst (filter (kept_at env) (pass_steps env cds s)))
  /\ same_store s (state_after x)
  /\ quiet (events_of x)
  /\ (forall cd k, In (cd, k) (pass_steps env cds s) ->
      reaches_edit env cd k = true ->
      In (Edit (channelId cd) (messageId cd) (embed_at env cd k)
            (edit_succeeds env cd k))
         (events_of x)).
Proof.
  revert acc s. induction cds as [| cd rest IH]; intros acc s.
  - cbn. rewrite app_nil_r. unfold same_store, quiet.
    repeat split; try constructor. intros ? ? [].
  - cbn [refresh_rest pass_steps]. unfold bind.
    destruct (update_one cd s) as (Hv & Hs & Hq & He).
    destruct (updateCountdownMessage cd env s) as [[r s1] ev1] eqn:Hrun.
    unfold value_of, state_after, events_of in Hv, Hs, Hq, He.
    cbn [fst snd] in Hv, Hs, Hq, He. subst r.
    unfold state_after at 1 2 3. cbn [fst snd].
    specialize (IH (if kept env cd (step s) then acc ++ [cd] else acc) s1).
    destruct (refresh_rest rest _ env s1) as [[r2 s2] ev2] eqn:Hrest.
    unfold value_of, state_after, events_of in IH |- *.
    cbn [fst snd] in IH |- *.
    destruct IH as (Hv2 & Hs2 & Hq2 & He2).
    split; [| split; [| split]].
    + rewrite Hv2. f_equal. cbn [filter]. unfold kept_at at 2. cbn [fst snd].
      destruct (kept env cd (step s)); cbn [map fst];
        [rewrite <- app_assoc |]; reflexivity.
    + unfold same_store in *. destruct Hs as (? & ? & ?), Hs2 as (? & ? & ?).
      repeat split; congruence.
    + unfold quiet in *. apply Forall_app. split; assumption.
    + intros cd' k [Heq | Hin] Hreach; apply in_or_app.
      * injection Heq as <- <-. left. apply He. exact Hreach.
      * right. apply He2; assumption.
Qed.

Lemma skipn_nth_error {A} (l : list A) (i : nat) (x : A) :
  nth_error l i = Some x -> skipn i l = x :: skipn (S i) l.
Proof.
  revert i. induction l as [| a l IH]; intros [| i] H; try discriminate.
  - injection H as ->. reflexivity.
  - cbn in H. cbn [skipn]. rewrite (IH i H). reflexivity.
Qed.

(** Slots in which no message arrives are as good as no slot: the loop
    that reads the array at its index visits the records that a loop over
    the array as it was would visit. *)
Lemma refresh_each_idle (arriving : list (list Message)) :
  List.concat arriving = [] ->
  forall (i : nat) (acc : list Countdown) (s : State),
    refresh_each arriving i acc env s = refresh_each [] i acc env s.
Proof.
  induction arriving as [| during later IH]; intros Hc i acc s;
    [reflexivity |].
  cbn [List.concat] in Hc. apply app_eq_nil in Hc as [-> Hc].
  cbn [refresh_each]. rewrite !bind_get.
  destruct (nth_error (countdowns s) i) as [cd |] eqn:Hnth.
  - rewrite (skipn_nth_error _ _ _ Hnth). cbn [refresh_rest handle_all].
    destruct (update_one cd s) as (Hv & (Hcds & _) & _).
    destruct (updateCountdownMessage cd env s) as [[r s1] ev1] eqn:Hrun.
    unfold value_of, state_after in Hv, Hcds. cbn [fst snd] in Hv, Hcds.
    subst r. rewrite !(bind_ok _ _ _ _ _ _ _ Hrun).
    rewrite bind_ret, (IH Hc). cbn [refresh_each].
    rewrite bind_get, Hcds. reflexivity.
  - apply nth_error_None in Hnth.
    rewrite (skipn_all2 _ Hnth). reflexivity.
Qed.

Lemma updateAllCountdowns_idle (arriving : list (list Message)) (s : State) :
  List.concat arriving = [] ->
  updateAllCountdowns arriving env s = updateAllCountdowns [] env s.
Proof.
  intros Hc. unfold updateAllCountdowns, bind.
  rewrite (refresh_each_idle arriving Hc). reflexivity.
Qed.

Lemma refresh_each_run (arriving : list (list Message)) (s : State) :
  List.concat arriving = [] ->
  let x := refresh_each arriving 0 [] env s in
  value_of x = Ok (retained env s)
  /\ same_store s (state_after x)
  /\ quiet (events_of x)
  /\ (forall cd k, In (cd, k) (pass_steps env (countdowns s) s) ->
      reaches_edit env cd k = true ->
      In (Edit (channelId cd) (messageId cd) (embed_at env cd k)
            (edit_succeeds env cd k))
         (events_of x)).
Proof.
  intros Hc. cbv zeta. rewrite (refresh_each_idle arriving Hc).
  cbn [refresh_each]. rewrite bind_get. cbn [skipn].
  destruct (refresh_rest_run (countdowns s) [] s) as (Hv & Hs & Hq & He).
  destruct (refresh_rest (countdowns s) [] env s) as [[r s1] ev1].
  unfold value_of, state_after, events_of in *. cbn [fst snd app] in *.
  repeat split; try assumption; apply Hs.
Qed.

Lemma filter_full {A} (p : A -> bool) (l : list A) :
  List.length (filter p l) = List.length l -> filter p l = l.
Proof.
  induction l as [| a l IH]; cbn; [reflexivity |].
  destruct (p a); cbn; intros H.
  - f_equal. apply IH. lia.
  - pose proof (filter_length_le p l). lia.
Qed.

Lemma retained_full (s : State) :
  List.length (retained env s) = List.length (countdowns s) ->
  retained env s = countdowns s.
Proof.
  unfold retained. rewrite length_map. intros H.
  rewrite filter_full.
  - apply pass_steps_records.
  - rewrite H. rewrite <- (pass_steps_records (countdowns s) s) at 1.
    rewrite length_map. reflexivity.
Qed.

Lemma saveCountdowns_store (s : State) :
  countdowns (state_after (saveCountdowns env s)) = countdowns s.
Proof.
  unfold saveCountdowns, try_catch, bind, get_countdowns, writeFileSync,
    console_log, console_error, emit, state_after. cbn.
  destruct (write_file env (step s) _); reflexivity.
Qed.

(** The whole cycle, when no message arrives during it, in terms of the
    retained set. *)
Lemma updateAllCountdowns_run (arriving : list (list Message)) (s : State) :
  List.concat arriving = [] ->
  let x := updateAllCountdowns arriving env s in
  countdowns (state_after x) = retained env s
  /\ (List.length (retained env s) = List.length (countdowns s) ->
      file (state_after x) = file s /\ activity (state_after x) = activity s
      /\ quiet (events_of x))
  /\ (forall cd k, In (cd, k) (pass_steps env (countdowns s) s) ->
      reaches_edit env cd k = true ->
      In (Edit (channelId cd) (messageId cd) (embed_at env cd k)
            (edit_succeeds env cd k))
         (events_of x)).
Proof.
  intros Hc. cbv zeta. unfold updateAllCountdowns, bind, get_countdowns.
  destruct (refresh_each_run arriving s Hc) as (Hv & Hs & Hq & He).
  destruct (refresh_each arriving 0 [] env s) as [[r s1] ev1] eqn:Hrun.
  unfold value_of, state_after, events_of in Hv, Hs, Hq, He |- *.
  cbn [fst snd app] in Hv, Hs, Hq, He |- *. subst r.
  destruct Hs as (Hcd & Hf & Ha). rewrite Hcd.
  destruct (Nat.eqb_spec (List.length (retained env s))
              (List.length (countdowns s))) as [Heq | Hne]; cbn [negb].
  - unfold ret. cbn [fst snd]. rewrite app_nil_r.
    split; [rewrite Hcd; symmetry; apply retained_full; exact Heq |].
    split; [intros _; repeat split; assumption | exact He].
  - unfold set_countdowns, updateBotStatus.
    match goal with
    | |- context [saveCountdowns env ?st] =>
        pose proof (saveCountdowns_store st) as Hsave;
        destruct (saveCountdowns env st) as [[r3 s3] ev3]
    end.
    unfold state_after in Hsave. cbn [fst snd countdowns] in Hsave.
    destruct r3; cbn [fst snd countdowns].
    + split; [exact Hsave |]. split; [intros; contradiction |].
      intros cd k Hin Hreach. apply in_or_app. left. apply He; assumption.
    + split; [exact Hsave |]. split; [intros; contradiction |].
      intros cd k Hin Hreach. apply in_or_app. left. apply He; assumption.
Qed.

End Refresh.

Lemma kept_iff (env : Env) (cd : Countdown) (k : nat) :
  kept env cd k = true <->
  edit_succeeds env cd k = true /\ expired (duration_at env cd k) = false.
Proof.
  unfold kept. rewrite andb_true_iff, negb_true_iff. reflexivity.
Qed.

Lemma expired_embed (env : Env) (cd : Countdown) (k : nat) :
  expired (duration_at env cd k) = true ->
  description (embed_at env cd k) = expired_phrase
  /\ color (embed_at env cd k) = red.
Proof.
  unfold embed_at, draft_at. cbn. intros ->. split; reflexivity.
Qed.

(** X18. A refresh cycle during which no message is handled. The retained
    set is made of exactly the records of the store, in their order,
    whose edit succeeds and whose duration is not expired, and it is the
    store when the cycle ends. A record whose edit fails is dropped. A
    record whose duration is expired is dropped whether its edit succeeds
    or not, and when its refresh gets as far as the edit request, that
    request carries the expired phrase. *)
Theorem refresh_keeps_edited_unexpired (env : Env) (s : State)
    (arriving : list (list Message)) :
  List.concat arriving = [] ->
  let x := updateAllCountdowns arriving env s in
  value_of (refresh_each arriving 0 [] env s) = Ok (retained env s)
  /\ countdowns (state_after x) = retained env s
  /\ (forall cd k, In (cd, k) (pass_steps env (countdowns s) s) ->
      (kept env cd k = true <->
       edit_succeeds env cd k = true
       /\ expired (duration_at env cd k) = false)
      /\ (edit_succeeds env cd k = false -> kept env cd k = false)
      /\ (expired (duration_at env cd k) = true ->
          kept env cd k = false
          /\ (reaches_edit env cd k = true ->
              description (embed_at env cd k) = expired_phrase
              /\ In (Edit (channelId cd) (messageId cd) (embed_at env cd k)
                       (edit_succeeds env cd k))
                    (events_of x)))).
Proof.
  intros Hc. cbv zeta.
  destruct (refresh_each_run env arriving s Hc) as (Hv & _).
  destruct (updateAllCountdowns_run env arriving s Hc) as (Hstore & _ & Hedit).
  split; [exact Hv |]. split; [exact Hstore |].
  intros cd k Hin. split; [apply kept_iff |]. split.
  - intros Hfail. unfold kept. rewrite Hfail. reflexivity.
  - intros Hexp. split.
    + unfold kept. rewrite Hexp. apply andb_false_r.
    + intros Hreach. split.
      * apply expired_embed. exact Hexp.
      * apply Hedit; assumption.
Qed.

Lemma refresh_keeps_edited_unexpired_witness :
  In (sample_record "Past" 1600000000000 "U2", 5%nat)
     (pass_steps flaky_env (countdowns sample_state) sample_state)
  /\ expired (duration_at flaky_env
                (sample_record "Past" 1600000000000 "U2") 5) = true
  /\ kept flaky_env (sample_record "Past" 1600000000000 "U2") 5 = false
  /\ countdowns
       (state_after (updateAllCountdowns [[]; []] flaky_env sample_state))
     = [sample_record "Launch" 4070952000000 "U1"].
Proof.
  assert (Hin : In (sample_record "Past" 1600000000000 "U2", 5%nat)
                  (pass_steps flaky_env (countdowns sample_state)
                     sample_state))
    by (right; left; reflexivity).
  assert (Hexp : expired (duration_at flaky_env
                            (sample_record "Past" 1600000000000 "U2") 5)
                 = true) by reflexivity.
  pose proof (refresh_keeps_edited_unexpired flaky_env sample_state
                [[]; []] eq_refl) as H.
  cbv zeta in H. destruct H as (_ & Hstore & Hrec).
  split; [exact Hin |]. split; [exact Hexp |]. split.
  - exact (proj1 (proj2 (proj2 (Hrec _ _ Hin)) Hexp)).
  - rewrite Hstore. vm_compute. reflexivity.
Defined.

(** X19. A refresh cycle during which no message is handled and whose
    retained set has the size of the store leaves the array, the file and
    the status text as they were, and makes no save and no refresh of the
    status text. *)
Theorem refresh_without_drop_is_silent (env : Env) (s : State)
    (arriving : list (list Message)) (stillActive : list Countdown) :
  List.concat arriving = [] ->
  value_of (refresh_each arriving 0 [] env s) = Ok stillActive ->
  List.length stillActive = List.length (countdowns s) ->
  let x := updateAllCountdowns arriving env s in
  countdowns (state_after x) = countdowns s
  /\ file (state_after x) = file s
  /\ activity (state_after x) = activity s
  /\ quiet (events_of x).
Proof.
  intros Hc Hv Hlen. cbv zeta.
  destruct (refresh_each_run env arriving s Hc) as (Hv' & _).
  rewrite Hv in Hv'. injection Hv' as ->.
  destruct (updateAllCountdowns_run env arriving s Hc) as (Hstore & Hquiet & _).
  destruct (Hquiet Hlen) as (Hf & Ha & Hq).
  rewrite Hstore, (retained_full env s Hlen). repeat split; assumption.
Qed.

Lemma refresh_without_drop_is_silent_witness :
  value_of (refresh_each [] 0 [] sample_env calm_state)
  = Ok (countdowns calm_state)
  /\ file (state_after (updateAllCountdowns [] sample_env calm_state))
     = Content (lit "[]")
  /\ quiet (events_of (updateAllCountdowns [] sample_env calm_state)).
Proof.
  assert (Hv : value_of (refresh_each [] 0 [] sample_env calm_state)
               = Ok (countdowns calm_state)) by (vm_compute; reflexivity).
  split; [exact Hv |].
  pose proof (refresh_without_drop_is_silent sample_env calm_state []
                (countdowns calm_state) eq_refl Hv eq_refl) as H.
  cbv zeta in H. destruct H as (_ & Hf & _ & Hq).
  split; [exact Hf | exact Hq].
Defined.


(** ** The message handler *)

(** C10. A message whose author is a bot gets nothing from the handler:
    no reply, no reaction, no request of any kind, and no change to the
    store or to any other part of the state, whatever its content. *)
Theorem bot_author_is_ignored (env : Env) (s : State) (m : Message) :
  author_bot m = true ->
  messageCreate m env s = (Ok tt, s, []).
Proof.
  intros Hbot. unfold messageCreate. rewrite Hbot. reflexivity.
Qed.

Lemma bot_author_is_ignored_witness :
  messageCreate (command_message true "U2" (lit "!delcountdown 2") true)
    sample_env sample_state
  = (Ok tt, sample_state, []).
Proof.
  exact (bot_author_is_ignored sample_env sample_state
           (command_message true "U2" (lit "!delcountdown 2") true) eq_refl).
Defined.

Lemma usage_not_error (err : jsstring) :
  Reply usage_text <> Reply (create_error_text err).
Proof. unfold usage_text, create_error_text. cbn. congruence. Qed.

Lemma saveCountdowns_run (env : Env) (s : State) :
  saveCountdowns env s
  = let data := JSON.stringify2 (encode_store (countdowns s)) in
    match write_file env (step s) data with
    | Ok _ =>
        (Ok tt,
         mkState (S (step s)) (countdowns s) (Content data) (activity s),
         [WriteFile data true;
          ConsoleLog (lit "Saved " ++ count_text (List.length (countdowns s))
                      ++ lit " countdown(s) to file.")])
    | Throw message =>
        (Ok tt,
         mkState (S (step s)) (countdowns s)
           (failed_write env (step s) (file s) data) (activity s),
         [WriteFile data false;
          ConsoleError (lit "Error saving countdowns:") message])
    end.
Proof.
  unfold saveCountdowns, try_catch, bind, get_countdowns, writeFileSync,
    console_log, console_error, emit.
  cbn [fst snd countdowns step file activity]. cbv zeta.
  destruct (write_file env (step s) _); reflexivity.
Qed.

Section Create.

Variables (env : Env) (s : State) (m : Message).
Hypothesis Hembed : forall e, embed_ok env e = true.
Variable id : jsstring.
Hypothesis Hsend :
  forall e, send_message env (2 + step s) (channel_id m) e = Ok id.

Lemma create_store_and_replies (eventName : jsstring) (target : Z) :
  let x :=
    (now <- Date_now ;;
     embed <- build_embed blue (icon ++ eventName)
                (remaining_text
                   (formatTimeRemaining (getTimeRemaining target now)))
                (target_text env target) ;;
     try_catch
       (id <- channel_send (channel_id m) embed ;;
        created <- Date_now ;;
        cds <- get_countdowns ;;
        set_countdowns
          (cds ++ [mkCountdown eventName target (channel_id m)
                     id (author_id m) created]) ;;
        saveCountdowns ;;
        updateBotStatus ;;
        react check_mark)
       (fun err =>
          console_error (lit "Error creating countdown:") err ;;
          reply (create_error_text err)))%bot env s in
  countdowns (state_after x)
  = countdowns s
    ++ [mkCountdown eventName target (channel_id m) id (author_id m)
          (clock env (3 + step s))]
  /\ ~ In (Reply usage_text) (events_of x).
Proof.
  unfold bind, try_catch, build_embed, channel_send, Date_now, call, lift,
    get_countdowns, set_countdowns,
    updateBotStatus, react, console_error, reply, emit, ret,
    throw, state_after, events_of.
  rewrite Hembed. unfold bind, call, ret.
  cbn [fst snd countdowns step file activity Nat.add].
  rewrite Hsend.
  cbn [fst snd countdowns step file activity app].
  rewrite saveCountdowns_run. cbv zeta.
  cbn [fst snd countdowns step file activity app].
  destruct (write_file env _ _);
    cbn [fst snd countdowns step file activity app];
    destruct (react_message env _ _);
    cbn [fst snd countdowns step file activity app];
    (split; [reflexivity |]);
    intros H; repeat (destruct H as [H | H]; try discriminate H);
    try contradiction; apply usage_not_error in H; exact H.
Qed.

End Create.


Lemma jseqb_eq (a b : jsstring) : jseqb a b = true <-> a = b.
Proof.
  revert b. induction a as [| x a IH]; intros [| y b]; cbn;
    try (split; [discriminate | congruence]); [tauto |].
  rewrite andb_true_iff, N.eqb_eq, IH. split.
  - intros [-> ->]. reflexivity.
  - intros H. injection H as -> ->. tauto.
Qed.

Lemma jseqb_neq (a b : jsstring) : jseqb a b = false <-> a <> b.
Proof.
  rewrite <- jseqb_eq. destruct (jseqb a b); split; congruence.
Qed.

Section Delete.

Variables (env : Env) (s : State) (m : Message).

Hypothesis Hhuman : author_bot m = false.
Hypothesis Hprefix : startsWith (content m) prefix = true.
Hypothesis Hcommand :
  toLowerCase (hd [] (arguments_of (content m))) = lit "delcountdown".

Lemma dispatch_delete :
  messageCreate m env s
  = delete_countdown m (tl (arguments_of (content m))) env s.
Proof.
  unfold messageCreate. rewrite Hhuman, Hprefix. cbn [negb]. cbv zeta.
  rewrite Hcommand. reflexivity.
Qed.

Lemma delete_missing :
  hd [] (tl (arguments_of (content m))) = [] ->
  messageCreate m env s = (Ok tt, s, [Reply need_index_text]).
Proof.
  rewrite dispatch_delete. unfold delete_countdown.
  destruct (tl (arguments_of (content m))) as [| arg0 rest]; cbn [hd].
  - reflexivity.
  - intros ->. reflexivity.
Qed.

Variables (arg0 : jsstring).
Hypothesis Harg : hd_error (tl (arguments_of (content m))) = Some arg0.
Hypothesis Hsome : arg0 <> [].

Lemma delete_invalid :
  (parseInt10 arg0 = None
   \/ exists n, parseInt10 arg0 = Some n
        /\ (n < 1 \/ Z.of_nat (List.length (countdowns s)) < n)) ->
  messageCreate m env s = (Ok tt, s, [Reply invalid_index_text]).
Proof.
  rewrite dispatch_delete. unfold delete_countdown.
  destruct (tl (arguments_of (content m))) as [| a rest]; [discriminate |].
  cbn in Harg. injection Harg as ->.
  destruct arg0 as [| c r]; [congruence |]. cbn [truthy negb].
  unfold bind, get_countdowns. cbn [fst snd].
  intros [-> | (n & -> & Hn)]; cbn [option_map]; [reflexivity |].
  destruct (Z.ltb_spec (n - 1) 0); cbn [orb]; [reflexivity |].
  destruct (Z.geb_spec (n - 1) (Z.of_nat (List.length (countdowns s))));
    [reflexivity | lia].
Qed.

Variables (n : Z) (cd : Countdown).
Hypothesis Hn : parseInt10 arg0 = Some n.
Hypothesis Hrange : 1 <= n <= Z.of_nat (List.length (countdowns s)).
Hypothesis Hcd : nth_error (countdowns s) (Z.to_nat (n - 1)) = Some cd.

Lemma delete_checks :
  messageCreate m env s
  = (if negb (jseqb (createdBy cd) (author_id m))
        && negb (can_manage_messages m)
     then reply not_owner_text
     else
       (set_countdowns (splice1 (Z.to_nat (n - 1)) (countdowns s)) ;;
        saveCountdowns ;; updateBotStatus ;;
        reply (deleted_text (name cd)))%bot) env s.
Proof.
  rewrite dispatch_delete. unfold delete_countdown.
  destruct (tl (arguments_of (content m))) as [| a rest]; [discriminate |].
  cbn in Harg. injection Harg as ->.
  destruct arg0 as [| c r]; [congruence |]. cbn [truthy negb].
  unfold bind at 1, get_countdowns at 1. cbn [fst snd].
  rewrite Hn. cbn [option_map].
  destruct (Z.ltb_spec (n - 1) 0); [lia |]. cbn [orb].
  destruct (Z.geb_spec (n - 1) (Z.of_nat (List.length (countdowns s))));
    [lia |].
  rewrite Hcd.
  destruct (negb (jseqb (createdBy cd) (author_id m))
            && negb (can_manage_messages m)).
  - reflexivity.
  - unfold bind, set_countdowns. cbn [fst snd].
    match goal with |- context [saveCountdowns env ?st] =>
      destruct (saveCountdowns env st) as [[[] ?] ?] end; cbn; rewrite ?app_nil_r; reflexivity.
Qed.

End Delete.

Lemma digit_not_space (c : N) : is_digit c = true -> is_space c = false.
Proof.
  unfold is_digit, is_space. rewrite andb_true_iff, !N.leb_le.
  intros [Hlo Hhi].
  repeat rewrite orb_false_iff. repeat rewrite andb_false_iff.
  repeat rewrite N.leb_gt. repeat rewrite N.eqb_neq.
  repeat split; lia.
Qed.

Lemma take_while_all (p : N -> bool) (s : jsstring) :
  forallb p s = true -> take_while p s = s.
Proof.
  induction s as [| c r IH]; cbn; [reflexivity |].
  intros H. apply andb_true_iff in H as [-> H]. rewrite IH by exact H.
  reflexivity.
Qed.

(** A numeral is read by [parseInt] as the number it writes. *)
Lemma parseInt10_numeric (s : jsstring) :
  numeric s = true -> parseInt10 s = Some (digits_value 0 s).
Proof.
  unfold numeric. destruct s as [| c r]; [discriminate |].
  cbn [truthy andb forallb]. intros H.
  assert (Hall : forallb is_digit (c :: r) = true) by exact H.
  apply andb_true_iff in H as [Hc Hr].
  unfold parseInt10. cbn [drop_while]. rewrite (digit_not_space c Hc).
  assert (H45 : (c =? 45)%N = false).
  { apply N.eqb_neq. intros ->. discriminate. }
  assert (H43 : (c =? 43)%N = false).
  { apply N.eqb_neq. intros ->. discriminate. }
  rewrite H45, H43, (take_while_all _ _ Hall). rewrite Z.mul_1_l.
  reflexivity.
Qed.

(** Not every argument that is no numeral is refused: [parseInt] reads
    [2abc] as 2, and the creator's command removes the second record. *)
Lemma non_numeric_index_counterexample : ~ non_numeric_is_refused.
Proof.
  intros H.
  specialize (H sample_env sample_state
                (command_message false "U2" (lit "!delcountdown 2abc") false)
                (lit "2abc") eq_refl eq_refl eq_refl eq_refl eq_refl).
  vm_compute in H. discriminate H.
Qed.

(** X20. For a delete command from a user: with no argument, or
    with an argument in which [parseInt] finds no leading decimal integer,
    or finds one outside 1..length, the command is refused as invalid and
    the state is left as it was, with nothing written; with a leading
    integer in range whose record was created by somebody else, from a
    user without the permission to manage messages, it is refused with
    another reply, that of the authorization failure, and again the state
    is left as it was; with a leading integer in range from the creator
    or from a user with that permission, exactly the record at that
    position leaves the array, which is then saved. What follows the
    leading integer in the argument is ignored. *)
Theorem delete_command_outcomes (env : Env) (s : State) (m : Message) :
  author_bot m = false ->
  startsWith (content m) prefix = true ->
  toLowerCase (hd [] (arguments_of (content m))) = lit "delcountdown" ->
  let x := messageCreate m env s in
  let args := tl (arguments_of (content m)) in
  (hd [] args = [] -> x = (Ok tt, s, [Reply need_index_text]))
  /\ (forall arg0, hd_error args = Some arg0 -> arg0 <> [] ->
      ((parseInt10 arg0 = None
        \/ exists n, parseInt10 arg0 = Some n
             /\ (n < 1 \/ Z.of_nat (List.length (countdowns s)) < n)) ->
       x = (Ok tt, s, [Reply invalid_index_text]))
      /\ (forall n cd,
            parseInt10 arg0 = Some n ->
            1 <= n <= Z.of_nat (List.length (countdowns s)) ->
            nth_error (countdowns s) (Z.to_nat (n - 1)) = Some cd ->
            (createdBy cd <> author_id m ->
             can_manage_messages m = false ->
             x = (Ok tt, s, [Reply not_owner_text]))
            /\ (createdBy cd = author_id m
                \/ can_manage_messages m = true ->
                value_of x = Ok tt
                /\ countdowns (state_after x)
                   = firstn (Z.to_nat (n - 1)) (countdowns s)
                     ++ skipn (S (Z.to_nat (n - 1))) (countdowns s)
                /\ (exists ok,
                      In (WriteFile
                            (JSON.stringify2
                               (encode_store (countdowns (state_after x))))
                            ok)
                         (events_of x))
                /\ In (Reply (deleted_text (name cd))) (events_of x))))
  /\ not_owner_text <> invalid_index_text
  /\ not_owner_text <> need_index_text.
Proof.
  intros Hhuman Hprefix Hcommand. cbv zeta.
  split; [apply delete_missing; assumption |].
  split; [| split; discriminate].
  intros arg0 Harg Hsome.
  split; [apply (delete_invalid env s m Hhuman Hprefix Hcommand arg0);
          assumption |].
  intros n cd Hn Hrange Hcd.
  rewrite (delete_checks env s m Hhuman Hprefix Hcommand arg0 Harg Hsome
             n cd Hn Hrange Hcd).
  split.
  - intros Hother Hperm. apply jseqb_neq in Hother.
    rewrite Hother, Hperm. reflexivity.
  - intros Hauth.
    assert (Hgo : negb (jseqb (createdBy cd) (author_id m))
                  && negb (can_manage_messages m) = false).
    { destruct Hauth as [Hown | Hperm].
      - apply jseqb_eq in Hown. rewrite Hown. reflexivity.
      - rewrite Hperm. apply andb_false_r. }
    rewrite Hgo.
    unfold bind, set_countdowns, updateBotStatus, reply, emit.
    rewrite saveCountdowns_run. cbv zeta.
    cbn [fst snd countdowns step file activity].
    destruct (write_file env _ _);
      cbn [fst snd countdowns step file activity app value_of state_after
             events_of];
      (split; [reflexivity |]); (split; [reflexivity |]); split;
      try (eexists; left; reflexivity);
      right; right; right; left; reflexivity.
Qed.

Lemma delete_command_outcomes_witness :
  messageCreate (command_message false "U3" (lit "!delcountdown 2") false)
    sample_env sample_state
  = (Ok tt, sample_state, [Reply not_owner_text])
  /\ countdowns
       (state_after
          (messageCreate
             (command_message false "U2" (lit "!delcountdown 2") false)
             sample_env sample_state))
     = [ sample_record "Launch" 4070952000000 "U1";
         sample_record "Party" 1800000000000 "U1" ].
Proof.
  split.
  - pose proof (delete_command_outcomes sample_env sample_state
                  (command_message false "U3" (lit "!delcountdown 2") false)
                  eq_refl eq_refl eq_refl) as H.
    cbv zeta in H. destruct H as (_ & H & _).
    destruct (H (lit "2") eq_refl ltac:(discriminate)) as (_ & Hcd).
    destruct (Hcd 2 (sample_record "Past" 1600000000000 "U2")
                eq_refl ltac:(cbn; lia) eq_refl) as (Hno & _).
    apply Hno; [discriminate | reflexivity].
  - pose proof (delete_command_outcomes sample_env sample_state
                  (command_message false "U2" (lit "!delcountdown 2") false)
                  eq_refl eq_refl eq_refl) as H.
    cbv zeta in H. destruct H as (_ & H & _).
    destruct (H (lit "2") eq_refl ltac:(discriminate)) as (_ & Hcd).
    destruct (Hcd 2 (sample_record "Past" 1600000000000 "U2")
                eq_refl ltac:(cbn; lia) eq_refl) as (_ & Hyes).
    destruct (Hyes (or_introl eq_refl)) as (_ & Hstore & _).
    rewrite Hstore. reflexivity.
Defined.

Lemma bad_date_words :
  arguments_of bad_date_command
  = [lit "countdown"; quote_mark ++ lit "Bad" ++ quote_mark; lit "2024-13-40"].
Proof. vm_compute. reflexivity. Qed.

Lemma bad_date_match :
  exec countdown_re bad_date_command
  = Some [(2%nat, lit "2024-13-40"); (1%nat, lit "Bad")].
Proof. vm_compute. reflexivity. Qed.

(** C2 (the code departs from it). The command
    [!countdown "Bad" 2024-13-40] matches the expression of the create
    command, and the Date constructor carries month 13 and day 40 over
    into 9 February 2025: whenever the tracking message can be sent, the
    handler appends a record for that instant to the store and never
    sends the usage reply. *)
Theorem month_13_day_40_is_accepted (env : Env) (s : State) (m : Message)
    (id : jsstring) (target : Z) :
  author_bot m = false ->
  content m = bad_date_command ->
  JSDate.TimeClip (utc_of_local env 1739059200000) = Some target ->
  (forall e, embed_ok env e = true) ->
  (forall e, send_message env (2 + step s) (channel_id m) e = Ok id) ->
  let x := messageCreate m env s in
  countdowns (state_after x)
  = countdowns s
    ++ [mkCountdown (lit "Bad") target (channel_id m) id (author_id m)
          (clock env (3 + step s))]
  /\ ~ In (Reply usage_text) (events_of x).
Proof.
  intros Hhuman Hcontent Hclip Hembed Hsend.
  unfold messageCreate. rewrite Hhuman, Hcontent.
  change (startsWith bad_date_command prefix) with true. cbn [negb]. cbv zeta.
  rewrite bad_date_words.
  change (jseqb (toLowerCase (hd [] [lit "countdown"; quote_mark ++ lit "Bad" ++ quote_mark; lit "2024-13-40"])) (lit "countdown")) with true.
  cbv iota.
  unfold create_countdown. rewrite Hcontent, bad_date_match.
  cbn [capture Nat.eqb].
  change (JSDate.construct (utc_of_local env) _ _ _ _ _ _)
    with (JSDate.TimeClip (utc_of_local env 1739059200000)).
  rewrite Hclip.
  exact (create_store_and_replies env s m Hembed id Hsend (lit "Bad") target).
Qed.

Lemma month_13_day_40_is_accepted_witness :
  countdowns
    (state_after
       (messageCreate (command_message false "U" bad_date_command false)
          sample_env sample_state))
  = sample_store
    ++ [mkCountdown (lit "Bad") 1739059200000 (lit "C") (lit "M2") (lit "U")
          1700000000003].
Proof.
  exact (proj1 (month_13_day_40_is_accepted sample_env sample_state
                  (command_message false "U" bad_date_command false)
                  (lit "M2") 1739059200000 eq_refl eq_refl eq_refl
                  (fun _ => eq_refl) (fun _ => eq_refl))).
Defined.

Lemma hour_25_words :
  arguments_of hour_25_command
  = [lit "countdown"; quote_mark ++ lit "X" ++ quote_mark; lit "2099-01-01";
     lit "25:00"].
Proof. vm_compute. reflexivity. Qed.

Lemma hour_25_match :
  exec countdown_re hour_25_command
  = Some [(3%nat, lit "25:00"); (2%nat, lit "2099-01-01"); (1%nat, lit "X")].
Proof. vm_compute. reflexivity. Qed.

(** C7 (the code departs from it). The hour 25 is let through: the
    command [!countdown "X" 2099-01-01 25:00] matches the expression of
    the create command, whose hour is any one or two digits with a first
    digit of 0, 1 or 2, and the Date constructor carries the hour over
    into 01:00 of 2 January 2099: whenever the tracking message can be
    sent, the handler appends a record for that instant to the store and
    never sends the usage reply. *)
Theorem hour_25_is_accepted (env : Env) (s : State) (m : Message)
    (id : jsstring) (target : Z) :
  author_bot m = false ->
  content m = hour_25_command ->
  JSDate.TimeClip (utc_of_local env 4070998800000) = Some target ->
  (forall e, embed_ok env e = true) ->
  (forall e, send_message env (2 + step s) (channel_id m) e = Ok id) ->
  let x := messageCreate m env s in
  countdowns (state_after x)
  = countdowns s
    ++ [mkCountdown (lit "X") target (channel_id m) id (author_id m)
          (clock env (3 + step s))]
  /\ ~ In (Reply usage_text) (events_of x).
Proof.
  intros Hhuman Hcontent Hclip Hembed Hsend.
  unfold messageCreate. rewrite Hhuman, Hcontent.
  change (startsWith hour_25_command prefix) with true. cbn [negb]. cbv zeta.
  rewrite hour_25_words.
  change (jseqb (toLowerCase (hd [] [lit "countdown";
                                     quote_mark ++ lit "X" ++ quote_mark;
                                     lit "2099-01-01"; lit "25:00"]))
            (lit "countdown")) with true.
  cbv iota.
  unfold create_countdown. rewrite Hcontent, hour_25_match.
  cbn [capture Nat.eqb].
  change (JSDate.construct (utc_of_local env) _ _ _ _ _ _)
    with (JSDate.TimeClip (utc_of_local env 4070998800000)).
  rewrite Hclip.
  exact (create_store_and_replies env s m Hembed id Hsend (lit "X") target).
Qed.

Lemma hour_25_is_accepted_witness :
  countdowns
    (state_after
       (messageCreate (command_message false "U" hour_25_command false)
          sample_env sample_state))
  = sample_store
    ++ [mkCountdown (lit "X") 4070998800000 (lit "C") (lit "M2") (lit "U")
          1700000000003].
Proof.
  exact (proj1 (hour_25_is_accepted sample_env sample_state
                  (command_message false "U" hour_25_command false)
                  (lit "M2") 4070998800000 eq_refl eq_refl eq_refl
                  (fun _ => eq_refl) (fun _ => eq_refl))).
Defined.


(** The scenario of a well-formed create command, on a host in UTC. *)
Example create_launch :
  countdowns
    (state_after
       (messageCreate
          (command_message false "U"
             (lit "!countdown " ++ quote_mark ++ lit "Launch" ++ quote_mark
              ++ lit " 2099-01-01 12:00:00") false)
          sample_env (mkState 0 [] Missing None)))
  = [mkCountdown (lit "Launch") 4070952000000 (lit "C") (lit "M2") (lit "U")
       1700000000003].
Proof. vm_compute. reflexivity. Qed.

Example create_without_quotes_is_refused :
  messageCreate
    (command_message false "U" (lit "!countdown Launch 2099-01-01") false)
    sample_env sample_state
  = (Ok tt, sample_state, [Reply usage_text]).
Proof. vm_compute. reflexivity. Qed.

Example create_hour_30_is_refused :
  messageCreate
    (command_message false "U"
       (lit "!countdown " ++ quote_mark ++ lit "X" ++ quote_mark
        ++ lit " 2099-01-01 30:00") false)
    sample_env sample_state
  = (Ok tt, sample_state, [Reply usage_text]).
Proof. vm_compute. reflexivity. Qed.

Example create_minute_60_is_refused :
  messageCreate
    (command_message false "U"
       (lit "!countdown " ++ quote_mark ++ lit "X" ++ quote_mark
        ++ lit " 2099-01-01 10:60") false)
    sample_env sample_state
  = (Ok tt, sample_state, [Reply usage_text]).
Proof. vm_compute. reflexivity. Qed.

(** ** Persistence *)

Example load_null :
  loadCountdowns (Content (lit "null")) (JArr [])
  = (JArr [],
     [load_error (lit "TypeError: Cannot read properties of null")]).
Proof. vm_compute. reflexivity. Qed.

(** Text that is JSON of another shape is no error for [loadCountdowns]. *)
Example load_number :
  loadCountdowns (Content (lit "5")) (JArr [])
  = (JNum 5, [ConsoleLog (lit "Loaded undefined countdown(s) from file.")]).
Proof. vm_compute. reflexivity. Qed.




Module JSONFacts.
Import JSON.

(** *** Strings *)

Lemma hex_value_unit (d : N) :
  (d < 16)%N -> hex_value (hex_unit d) = Some d.
Proof.
  intros Hd. unfold hex_unit, hex_value.
  destruct (N.ltb_spec d 10).
  - replace ((48 <=? 48 + d) && (48 + d <=? 57))%N with true.
    + f_equal. lia.
    + symmetry. apply andb_true_iff. split; apply N.leb_le; lia.
  - replace ((48 <=? 87 + d) && (87 + d <=? 57))%N with false.
    + replace ((97 <=? 87 + d) && (87 + d <=? 102))%N with true.
      * f_equal. lia.
      * symmetry. apply andb_true_iff. split; apply N.leb_le; lia.
    + symmetry. apply andb_false_iff. right. apply N.leb_gt. lia.
Qed.

Lemma hex4_escape (c : N) :
  (c < 65536)%N ->
  hex4 (hex_unit (c / 4096 mod 16)) (hex_unit (c / 256 mod 16))
       (hex_unit (c / 16 mod 16)) (hex_unit (c mod 16)) = Some c.
Proof.
  intros Hc. unfold hex4.
  rewrite !hex_value_unit by (apply N.mod_lt; discriminate).
  f_equal.
  pose proof (N.div_mod c 16 ltac:(discriminate)).
  pose proof (N.div_mod (c / 16) 16 ltac:(discriminate)).
  pose proof (N.div_mod (c / 256) 16 ltac:(discriminate)).
  pose proof (N.div_mod (c / 4096) 16 ltac:(discriminate)).
  replace (c / 16 / 16)%N with (c / 256)%N in *
    by (rewrite N.Div0.div_div; reflexivity).
  replace (c / 256 / 16)%N with (c / 4096)%N in *
    by (rewrite N.Div0.div_div; reflexivity).
  assert (c / 4096 / 16 = 0)%N.
  { rewrite N.Div0.div_div. apply N.div_small. exact Hc. }
  lia.
Qed.

Lemma parse_quote_unit (c : N) (rest : jsstring) :
  parse_string_body (quote_unit c ++ rest)
  = cons_fst c (parse_string_body rest).
Proof.
  unfold quote_unit.
  destruct (N.eqb_spec c 8) as [-> | H8]; [reflexivity |].
  destruct (N.eqb_spec c 9) as [-> | H9]; [reflexivity |].
  destruct (N.eqb_spec c 10) as [-> | H10]; [reflexivity |].
  destruct (N.eqb_spec c 12) as [-> | H12]; [reflexivity |].
  destruct (N.eqb_spec c 13) as [-> | H13]; [reflexivity |].
  destruct (N.eqb_spec c 34) as [-> | H34]; [reflexivity |].
  destruct (N.eqb_spec c 92) as [-> | H92]; [reflexivity |].
  destruct ((c <? 32)%N || is_high_surrogate c || is_low_surrogate c) eqn:E.
  - assert (Hc : (c < 65536)%N).
    { unfold is_high_surrogate, is_low_surrogate in E.
      rewrite !orb_true_iff, !andb_true_iff, N.ltb_lt, !N.leb_le in E. lia. }
    unfold unicode_escape. cbn [app parse_string_body].
    change (92 =? 34)%N with false. change (92 =? 92)%N with true.
    change (117 =? 117)%N with true. cbv iota.
    rewrite hex4_escape by exact Hc. reflexivity.
  - rewrite !orb_false_iff, N.ltb_ge in E. destruct E as [[Hlo _] _].
    cbn [app parse_string_body].
    destruct (N.eqb_spec c 34); [congruence |].
    destruct (N.eqb_spec c 92); [congruence |].
    destruct (N.ltb_spec c 32); [lia | reflexivity].
Qed.

Lemma parse_surrogate (c : N) (rest : jsstring) :
  is_high_surrogate c || is_low_surrogate c = true ->
  parse_string_body (c :: rest) = cons_fst c (parse_string_body rest).
Proof.
  unfold is_high_surrogate, is_low_surrogate.
  rewrite !orb_true_iff, !andb_true_iff, !N.leb_le. intros H.
  cbn [parse_string_body].
  destruct (N.eqb_spec c 34); [lia |].
  destruct (N.eqb_spec c 92); [lia |].
  destruct (N.ltb_spec c 32); [lia | reflexivity].
Qed.

Lemma quote_units_pair (c d : N) (r : jsstring) :
  quote_units (c :: d :: r)
  = if is_high_surrogate c && is_low_surrogate d
    then c :: d :: quote_units r
    else quote_unit c ++ quote_units (d :: r).
Proof. reflexivity. Qed.

Lemma parse_quote_units_bounded (n : nat) (s rest : jsstring) :
  (List.length s <= n)%nat ->
  parse_string_body (quote_units s ++ 34%N :: rest) = Some (s, rest).
Proof.
  revert s. induction n as [| n IH]; intros s Hlen.
  - destruct s; [reflexivity | cbn in Hlen; lia].
  - destruct s as [| c [| d r']]; [reflexivity | |].
    + cbn [quote_units]. rewrite parse_quote_unit. reflexivity.
    + rewrite quote_units_pair.
      destruct (is_high_surrogate c && is_low_surrogate d) eqn:E.
      * apply andb_true_iff in E as [Hc Hd].
        cbn [app]. rewrite parse_surrogate by (rewrite Hc; reflexivity).
        rewrite parse_surrogate by (rewrite Hd; apply orb_true_r).
        rewrite IH by (cbn in Hlen; lia). reflexivity.
      * rewrite <- app_assoc, parse_quote_unit.
        rewrite (IH (d :: r')) by (cbn in Hlen |- *; lia). reflexivity.
Qed.

Lemma parse_quote_units (s rest : jsstring) :
  parse_string_body (quote_units s ++ 34%N :: rest) = Some (s, rest).
Proof. apply (parse_quote_units_bounded (List.length s)). lia. Qed.


(** *** Numbers *)

Lemma digits_of_acc (d : Decimal.uint) (acc : positive) :
  Zpos (Pos.of_uint_acc d acc) = digits_value (Zpos acc) (units_of_uint d).
Proof.
  revert acc. induction d; intros acc;
    cbn [units_of_uint digits_value Pos.of_uint_acc];
    try reflexivity; rewrite IHd; f_equal; lia.
Qed.

Lemma digits_of_uint (d : Decimal.uint) :
  Z.of_N (Pos.of_uint d) = digits_value 0 (units_of_uint d).
Proof.
  induction d; cbn [units_of_uint digits_value Pos.of_uint];
    try reflexivity; try exact IHd;
    cbn [Z.of_N]; rewrite digits_of_acc; reflexivity.
Qed.

Lemma units_are_digits (d : Decimal.uint) :
  forallb is_digit (units_of_uint d) = true.
Proof. induction d; cbn; auto. Qed.

Lemma take_digits (ds rest : jsstring) :
  forallb is_digit ds = true -> ends_number rest ->
  take_while is_digit (ds ++ rest) = ds
  /\ drop_while is_digit (ds ++ rest) = rest.
Proof.
  intros Hds Hrest. induction ds as [| c ds IH].
  - destruct rest as [| c r]; [split; reflexivity |].
    cbn in Hrest |- *. destruct Hrest as [-> | ->]; split; reflexivity.
  - cbn in Hds. apply andb_true_iff in Hds as [Hc Hds].
    cbn [app take_while drop_while]. rewrite Hc.
    destruct (IH Hds) as [-> ->]. split; reflexivity.
Qed.

Lemma to_uint_head (p : positive) :
  exists c r, units_of_uint (Pos.to_uint p) = c :: r
              /\ is_digit c = true /\ c <> 48%N.
Proof.
  pose proof (DecimalPos.Unsigned.to_of (Pos.to_uint p)) as H.
  rewrite DecimalPos.Unsigned.of_to in H. cbn [N.to_uint] in H.
  pose proof (DecimalPos.Unsigned.to_uint_nonzero p) as Hnz.
  assert (Hhead : Decimal.nzhead (Pos.to_uint p) <> Decimal.Nil).
  { intros E. apply DecimalFacts.unorm_0 in E. congruence. }
  rewrite (DecimalFacts.unorm_nzhead _ Hhead) in H.
  pose proof (DecimalFacts.nzhead_nonzero (Pos.to_uint p)) as Hd0.
  rewrite <- H in Hd0, Hhead.
  destruct (Pos.to_uint p) as [| u | u | u | u | u | u | u | u | u | u];
    try congruence; try (exfalso; exact (Hd0 u eq_refl));
    cbn [units_of_uint]; eexists _, _; (split; [reflexivity |]);
    (split; [reflexivity | discriminate]).
Qed.

Lemma parse_number_nat (d : Decimal.uint) (rest : jsstring) (neg : bool) :
  (d = Decimal.zero
   \/ exists c r, units_of_uint d = c :: r /\ is_digit c = true /\ c <> 48%N) ->
  ends_number rest ->
  parse_number ((if neg then [45%N] else []) ++ units_of_uint d ++ rest)
  = Some (inject_Z ((if neg then -1 else 1) * digits_value 0 (units_of_uint d)),
          rest).
Proof.
  intros Hd Hrest.
  assert (Hint : int_digits (units_of_uint d ++ rest) = (units_of_uint d, rest)
                 /\ units_of_uint d <> []).
  { destruct Hd as [-> | (c & r & E & Hc & H0)].
    - split; [reflexivity | discriminate].
    - pose proof (units_are_digits d) as Hall.
      destruct (take_digits _ rest Hall Hrest) as [Ht Hdr].
      rewrite E in *. split; [| discriminate].
      unfold int_digits. cbn [app].
      destruct (N.eqb_spec c 48); [congruence |].
      cbn [app] in Ht, Hdr. rewrite Ht, Hdr. reflexivity. }
  destruct Hint as [Hint Hne].
  assert (Hfirst : forall c r, units_of_uint d = c :: r -> c <> 45%N).
  { intros c r E ->. pose proof (units_are_digits d) as Hall.
    rewrite E in Hall. cbn in Hall. discriminate. }
  unfold parse_number. destruct neg; cbn [app].
  - change (45 =? 45)%N with true. cbv iota. rewrite Hint.
    destruct (units_of_uint d) as [| c0 r0] eqn:E; [congruence |].
    destruct rest as [| c r]; [reflexivity |].
    cbn in Hrest. destruct Hrest as [-> | ->]; reflexivity.
  - destruct (units_of_uint d) as [| c0 r0] eqn:E; [congruence |].
    cbn [app] in Hint |- *.
    destruct (N.eqb_spec c0 45) as [-> | _];
      [exfalso; exact (Hfirst _ _ eq_refl eq_refl) |].
    rewrite Hint.
    destruct rest as [| c r]; [reflexivity |].
    cbn in Hrest. destruct Hrest as [-> | ->]; reflexivity.
Qed.

Lemma string_of_Z_value (z : Z) :
  exists (neg : bool) (d : Decimal.uint),
    string_of_Z z = (if neg then [45%N] else []) ++ units_of_uint d
    /\ (if neg then -1 else 1) * digits_value 0 (units_of_uint d) = z
    /\ (d = Decimal.zero
        \/ exists c r, units_of_uint d = c :: r
                       /\ is_digit c = true /\ c <> 48%N).
Proof.
  unfold string_of_Z. destruct z as [| p | p]; cbn [Z.to_int].
  - exists false, Decimal.zero. repeat split; auto.
  - exists false, (Pos.to_uint p). split; [reflexivity |]. split.
    + rewrite <- digits_of_uint, DecimalPos.Unsigned.of_to. cbn. lia.
    + right. apply to_uint_head.
  - exists true, (Pos.to_uint p). split; [reflexivity |]. split.
    + rewrite <- digits_of_uint, DecimalPos.Unsigned.of_to. cbn. lia.
    + right. apply to_uint_head.
Qed.

Lemma parse_number_integer (z : Z) (rest : jsstring) :
  ends_number rest ->
  parse_number (string_of_Z z ++ rest) = Some (inject_Z z, rest).
Proof.
  intros Hrest. destruct (string_of_Z_value z) as (neg & d & -> & Hv & Hd).
  rewrite <- app_assoc, parse_number_nat by assumption.
  rewrite Hv. reflexivity.
Qed.


(** *** Values *)

Lemma skip_ws_blank (w x : jsstring) :
  blank w -> skip_ws (w ++ x) = skip_ws x.
Proof.
  unfold blank, skip_ws. induction w as [| c w IH]; cbn; [reflexivity |].
  intros H. apply andb_true_iff in H as [-> H]. exact (IH H).
Qed.

Lemma blank_app (a b : jsstring) : blank a -> blank b -> blank (a ++ b).
Proof. unfold blank. rewrite forallb_app. intros -> ->. reflexivity. Qed.

Lemma blank_newline : blank newline.
Proof. reflexivity. Qed.

Lemma parse_value_blank (f : nat) (w x : jsstring) :
  blank w -> parse_value f (w ++ x) = parse_value f x.
Proof.
  intros Hw. destruct f; [reflexivity |]. cbn [parse_value].
  rewrite skip_ws_blank by exact Hw. reflexivity.
Qed.

Lemma parse_members_blank (n : nat) (pv : parser json) (w x : jsstring) :
  blank w -> parse_members n pv (w ++ x) = parse_members n pv x.
Proof.
  intros Hw. destruct n; [reflexivity |]. cbn [parse_members].
  rewrite skip_ws_blank by exact Hw. reflexivity.
Qed.

Lemma parse_value_string (f : nat) (s rest : jsstring) :
  parse_value (S f) (quote s ++ rest) = Some (JStr s, rest).
Proof.
  unfold quote. cbn [parse_value app]. unfold skip_ws. cbn [drop_while].
  change (is_json_ws 34) with false. cbv iota.
  change (34 =? 110)%N with false. change (34 =? 116)%N with false.
  change (34 =? 102)%N with false. change (34 =? 34)%N with true. cbv iota.
  rewrite <- app_assoc. cbn [app]. rewrite parse_quote_units. reflexivity.
Qed.

Lemma string_of_Z_head (z : Z) :
  exists c r, string_of_Z z = c :: r /\ (c = 45%N \/ is_digit c = true).
Proof.
  destruct (string_of_Z_value z) as (neg & d & E & _ & Hd). rewrite E.
  destruct neg; cbn [app].
  - eexists _, _. split; [reflexivity | left; reflexivity].
  - destruct Hd as [-> | (c & r & -> & Hc & _)].
    + eexists _, _. split; [reflexivity | right; reflexivity].
    + eexists _, _. split; [reflexivity | right; exact Hc].
Qed.

Lemma parse_value_integer (f : nat) (z : Z) (rest : jsstring) :
  ends_number rest ->
  parse_value (S f) (string_of_Z z ++ rest) = Some (JNum (inject_Z z), rest).
Proof.
  intros Hrest. pose proof (parse_number_integer z rest Hrest) as Hnum.
  destruct (string_of_Z_head z) as (c & r & E & Hc). rewrite E in *.
  cbn [parse_value app] in *. unfold skip_ws. cbn [drop_while].
  assert (Hclass :
    is_json_ws c = false /\ (c =? 110)%N = false /\ (c =? 116)%N = false
    /\ (c =? 102)%N = false /\ (c =? 34)%N = false /\ (c =? 91)%N = false
    /\ (c =? 123)%N = false).
  { destruct Hc as [-> | Hc]; [repeat split; reflexivity |].
    unfold is_digit in Hc. apply andb_true_iff in Hc as [H1 H2].
    apply N.leb_le in H1, H2. unfold is_json_ws.
    repeat split; try (apply N.eqb_neq; lia);
      rewrite !orb_false_iff; repeat split; apply N.eqb_neq; lia. }
  destruct Hclass as (-> & -> & -> & -> & -> & -> & ->).
  rewrite Hnum. reflexivity.
Qed.

Lemma parse_value_scalar (f : nat) (gap ind : jsstring) (v : json)
    (rest : jsstring) :
  scalar v -> ends_number rest ->
  parse_value (S f) (serialize gap ind v ++ rest) = Some (v, rest).
Proof.
  intros [[s ->] | [z ->]] Hrest; cbn [serialize].
  - apply parse_value_string.
  - unfold number_text. cbn [inject_Z Qden Qnum]. change (1 =? 1) with true.
    cbv iota. apply parse_value_integer. exact Hrest.
Qed.

Section Containers.

Variables (gap ind inner : jsstring).
Hypothesis Hind : blank ind.
Hypothesis Hinner : blank inner.

Lemma parse_one_member (n f : nat) (kv : jsstring * json) (rest : jsstring) :
  scalar (snd kv) -> ends_number rest ->
  parse_members (S n) (parse_value (S f)) (member_text gap inner kv ++ rest)
  = match skip_ws rest with
    | c :: r4 =>
        if (c =? 44)%N then
          cons_fst kv (parse_members n (parse_value (S f)) r4)
        else if (c =? 125)%N then Some ([kv], r4)
        else None
    | [] => None
    end.
Proof.
  intros Hv Hrest. destruct kv as [k v]. unfold member_text, quote.
  cbn [fst snd] in *. cbn [parse_members app]. unfold skip_ws at 1.
  cbn [drop_while]. change (is_json_ws 34) with false. cbv iota.
  rewrite <- !app_assoc. cbn [app]. rewrite parse_quote_units.
  change (lit ": ") with [58%N; 32%N]. cbn [app].
  unfold skip_ws at 1. cbn [drop_while]. change (is_json_ws 58) with false.
  cbv iota.
  match goal with
  | |- context [parse_value (S f) (32%N :: ?x)] =>
      change (32%N :: x) with ([32%N] ++ x)
  end.
  rewrite (parse_value_blank (S f) [32%N]) by reflexivity.
  rewrite parse_value_scalar by assumption.
  reflexivity.
Qed.

Lemma join_cons (sep p : jsstring) (ps : list jsstring) :
  join sep (p :: ps)
  = match ps with [] => p | _ :: _ => p ++ sep ++ join sep ps end.
Proof. destruct ps; reflexivity. Qed.

Lemma separator_cons (x : jsstring) :
  separator inner ++ x = 44%N :: (newline ++ inner) ++ x.
Proof. unfold separator. rewrite <- !app_assoc. reflexivity. Qed.

Lemma parse_flat_members (members : list (jsstring * json)) :
  forall (n f : nat) (rest : jsstring),
  members <> [] ->
  Forall (fun kv => scalar (snd kv)) members ->
  (List.length members <= n)%nat ->
  parse_members n (parse_value (S f))
    (join (separator inner) (map (member_text gap inner) members)
     ++ newline ++ ind ++ 125%N :: rest)
  = Some (members, rest).
Proof.
  induction members as [| kv more IH]; intros n f rest Hne Hall Hlen;
    [congruence |].
  destruct n as [| n]; [cbn in Hlen; lia |].
  inversion Hall as [| ? ? Hkv Hmore]; subst.
  cbn [map]. rewrite join_cons.
  destruct more as [| kv2 more'].
  - cbn [map]. rewrite parse_one_member; [| exact Hkv | right; reflexivity].
    rewrite app_assoc, skip_ws_blank
      by (apply blank_app; [apply blank_newline | exact Hind]).
    reflexivity.
  - change (map (member_text gap inner) (kv2 :: more'))
      with (member_text gap inner kv2 :: map (member_text gap inner) more').
    cbv iota. rewrite <- !app_assoc.
    rewrite parse_one_member;
      [| exact Hkv | rewrite separator_cons; left; reflexivity].
    rewrite separator_cons. unfold skip_ws at 1. cbn [drop_while].
    change (is_json_ws 44) with false. cbv iota.
    change (44 =? 44)%N with true. cbv iota.
    rewrite parse_members_blank
      by (apply blank_app; [apply blank_newline | exact Hinner]).
    change (member_text gap inner kv2 :: map (member_text gap inner) more')
      with (map (member_text gap inner) (kv2 :: more')).
    rewrite IH; [reflexivity | discriminate | exact Hmore |].
    cbn [List.length] in Hlen |- *. lia.
Qed.

Lemma member_text_head (kv : jsstring * json) :
  exists r, member_text gap inner kv = 34%N :: r.
Proof. unfold member_text, quote. cbn [app]. eexists. reflexivity. Qed.

Hypothesis Einner : inner = ind ++ gap.

Lemma serialize_object (members : list (jsstring * json)) :
  members <> [] ->
  serialize gap ind (JObj members)
  = 123%N :: (newline ++ inner)
    ++ join (separator inner) (map (member_text gap inner) members)
    ++ newline ++ ind ++ [125%N].
Proof.
  rewrite Einner. destruct members; [congruence |]. intros _.
  cbn [serialize]. change (lit "{") with [123%N].
  change (lit "}") with [125%N]. rewrite <- !app_assoc. reflexivity.
Qed.

Lemma serialize_array (items : list json) :
  items <> [] ->
  serialize gap ind (JArr items)
  = 91%N :: (newline ++ inner)
    ++ join (separator inner) (map (serialize gap inner) items)
    ++ newline ++ ind ++ [93%N].
Proof.
  rewrite Einner. destruct items; [congruence |]. intros _.
  cbn [serialize]. change (lit "[") with [91%N].
  change (lit "]") with [93%N]. rewrite <- !app_assoc. reflexivity.
Qed.

Lemma parse_flat_object (members : list (jsstring * json)) (f : nat)
    (rest : jsstring) :
  members <> [] ->
  Forall (fun kv => scalar (snd kv)) members ->
  (List.length members <= S f)%nat ->
  parse_value (S (S f)) (serialize gap ind (JObj members) ++ rest)
  = Some (JObj (build_object members), rest).
Proof.
  intros Hne Hall Hlen. rewrite serialize_object by exact Hne.
  cbn [app]. rewrite <- !app_assoc.
  change (parse_value (S (S f)) (123%N :: ?x))
    with (match skip_ws x with
          | 125%N :: r' => Some (JObj [], r')
          | r' =>
              match parse_members (S f) (parse_value (S f)) r' with
              | Some (raw, r'') => Some (JObj (build_object raw), r'')
              | None => None
              end
          end).
  rewrite (app_assoc newline), skip_ws_blank
    by (apply blank_app; [apply blank_newline | exact Hinner]).
  pose proof (parse_flat_members members (S f) f rest Hne Hall Hlen) as Hp.
  destruct members as [| kv more]; [congruence |].
  cbn [map] in Hp |- *. rewrite join_cons in Hp |- *.
  destruct (member_text_head kv) as [r Hr]. rewrite Hr in Hp |- *.
  destruct (map (member_text gap inner) more); cbn [app] in Hp |- *;
    unfold skip_ws; cbn [drop_while]; change (is_json_ws 34) with false;
    cbv iota; rewrite Hp; reflexivity.
Qed.

End Containers.

(** *** Countdown records *)

Lemma record_members_flat (cd : Countdown) :
  exists members,
    to_json cd = JObj members /\ members <> []
    /\ Forall (fun kv => scalar (snd kv)) members
    /\ List.length members = 6%nat
    /\ build_object members = members.
Proof.
  eexists. split; [reflexivity |]. split; [discriminate |].
  split; [| split; reflexivity].
  repeat (apply Forall_cons;
          [first [left; eexists; reflexivity | right; eexists; reflexivity] |]).
  apply Forall_nil.
Qed.

Lemma parse_record (gap ind : jsstring) (F : nat) (cd : Countdown)
    (rest : jsstring) :
  blank gap -> blank ind -> (7 <= F)%nat ->
  parse_value F (serialize gap ind (to_json cd) ++ rest)
  = Some (to_json cd, rest).
Proof.
  intros Hgap Hind HF.
  destruct (record_members_flat cd) as (members & -> & Hne & Hall & Hlen & Hb).
  destruct F as [| [| f]]; try lia.
  rewrite (parse_flat_object gap ind (ind ++ gap))
    by (try assumption; try reflexivity; try lia;
        apply blank_app; assumption).
  rewrite Hb. reflexivity.
Qed.

Lemma record_text_head (gap ind : jsstring) (cd : Countdown) :
  exists r, serialize gap ind (to_json cd) = 123%N :: r.
Proof. eexists. reflexivity. Qed.

Lemma parse_elements_blank (n F : nat) (w x : jsstring) :
  blank w ->
  parse_elements n (parse_value F) (w ++ x)
  = parse_elements n (parse_value F) x.
Proof.
  intros Hw. destruct n; [reflexivity |]. cbn [parse_elements].
  rewrite parse_value_blank by exact Hw. reflexivity.
Qed.

Section Records.

Variables (gap ind inner : jsstring).
Hypothesis Hgap : blank gap.
Hypothesis Hind : blank ind.
Hypothesis Hinner : blank inner.

Lemma parse_records (cds : list Countdown) :
  forall (n F : nat) (rest : jsstring),
  cds <> [] -> (List.length cds <= n)%nat -> (7 <= F)%nat ->
  parse_elements n (parse_value F)
    (join (separator inner) (map (serialize gap inner) (map to_json cds))
     ++ newline ++ ind ++ 93%N :: rest)
  = Some (map to_json cds, rest).
Proof.
  induction cds as [| cd more IH]; intros n F rest Hne Hlen HF;
    [congruence |].
  destruct n as [| n]; [cbn in Hlen; lia |].
  cbn [map]. rewrite join_cons.
  destruct more as [| cd2 more'].
  - cbn [map parse_elements].
    rewrite parse_record by assumption.
    rewrite app_assoc, skip_ws_blank
      by (apply blank_app; [apply blank_newline | exact Hind]).
    reflexivity.
  - change (map (serialize gap inner) (map to_json (cd2 :: more')))
      with (serialize gap inner (to_json cd2)
            :: map (serialize gap inner) (map to_json more')).
    cbv iota. rewrite <- !app_assoc. cbn [parse_elements].
    rewrite parse_record by assumption.
    rewrite separator_cons. unfold skip_ws at 1. cbn [drop_while].
    change (is_json_ws 44) with false. cbv iota.
    change (44 =? 44)%N with true. cbv iota.
    rewrite parse_elements_blank
      by (apply blank_app; [apply blank_newline | exact Hinner]).
    change (serialize gap inner (to_json cd2)
            :: map (serialize gap inner) (map to_json more'))
      with (map (serialize gap inner) (map to_json (cd2 :: more'))).
    rewrite IH; [reflexivity | discriminate | | exact HF].
    cbn [List.length] in Hlen |- *. lia.
Qed.

End Records.

Lemma length_join (sep : jsstring) (parts : list jsstring) (k : nat) :
  (forall p, In p parts -> (k <= List.length p)%nat) ->
  (k * List.length parts <= List.length (join sep parts))%nat.
Proof.
  induction parts as [| p ps IH]; intros Hall; [cbn; lia |].
  rewrite join_cons. pose proof (Hall p (or_introl eq_refl)) as Hp.
  destruct ps as [| q ps'].
  - cbn [List.length]. lia.
  - rewrite !length_app. cbn [List.length] in IH |- *.
    assert (Hrec : (k * S (List.length ps') <= List.length (join sep (q :: ps')))%nat).
    { apply IH. intros x Hx. apply Hall. right. exact Hx. }
    lia.
Qed.

Lemma record_text_length (gap ind : jsstring) (cd : Countdown) :
  (7 <= List.length (serialize gap ind (to_json cd)))%nat.
Proof.
  unfold to_json.
  rewrite (serialize_object gap ind (ind ++ gap) eq_refl) by discriminate.
  cbn [map]. rewrite !join_cons. unfold member_text at 1, quote at 1.
  cbn [fst]. cbn [List.length]. rewrite !length_app.
  change (List.length newline) with 1%nat.
  change (List.length (lit ": ")) with 2%nat.
  cbn [List.length]. lia.
Qed.

Lemma parse_store_fuel (cds : list Countdown) (F : nat) :
  cds <> [] -> (List.length cds <= F)%nat -> (7 <= F)%nat ->
  parse_value (S F) (stringify2 (encode_store cds))
  = Some (encode_store cds, []).
Proof.
  intros Hne Hlen HF. unfold stringify2, encode_store.
  rewrite (serialize_array (lit "  ") [] (lit "  ") eq_refl)
    by (destruct cds; [congruence | discriminate]).
  change (parse_value (S F) (91%N :: ?x))
    with (match skip_ws x with
          | 93%N :: r' => Some (JArr [], r')
          | r' =>
              match parse_elements F (parse_value F) r' with
              | Some (its, r'') => Some (JArr its, r'')
              | None => None
              end
          end).
  rewrite skip_ws_blank by reflexivity.
  pose proof (parse_records (lit "  ") [] (lit "  ") eq_refl eq_refl eq_refl
                cds F F [] Hne Hlen HF) as Hp.
  cbn [app] in Hp |- *.
  destruct cds as [| cd more]; [congruence |].
  cbn [map] in Hp |- *. rewrite join_cons in Hp |- *.
  destruct (record_text_head (lit "  ") (lit "  ") cd) as [r Hr].
  rewrite Hr in Hp |- *.
  destruct (map (serialize (lit "  ") (lit "  ")) (map to_json more));
    cbn [app] in Hp |- *; unfold skip_ws at 1; cbn [drop_while];
    change (is_json_ws 123) with false; cbv iota; rewrite Hp; reflexivity.
Qed.

Lemma store_text_length (cds : list Countdown) :
  (7 * List.length cds <= List.length (stringify2 (encode_store cds)))%nat.
Proof.
  destruct cds as [| cd more]; [cbn; lia |].
  unfold stringify2, encode_store.
  rewrite (serialize_array (lit "  ") [] (lit "  ") eq_refl) by discriminate.
  cbn [List.length]. rewrite !length_app.
  match goal with
  | |- context [List.length (join ?sep ?parts)] =>
      pose proof (length_join sep parts 7) as H
  end.
  rewrite !length_map in H.
  assert (Hall : forall p,
            In p (map (serialize (lit "  ") (lit "  "))
                    (map to_json (cd :: more))) ->
            (7 <= List.length p)%nat).
  { intros p Hp. apply in_map_iff in Hp as (v & <- & Hv).
    apply in_map_iff in Hv as (c & <- & _). apply record_text_length. }
  specialize (H Hall). cbn [List.length] in H. lia.
Qed.

(** [JSON.parse(JSON.stringify(countdowns, null, 2))] gives the array
    back. *)
Lemma parse_stringify_store (cds : list Countdown) :
  parse (stringify2 (encode_store cds)) = Some (encode_store cds).
Proof.
  destruct cds as [| cd more] eqn:E; [reflexivity |]. rewrite <- E.
  assert (Hne : cds <> []) by (rewrite E; discriminate).
  pose proof (store_text_length cds) as Hlen.
  assert (1 <= List.length cds)%nat by (rewrite E; cbn; lia).
  unfold parse. rewrite parse_store_fuel by (trivial; lia). reflexivity.
Qed.

End JSONFacts.

Lemma of_json_to_json (cd : Countdown) : of_json (to_json cd) = Some cd.
Proof. destruct cd. reflexivity. Qed.

Lemma decode_encode_store (cds : list Countdown) :
  decode_store (encode_store cds) = Some cds.
Proof.
  unfold decode_store, encode_store.
  induction cds as [| cd more IH]; [reflexivity |].
  cbn [map of_json_list]. rewrite of_json_to_json, IH. reflexivity.
Qed.

(** C5. For every array of countdown records: when the write of
    [saveCountdowns] goes through, [loadCountdowns] in a process that has
    just started reads back the JSON value of that very array, and that
    value gives back every record field for field. *)
Theorem save_then_load_roundtrip (env : Env) (s : State) :
  is_ok (write_file env (step s)
           (JSON.stringify2 (encode_store (countdowns s)))) = true ->
  let s' := state_after (saveCountdowns env s) in
  fst (loadCountdowns (file s') (JArr [])) = encode_store (countdowns s)
  /\ decode_store (fst (loadCountdowns (file s') (JArr [])))
     = Some (countdowns s).
Proof.
  intros Hwrite. cbv zeta. rewrite saveCountdowns_run. cbv zeta.
  destruct (write_file env (step s) _) as [[] | msg]; [| discriminate].
  unfold state_after. cbn [fst snd file].
  assert (Hload :
    fst (loadCountdowns
           (Content (JSON.stringify2 (encode_store (countdowns s))))
           (JArr []))
    = encode_store (countdowns s)).
  { unfold loadCountdowns, load_try, JSON_parse.
    cbn [file_exists readFileSync].
    rewrite JSONFacts.parse_stringify_store. reflexivity. }
  rewrite Hload. split; [reflexivity | apply decode_encode_store].
Qed.

Lemma save_then_load_roundtrip_witness :
  decode_store
    (fst (loadCountdowns
            (file (state_after (saveCountdowns sample_env sample_state)))
            (JArr [])))
  = Some sample_store.
Proof.
  exact (proj2 (save_then_load_roundtrip sample_env sample_state eq_refl)).
Defined.

(** * Further properties of the handlers *)

(** ** The text of a remaining time *)
Lemma format_as_filter (tr : TimeRemaining) :
  nonnegative tr -> formatTimeRemaining tr = format_spec tr.
Proof.
  intros (Hd & Hh & Hm & Hs).
  assert (Hparts :
    formatTimeRemaining tr
    = if expired tr then expired_phrase
      else or_else
             (join (lit ", ") (map phrase (filter nonzero (components tr))))
             moment_phrase).
  { unfold formatTimeRemaining. destruct (expired tr); [reflexivity |].
    cbv zeta. rewrite !push_if_pos_filter by assumption.
    rewrite app_nil_l, <- !map_app, <- !filter_app. reflexivity. }
  rewrite Hparts. unfold format_spec. destruct (expired tr); [reflexivity |].
  destruct (all_zero tr) eqn:Hz.
  - apply filter_nonzero_nil in Hz. rewrite Hz. reflexivity.
  - unfold or_else. rewrite truthy_join; [reflexivity | |].
    + intros Hnil. apply map_eq_nil in Hnil.
      apply filter_nonzero_nil in Hnil. congruence.
    + intros x Hx. apply in_map_iff in Hx as (c & <- & _).
      apply truthy_phrase.
Qed.

Lemma string_of_Z_pos_head (v : Z) :
  0 < v -> exists c r, string_of_Z v = c :: r /\ is_digit c = true.
Proof.
  intros Hv. destruct v as [| p | p]; try lia.
  unfold string_of_Z. cbn [Z.to_int].
  destruct (JSONFacts.to_uint_head p) as (c & r & E & Hc & _).
  exists c, r. split; assumption.
Qed.

Lemma all_zero_window (target now : Z) :
  0 < target - now ->
  (all_zero (getTimeRemaining target now) = true <-> target - now < 1000).
Proof.
  intros Hpos. rewrite (getTimeRemaining_fields target now Hpos).
  unfold all_zero. cbn [days hours minutes seconds].
  set (T := target - now) in *.
  rewrite !andb_true_iff, !Z.eqb_eq. split.
  - intros (((Hd & Hh) & Hm) & Hs).
    destruct (Z.lt_ge_cases T 1000) as [Hlt | Hge]; [exact Hlt | exfalso].
    revert Hd Hh Hm Hs. 
    replace (T / 3600000) with (T / 1000 / 3600) by (rewrite Z.div_div by lia; reflexivity).
    replace (T / 86400000) with (T / 1000 / 86400) by (rewrite Z.div_div by lia; reflexivity).
    assert (1 <= T / 1000) by (apply Z.div_le_lower_bound; lia).
    generalize dependent (T / 1000). intros S HS Hd Hh Hm Hs.
    Z.to_euclidean_division_equations. lia.
  - intros Hlt.
    rewrite (Z.div_small T 86400000), (Z.div_small T 3600000),
      (Z.div_small T 1000) by lia.
    repeat split; reflexivity.
Qed.

(** X1. The text that the formatter gives for the duration between a
    target instant and the current instant: it is the expired phrase
    exactly when the target is not after the current instant, the
    less-than-a-second phrase exactly when the target is less than a
    second ahead, and it starts with a decimal digit when the target is a
    second or more ahead. *)
Theorem formatted_remaining_cases (target now : Z) :
  let text := formatTimeRemaining (getTimeRemaining target now) in
  (text = expired_phrase <-> target - now <= 0)
  /\ (text = moment_phrase <-> 0 < target - now < 1000)
  /\ (1000 <= target - now ->
      exists c r, text = c :: r /\ is_digit c = true).
Proof.
  cbv zeta.
  rewrite (format_as_filter _ (getTimeRemaining_nonnegative target now)).
  unfold format_spec.
  destruct (Z.leb_spec (target - now) 0) as [Hle | Hpos].
  - assert (E : expired (getTimeRemaining target now) = true).
    { unfold getTimeRemaining. apply Z.leb_le in Hle. rewrite Hle.
      reflexivity. }
    rewrite E. split; [tauto |]. split; [| lia].
    split; [discriminate | lia].
  - assert (E : expired (getTimeRemaining target now) = false).
    { rewrite (getTimeRemaining_fields target now Hpos). reflexivity. }
    rewrite E. pose proof (all_zero_window target now Hpos) as Hw.
    assert (Hdigit :
      all_zero (getTimeRemaining target now) = false ->
      exists c r,
        join (lit ", ")
          (map phrase (filter nonzero (components (getTimeRemaining target now))))
        = c :: r /\ is_digit c = true).
    { intros Hz.
      destruct (filter nonzero (components (getTimeRemaining target now)))
        as [| [v u] rest] eqn:Ef.
      - apply filter_nonzero_nil in Ef. congruence.
      - assert (Hin : In (v, u) (filter nonzero
                                   (components (getTimeRemaining target now))))
          by (rewrite Ef; left; reflexivity).
        apply filter_In in Hin as [Hin Hnz].
        assert (Hv : 0 < v).
        { unfold nonzero in Hnz. cbn [fst] in Hnz.
          apply negb_true_iff, Z.eqb_neq in Hnz.
          destruct (getTimeRemaining_nonnegative target now)
            as (Hd & Hh & Hm & Hs).
          unfold components in Hin. cbn [In] in Hin.
          destruct Hin as [H | [H | [H | [H | []]]]];
            injection H as <- _; lia. }
        destruct (string_of_Z_pos_head v Hv) as (c & r & Es & Hc).
        cbn [map]. rewrite JSONFacts.join_cons.
        destruct (map phrase rest); unfold phrase; cbn [fst snd];
          rewrite Es; eexists c, _; (split; [reflexivity | exact Hc]). }
    destruct (all_zero (getTimeRemaining target now)) eqn:Hz.
    + split; [split; [discriminate | lia] |].
      split; [split; [intros _; split; [lia | apply Hw; reflexivity] | reflexivity] |].
      intros Hge. assert (target - now < 1000) by (apply Hw; reflexivity). lia.
    + destruct (Hdigit eq_refl) as (c & r & Ej & Hc). rewrite Ej.
      split; [split; [intros H; injection H as -> _; discriminate | lia] |].
      split.
      * split; [intros H; injection H as -> _; discriminate |].
        intros [_ Hlt]. apply Hw in Hlt. discriminate.
      * intros _. exists c, r. split; [reflexivity | exact Hc].
Qed.

Lemma formatted_remaining_cases_witness :
  exists c r,
    formatTimeRemaining (getTimeRemaining 1700000005000 1700000000000)
    = c :: r /\ is_digit c = true.
Proof.
  pose proof (formatted_remaining_cases 1700000005000 1700000000000) as H.
  cbv zeta in H. destruct H as (_ & _ & H). apply H. lia.
Defined.

(** ** One refresh and one cycle *)
Section RefreshMore.

Variable env : Env.

(** X2. The refresh of one record completes with the flag that tells
    whether the record is kept, never throws, and leaves the array, the
    file and the status text alone. It writes no error line when the edit
    of the tracking message succeeds; when the edit is not reached or
    fails, the flag is [false] and exactly one error line is written. *)
Theorem update_logs_exactly_failures (cd : Countdown) (s : State) :
  let x := updateCountdownMessage cd env s in
  value_of x = Ok (kept env cd (step s))
  /\ same_store s (state_after x)
  /\ (edit_succeeds env cd (step s) = true ->
      filter is_console_error (events_of x) = [])
  /\ (edit_succeeds env cd (step s) = false ->
      value_of x = Ok false
      /\ exists label message,
           filter is_console_error (events_of x)
           = [ConsoleError label message]).
Proof.
  unfold kept, edit_succeeds, reaches_edit, embed_at, draft_at, duration_at.
  unfold updateCountdownMessage, refresh_embed, build_embed, channels_fetch,
    messages_fetch, message_edit, try_catch, bind, call, lift, Date_now,
    console_error, emit, ret, throw, value_of, state_after, events_of,
    same_store.
  cbn.
  destruct (embed_ok env _) eqn:He; cbn.
  2:{ repeat split; try discriminate; eauto. }
  destruct (fetch_channel env _ _) eqn:Hc; cbn.
  2:{ repeat split; try discriminate; eauto. }
  destruct (fetch_message env _ _ _) eqn:Hm; cbn.
  2:{ repeat split; try discriminate; eauto. }
  destruct (edit_message env _ _ _ _) eqn:Hed; cbn.
  - repeat split; try discriminate; eauto.
  - repeat split; try discriminate; eauto.
Qed.

Lemma quiet_filter (ev : list Event) :
  quiet ev -> filter is_save_or_status ev = [].
Proof.
  induction 1 as [| e ev He _ IH]; [reflexivity |].
  cbn [filter]. rewrite He. exact IH.
Qed.

Lemma updateAllCountdowns_drop (arriving : list (list Message)) (s : State) :
  List.concat arriving = [] ->
  List.length (retained env s) <> List.length (countdowns s) ->
  exists s1 ev1,
    refresh_each arriving 0 [] env s = (Ok (retained env s), s1, ev1)
    /\ same_store s s1
    /\ quiet ev1
    /\ updateAllCountdowns arriving env s
       = let '(r, s3, ev3) :=
           (saveCountdowns ;; updateBotStatus)
             env (mkState (step s1) (retained env s) (file s1) (activity s1)) in
         (r, s3, ev1 ++ ev3).
Proof.
  intros Hidle Hne.
  destruct (refresh_each_run env arriving s Hidle) as (Hv & Hs & Hq & _).
  destruct (refresh_each arriving 0 [] env s) as [[r s1] ev1] eqn:Hrun.
  unfold value_of, state_after, events_of in Hv, Hs, Hq.
  cbn [fst snd app] in Hv, Hs, Hq. subst r.
  exists s1, ev1. split; [reflexivity |]. split; [exact Hs |].
  split; [exact Hq |].
  unfold updateAllCountdowns. rewrite (bind_ok _ _ _ _ _ _ _ Hrun).
  rewrite bind_get.
  destruct Hs as (Hc & _). rewrite Hc.
  destruct (Nat.eqb_spec (List.length (retained env s))
              (List.length (countdowns s))) as [Heq | _]; [congruence |].
  cbn [negb]. unfold bind at 1, set_countdowns. cbn [fst snd app].
  destruct ((saveCountdowns;; updateBotStatus) env _) as [[r3 s3] ev3].
  reflexivity.
Qed.

(** X3. A refresh cycle during which no message is handled and that
    drops a record completes, makes the retained records the array and
    sets the status text to their number; it asks for one write, that of
    the retained records, and for one refresh of the status text. The
    file holds the text of the retained records when the write goes
    through, and what the failed write left of it when it does not. *)
Theorem refresh_with_drop (arriving : list (list Message)) (s : State) :
  List.concat arriving = [] ->
  List.length (retained env s) <> List.length (countdowns s) ->
  let x := updateAllCountdowns arriving env s in
  let data := JSON.stringify2 (encode_store (retained env s)) in
  let text := status_text (List.length (retained env s)) in
  value_of x = Ok tt
  /\ countdowns (state_after x) = retained env s
  /\ activity (state_after x) = Some text
  /\ exists (ok : bool) (k : nat),
       filter is_save_or_status (events_of x)
       = [WriteFile data ok; SetActivity text]
       /\ is_ok (write_file env k data) = ok
       /\ file (state_after x)
          = if ok then Content data
            else failed_write env k (file s) data.
Proof.
  intros Hidle Hne. cbv zeta.
  destruct (updateAllCountdowns_drop arriving s Hidle Hne)
    as (s1 & ev1 & _ & Hs & Hq & ->).
  destruct Hs as (_ & Hf & _).
  unfold bind. rewrite saveCountdowns_run. cbv zeta.
  cbn [countdowns step file activity].
  unfold updateBotStatus, value_of, state_after, events_of.
  destruct (write_file env (step s1) _) as [[] | message] eqn:Hw;
    cbn [fst snd countdowns step file activity app];
    (split; [reflexivity |]); (split; [reflexivity |]);
    (split; [reflexivity |]).
  - exists true, (step s1). rewrite filter_app, (quiet_filter _ Hq), Hw.
    repeat split.
  - exists false, (step s1). rewrite filter_app, (quiet_filter _ Hq), Hw, Hf.
    repeat split.
Qed.

Lemma subseq_filter_fst {A B} (p : A * B -> bool) (l : list (A * B)) :
  subseq (map fst (filter p l)) (map fst l).
Proof.
  induction l as [| a l IH]; cbn; [constructor |].
  destruct (p a); cbn; constructor; exact IH.
Qed.

Lemma subseq_length {A} (l l' : list A) :
  subseq l l' -> (List.length l <= List.length l')%nat.
Proof. induction 1; cbn; lia. Qed.

(** X4. A refresh cycle during which no message is handled adds no
    record and reorders none: the array after the cycle is the array
    before it with some records left out. *)
Theorem refresh_keeps_a_subsequence (arriving : list (list Message))
    (s : State) :
  List.concat arriving = [] ->
  let s' := state_after (updateAllCountdowns arriving env s) in
  subseq (countdowns s') (countdowns s)
  /\ (List.length (countdowns s') <= List.length (countdowns s))%nat.
Proof.
  intros Hidle. cbv zeta.
  destruct (updateAllCountdowns_run env arriving s Hidle) as (-> & _).
  assert (H : subseq (retained env s) (countdowns s)).
  { unfold retained.
    rewrite <- (pass_steps_records env (countdowns s) s) at 2.
    apply subseq_filter_fst. }
  split; [exact H | apply subseq_length; exact H].
Qed.

End RefreshMore.

Lemma update_logs_exactly_failures_witness :
  value_of (updateCountdownMessage (sample_record "Party" 1800000000000 "U1")
              flaky_env sample_state)
  = Ok false.
Proof.
  pose proof (update_logs_exactly_failures flaky_env
                (sample_record "Party" 1800000000000 "U1") sample_state)
    as H.
  cbv zeta in H. destruct H as (_ & _ & _ & H).
  exact (proj1 (H eq_refl)).
Defined.

Lemma refresh_with_drop_witness :
  activity (state_after (updateAllCountdowns [[]] sample_env sample_state))
  = Some (lit "2 countdowns").
Proof.
  pose proof (refresh_with_drop sample_env [[]] sample_state eq_refl
                ltac:(vm_compute; discriminate)) as H.
  cbv zeta in H. destruct H as (_ & _ & H & _).
  rewrite H. vm_compute. reflexivity.
Defined.

Lemma refresh_keeps_a_subsequence_witness :
  (List.length
     (countdowns
        (state_after (updateAllCountdowns [[]; []] sample_env sample_state)))
   <= 3)%nat.
Proof.
  exact (proj2 (refresh_keeps_a_subsequence sample_env [[]; []] sample_state
                  eq_refl)).
Defined.

(** X5. A save never throws and changes neither the array nor the
    status text. When the write throws, the error is written to the
    console with the message of the write, and the file is what the
    failed write left of it: the file as it was when the opening failed,
    an empty or cut-off file when the failure came after the truncation.
    When the write goes through, the file holds the text of the array and
    no error line is written. *)
Theorem saveCountdowns_outcome (env : Env) (s : State) :
  let x := saveCountdowns env s in
  let data := JSON.stringify2 (encode_store (countdowns s)) in
  value_of x = Ok tt
  /\ countdowns (state_after x) = countdowns s
  /\ activity (state_after x) = activity s
  /\ (forall message,
        write_file env (step s) data = Throw message ->
        file (state_after x) = failed_write env (step s) (file s) data
        /\ events_of x
           = [WriteFile data false;
              ConsoleError (lit "Error saving countdowns:") message])
  /\ (write_file env (step s) data = Ok tt ->
        file (state_after x) = Content data
        /\ filter is_console_error (events_of x) = []).
Proof.
  cbv zeta. rewrite saveCountdowns_run. cbv zeta.
  unfold value_of, state_after, events_of.
  destruct (write_file env (step s) _) as [[] | msg];
    cbn [fst snd countdowns file activity];
    (split; [reflexivity |]); (split; [reflexivity |]);
    (split; [reflexivity |]); split.
  - intros message H. discriminate H.
  - intros _. split; reflexivity.
  - intros message H. injection H as <-. split; reflexivity.
  - intros H. discriminate H.
Qed.

Lemma saveCountdowns_outcome_witness :
  file (state_after (saveCountdowns full_disk_env tidy_state)) = Content []
  /\ countdowns (state_after (saveCountdowns full_disk_env tidy_state))
     = sample_store.
Proof.
  pose proof (saveCountdowns_outcome full_disk_env tidy_state) as H.
  cbv zeta in H. destruct H as (_ & Hc & _ & H & _).
  split; [| exact Hc].
  rewrite (proj1 (H (lit "ENOSPC: no space left on device") eq_refl)).
  reflexivity.
Defined.

(** ** The handlers keep the status text and the file in step *)
Ltac run_bot :=
  repeat (progress
    (unfold bind, try_catch, build_embed, add_field, channel_send,
       send_detached, Date_now, call, lift, get_countdowns, set_countdowns,
       updateBotStatus, react, console_error, console_log, reply, emit, ret,
       throw;
     cbn [fst snd countdowns step file activity app])).


Section Outcomes.

Variables (env : Env) (s : State) (m : Message).

Lemma commit_run (cds' : list Countdown) (s0 : State) :
  exists ok saved s',
    (set_countdowns cds' ;; saveCountdowns ;; updateBotStatus) env s0
    = (Ok tt, s',
       [WriteFile (JSON.stringify2 (encode_store cds')) ok; saved;
        SetActivity (status_text (List.length cds'))])
    /\ is_save_or_status saved = false
    /\ countdowns s' = cds'
    /\ step s' = S (step s0)
    /\ activity s' = Some (status_text (List.length cds'))
    /\ (if ok : bool
        then file s' = Content (JSON.stringify2 (encode_store cds'))
        else file s'
             = failed_write env (step s0) (file s0)
                 (JSON.stringify2 (encode_store cds')))
    /\ (reliable_disk env -> ok = true).
Proof.
  unfold bind, set_countdowns, updateBotStatus.
  rewrite saveCountdowns_run. cbv zeta.
  cbn [fst snd countdowns step file activity app].
  destruct (write_file env (step s0) _) as [[] | msg] eqn:Hw;
    cbn [fst snd countdowns step file activity app].
  - exists true. eexists _, _. split; [reflexivity |]. repeat split.
  - exists false. eexists _, _. split; [reflexivity |]. repeat split.
    intros Hdisk. rewrite Hdisk in Hw. discriminate.
Qed.


(** The create branch ends in one of three ways: nothing is sent and
    the state is as before; the send throws; or the send goes through and
    a record is appended and saved. *)
Lemma create_outcomes :
  let x := create_countdown m env s in
  create_kept s x \/ create_send_failed s m x \/ create_stored env s m x.
Proof.
  cbv zeta. unfold create_countdown.
  destruct (exec countdown_re (content m)) as [caps |].
  2:{ left. unfold create_kept, same_store. split; [repeat split |].
      left. reflexivity. }
  match goal with
  | |- context [JSDate.construct ?u ?y ?mo ?d ?h ?mi ?se] =>
      destruct (JSDate.construct u y mo d h mi se) as [target |]
  end.
  2:{ left. unfold create_kept, same_store. split; [repeat split |].
      right. left. reflexivity. }
  set (eventName := match capture 1 caps with Some n => n | None => [] end).
  run_bot.
  destruct (embed_ok env _) eqn:Hembed; run_bot.
  2:{ left. unfold create_kept, same_store, state_after, events_of.
      cbn [fst snd countdowns step file activity].
      split; [repeat split |]. right. right. reflexivity. }
  destruct (send_message env (S (S (step s))) (channel_id m) _) as [id | err]
    eqn:Hsend; run_bot.
  - right. right. rewrite saveCountdowns_run. cbv zeta. run_bot.
    unfold value_of, state_after, events_of.
    destruct (write_file env _ _) as [[] | wmsg] eqn:Hw; run_bot;
      destruct (react_message env _ _) as [[] | rmsg]; run_bot;
      eexists _, id, (mkCountdown eventName target (channel_id m) id
                        (author_id m) _), _, _, _;
      (split; [reflexivity |]);
      (split; [first [left; eexists; reflexivity
                     | right; eexists _, _; reflexivity] |]);
      (split; [first [left; reflexivity | right; eexists; reflexivity] |]);
      (split; [reflexivity |]); (split; [reflexivity |]);
      (split; [reflexivity |]); (split; [reflexivity |]);
      (split; [reflexivity |]); (split; [reflexivity |]);
      (split; [reflexivity |]);
      (split; [first [reflexivity | eexists; reflexivity] |]);
      intros Hdisk; try reflexivity; rewrite Hdisk in Hw; discriminate.
  - right. left. unfold create_send_failed, value_of, state_after, events_of, same_store.
    cbn [fst snd countdowns step file activity].
    eexists _, err. repeat split.
Qed.

End Outcomes.

Section Settled.

Variables (env : Env).

Lemma kept_is_settled (s : State) (x : result unit * State * list Event) :
  same_store s (state_after x) -> quiet (events_of x) -> settled env s x.
Proof. intros H1 H2. left. split; assumption. Qed.

Lemma create_settled (s : State) (m : Message) :
  settled env s (create_countdown m env s).
Proof.
  destruct (create_outcomes env s m) as [H | [H | H]].
  - destruct H as (Hs & [He | [He | He]]);
      (apply kept_is_settled; [exact Hs | rewrite He; repeat constructor]).
  - destruct H as (e & err & Hs & _ & He).
    apply kept_is_settled; [exact Hs | rewrite He; repeat constructor].
  - destruct H as (e & id & cd & ok & saved & tail & Hev & _ & _
                   & _ & Hc & _ & _ & _ & _ & Ha & Hf & Hdisk).
    right. unfold committed, in_step, synced. rewrite Hc, Ha, Hev.
    split; [reflexivity |]. split.
    + exists ok. split; [right; left; reflexivity |].
      intros ->. exact Hf.
    + intros Hd. rewrite (Hdisk Hd) in Hf. exact Hf.
Qed.

Lemma delete_settled (s : State) (m : Message) (args : list jsstring) :
  settled env s (delete_countdown m args env s).
Proof.
  unfold delete_countdown.
  destruct args as [| arg0 rest];
    [apply kept_is_settled; [repeat split | repeat constructor] |].
  destruct (truthy arg0); cbn [negb];
    [| apply kept_is_settled; [repeat split | repeat constructor]].
  unfold bind at 1, get_countdowns at 1. cbn [fst snd app].
  destruct (option_map _ (parseInt10 arg0)) as [idx |];
    [| apply kept_is_settled; [repeat split | repeat constructor]].
  destruct ((idx <? 0) || (idx >=? Z.of_nat (List.length (countdowns s))));
    [apply kept_is_settled; [repeat split | repeat constructor] |].
  destruct (nth_error (countdowns s) (Z.to_nat idx)) as [cd |];
    [| apply kept_is_settled; [repeat split | repeat constructor]].
  destruct (negb (jseqb (createdBy cd) (author_id m))
            && negb (can_manage_messages m));
    [apply kept_is_settled; [repeat split | repeat constructor] |].
  right. run_bot. rewrite saveCountdowns_run. cbv zeta. run_bot.
  unfold committed, in_step, synced, state_after, events_of.
  destruct (write_file env _ _) as [[] | wmsg] eqn:Hw; run_bot;
    (split; [reflexivity |]); split.
  - exists true. split; [left; reflexivity | reflexivity].
  - intros _. reflexivity.
  - exists false. split; [left; reflexivity | discriminate].
  - intros Hd. rewrite Hd in Hw. discriminate.
Qed.

Lemma list_fields_run (cds : list Countdown) :
  forall (i : nat) (e : Embed) (s : State),
    same_store s (state_after (list_fields cds i e env s))
    /\ events_of (list_fields cds i e env s) = [].
Proof.
  induction cds as [| cd rest IH]; intros i e s.
  - split; [repeat split | reflexivity].
  - cbn [list_fields]. run_bot.
    destruct (embed_ok env _); run_bot.
    + match goal with
      | |- context [list_fields rest ?j ?e' env ?s1] =>
          destruct (IH j e' s1) as (Hs & Hev);
          destruct (list_fields rest j e' env s1) as [[r s2] ev2]
      end.
      unfold state_after, events_of in *. cbn [fst snd] in *.
      subst ev2. split; [| reflexivity].
      destruct Hs as (? & ? & ?). repeat split; assumption.
    + split; [repeat split | reflexivity].
Qed.

Lemma list_settled (s : State) (m : Message) :
  same_store s (state_after (list_countdowns m env s))
  /\ quiet (events_of (list_countdowns m env s)).
Proof.
  unfold list_countdowns. run_bot.
  destruct (Nat.eqb (List.length (countdowns s)) 0);
    [split; [repeat split | repeat constructor] |].
  run_bot.
  destruct (embed_ok env _); run_bot;
    [| split; [repeat split | repeat constructor]].
  match goal with
  | |- context [list_fields ?c ?j ?e' env ?s1] =>
      destruct (list_fields_run c j e' s1) as (Hs & Hev);
      destruct (list_fields c j e' env s1) as [[r s2] ev2]
  end.
  unfold state_after, events_of in *. cbn [fst snd] in *. subst ev2.
  destruct Hs as (Hc & Hf & Ha). cbn [countdowns file activity] in *.
  destruct r as [e2 | msg]; run_bot.
  - destruct (send_message env _ _ _); run_bot;
      (split; [repeat split; assumption | repeat constructor]).
  - split; [repeat split; assumption | repeat constructor].
Qed.

Lemma help_settled (s : State) (m : Message) :
  same_store s (state_after (help m env s))
  /\ quiet (events_of (help m env s)).
Proof.
  unfold help. run_bot.
  destruct (embed_ok env _); run_bot;
    [| split; [repeat split | repeat constructor]].
  destruct (send_message env _ _ _); run_bot;
    (split; [repeat split | repeat constructor]).
Qed.

Lemma messageCreate_settled (s : State) (m : Message) :
  settled env s (messageCreate m env s).
Proof.
  unfold messageCreate.
  destruct (author_bot m);
    [apply kept_is_settled; [repeat split | constructor] |].
  destruct (negb (startsWith (content m) prefix));
    [apply kept_is_settled; [repeat split | constructor] |].
  cbv zeta.
  destruct (jseqb _ (lit "countdown")); [apply create_settled |].
  destruct (jseqb _ (lit "countdowns"));
    [apply kept_is_settled; apply list_settled |].
  destruct (jseqb _ (lit "delcountdown")); [apply delete_settled |].
  destruct (jseqb _ (lit "help"));
    [apply kept_is_settled; apply help_settled |].
  apply kept_is_settled; [repeat split | constructor].
Qed.

Lemma settled_in_step (s : State) (x : result unit * State * list Event) :
  settled env s x -> in_step s -> in_step (state_after x).
Proof.
  intros [((Hc & _ & Ha) & _) | (H & _)] Hs; [| exact H].
  unfold in_step in *. rewrite Ha, Hc. exact Hs.
Qed.

Lemma settled_synced (s : State) (x : result unit * State * list Event) :
  settled env s x -> reliable_disk env -> synced s -> synced (state_after x).
Proof.
  intros [((Hc & Hf & _) & _) | (_ & _ & H)] Hd Hs; [| exact (H Hd)].
  unfold synced in *. rewrite Hf, Hc. exact Hs.
Qed.

(** Runs that keep the house in order, one after the other. *)

Lemma tidy_refl (s : State) : tidy env s s.
Proof. split; auto. Qed.

Lemma tidy_trans (s1 s2 s3 : State) :
  tidy env s1 s2 -> tidy env s2 s3 -> tidy env s1 s3.
Proof. intros [H1 H2] [H3 H4]. split; auto. Qed.

Lemma same_store_tidy (s s' : State) : same_store s s' -> tidy env s s'.
Proof.
  intros (Hc & Hf & Ha). unfold tidy, in_step, synced.
  rewrite Hc, Hf, Ha. split; auto.
Qed.

Lemma settled_tidy (s : State) (x : result unit * State * list Event) :
  settled env s x -> tidy env s (state_after x).
Proof.
  intros H. split.
  - apply settled_in_step. exact H.
  - apply settled_synced. exact H.
Qed.

Lemma state_after_bind {A B} (m : M A) (k : A -> M B) (s : State) :
  state_after ((x <- m ;; k x) env s)
  = match value_of (m env s) with
    | Ok a => state_after (k a env (state_after (m env s)))
    | Throw _ => state_after (m env s)
    end.
Proof.
  unfold bind, state_after, value_of.
  destruct (m env s) as [[[a | message] s1] ev1]; cbn [fst snd];
    [| reflexivity].
  destruct (k a env s1) as [[r s2] ev2]. reflexivity.
Qed.

Lemma handle_all_tidy (arriving : list Message) :
  forall s, tidy env s (state_after (handle_all arriving env s)).
Proof.
  induction arriving as [| m rest IH]; intros s; [apply tidy_refl |].
  cbn [handle_all]. rewrite state_after_bind.
  pose proof (settled_tidy s _ (messageCreate_settled s m)) as H.
  destruct (value_of (messageCreate m env s)); [| exact H].
  eapply tidy_trans; [exact H | apply IH].
Qed.

Lemma refresh_rest_tidy (cds acc : list Countdown) (s : State) :
  tidy env s (state_after (refresh_rest cds acc env s)).
Proof.
  apply same_store_tidy.
  exact (proj1 (proj2 (refresh_rest_run env cds acc s))).
Qed.

Lemma refresh_each_tidy (arriving : list (list Message)) :
  forall (i : nat) (acc : list Countdown) (s : State),
    tidy env s (state_after (refresh_each arriving i acc env s)).
Proof.
  induction arriving as [| during later IH]; intros i acc s;
    cbn [refresh_each]; rewrite bind_get.
  - apply refresh_rest_tidy.
  - destruct (nth_error (countdowns s) i) as [cd |]; [| apply tidy_refl].
    rewrite state_after_bind.
    destruct (update_one env cd s) as (Hv & Hs & _). rewrite Hv.
    eapply tidy_trans; [apply same_store_tidy; exact Hs |].
    rewrite state_after_bind.
    pose proof (handle_all_tidy during
                  (state_after (updateCountdownMessage cd env s))) as H.
    destruct (value_of (handle_all during env _)); [| exact H].
    eapply tidy_trans; [exact H | apply IH].
Qed.

Lemma refresh_tidy (arriving : list (list Message)) (s : State) :
  tidy env s (state_after (updateAllCountdowns arriving env s)).
Proof.
  unfold updateAllCountdowns. rewrite state_after_bind.
  pose proof (refresh_each_tidy arriving 0 [] s) as H.
  destruct (value_of (refresh_each arriving 0 [] env s)) as [acc |];
    [| exact H].
  eapply tidy_trans; [exact H |].
  rewrite bind_get.
  destruct (negb (Nat.eqb (List.length acc) _)); [| apply tidy_refl].
  destruct (commit_run env acc (state_after (refresh_each arriving 0 [] env s)))
    as (ok & saved & s' & -> & _ & Hc & _ & Ha & Hf & Hd).
  unfold state_after at 2. cbn [fst snd].
  unfold tidy, in_step, synced. rewrite Hc, Ha. split; [reflexivity |].
  intros Hdisk _. rewrite (Hd Hdisk) in Hf. exact Hf.
Qed.

End Settled.

Section HandlerProperties.

Variables (env : Env) (s : State) (m : Message).
Variable arriving : list (list Message).

(** X6. When the status text tells the size of the array before a
    message is handled or a refresh cycle runs, it does so afterwards,
    whatever the message, whatever the outside answers and whatever
    messages are handled while the cycle awaits. *)
Theorem status_text_follows_the_store :
  in_step s ->
  in_step (state_after (messageCreate m env s))
  /\ in_step (state_after (updateAllCountdowns arriving env s)).
Proof.
  intros Hs. split.
  - exact (settled_in_step env s _ (messageCreate_settled env s m) Hs).
  - exact (proj1 (refresh_tidy env arriving s) Hs).
Qed.

Lemma synced_loads_back (s' : State) :
  synced s' ->
  decode_store (fst (loadCountdowns (file s') (JArr [])))
  = Some (countdowns s').
Proof.
  unfold synced. intros ->.
  unfold loadCountdowns, load_try, JSON_parse.
  cbn [file_exists readFileSync].
  rewrite JSONFacts.parse_stringify_store.
  unfold length_text, encode_store. cbn [fst].
  apply decode_encode_store.
Qed.

(** X7. On a disk whose writes all go through, a file that holds the
    text of the array before a message is handled or a refresh cycle runs
    holds it afterwards, whatever messages are handled while the cycle
    awaits, and loading that file gives the array back. *)
Theorem file_follows_the_store :
  reliable_disk env -> synced s ->
  let s1 := state_after (messageCreate m env s) in
  let s2 := state_after (updateAllCountdowns arriving env s) in
  synced s1 /\ synced s2
  /\ decode_store (fst (loadCountdowns (file s1) (JArr [])))
     = Some (countdowns s1)
  /\ decode_store (fst (loadCountdowns (file s2) (JArr [])))
     = Some (countdowns s2).
Proof.
  intros Hd Hs. cbv zeta.
  assert (H1 : synced (state_after (messageCreate m env s)))
    by exact (settled_synced env s _ (messageCreate_settled env s m) Hd Hs).
  assert (H2 : synced (state_after (updateAllCountdowns arriving env s)))
    by exact (proj2 (refresh_tidy env arriving s) Hd Hs).
  repeat split; try assumption; apply synced_loads_back; assumption.
Qed.

(** X8. A message of a bot, a message without the prefix, and a
    command other than the create and the delete command change neither
    the array, the file nor the status text, and make no save. *)
Theorem other_messages_change_nothing :
  let command := toLowerCase (hd [] (arguments_of (content m))) in
  author_bot m = true
  \/ startsWith (content m) prefix = false
  \/ (command <> lit "countdown" /\ command <> lit "delcountdown") ->
  let x := messageCreate m env s in
  same_store s (state_after x) /\ quiet (events_of x).
Proof.
  cbv zeta. intros H. unfold messageCreate.
  destruct (author_bot m); [split; [repeat split | constructor] |].
  destruct (startsWith (content m) prefix); cbn [negb];
    [| split; [repeat split | constructor]].
  destruct H as [H | [H | [Hc Hd]]]; try discriminate.
  apply jseqb_neq in Hc, Hd. rewrite Hc, Hd.
  destruct (jseqb _ (lit "countdowns")); [apply list_settled |].
  destruct (jseqb _ (lit "help")); [apply help_settled |].
  split; [repeat split | constructor].
Qed.

Hypothesis Hhuman : author_bot m = false.
Hypothesis Hprefix : startsWith (content m) prefix = true.

Lemma dispatch_create :
  toLowerCase (hd [] (arguments_of (content m))) = lit "countdown" ->
  messageCreate m env s = create_countdown m env s.
Proof.
  intros Hc. unfold messageCreate. rewrite Hhuman, Hprefix. cbn [negb].
  cbv zeta. rewrite Hc. reflexivity.
Qed.

Hypothesis Hcommand :
  toLowerCase (hd [] (arguments_of (content m))) = lit "countdown".

(** X10. The create command of a human author. When a tracking message
    was sent, exactly one record was appended: it carries the id of that
    message, the channel and the author of the command and the name shown
    in the title, and a write of the new array was asked for; the file
    holds the new array when that write went through, as it does on a
    disk whose writes all go through, and what the failed write left of
    it when it did not. When no tracking message was sent, nothing
    changed. When the reaction failed, the record is stored all the same
    and the author is told of an error. *)
Theorem create_stores_what_it_sent :
  let x := messageCreate m env s in
  (forall e id,
     In (Send (channel_id m) e (Ok id)) (events_of x) ->
     exists cd,
       countdowns (state_after x) = countdowns s ++ [cd]
       /\ messageId cd = id
       /\ channelId cd = channel_id m
       /\ createdBy cd = author_id m
       /\ title e = icon ++ name cd
       /\ exists ok,
            In (WriteFile
                  (JSON.stringify2 (encode_store (countdowns s ++ [cd]))) ok)
               (events_of x)
            /\ (ok = true ->
                file (state_after x)
                = Content
                    (JSON.stringify2 (encode_store (countdowns s ++ [cd]))))
            /\ (ok = false ->
                exists k,
                  file (state_after x)
                  = failed_write env k (file s)
                      (JSON.stringify2 (encode_store (countdowns s ++ [cd]))))
            /\ (reliable_disk env -> ok = true))
  /\ ((forall e id, ~ In (Send (channel_id m) e (Ok id)) (events_of x)) ->
      same_store s (state_after x) /\ quiet (events_of x))
  /\ (In (React check_mark false) (events_of x) ->
      exists cd err,
        countdowns (state_after x) = countdowns s ++ [cd]
        /\ In (Reply (create_error_text err)) (events_of x)).
Proof.
  cbv zeta. rewrite (dispatch_create Hcommand).
  destruct (create_outcomes env s m) as [H | [H | H]].
  - destruct H as (Hs & He).
    assert (Hnone : forall ev, In ev (events_of (create_countdown m env s)) ->
                               exists t, ev = Reply t).
    { intros ev Hin.
      destruct He as [He | [He | He]]; rewrite He in Hin;
        cbn [In] in Hin; repeat (destruct Hin as [Hin | Hin]);
        try contradiction; subst ev; eexists; reflexivity. }
    split; [| split].
    + intros e id Hin. apply Hnone in Hin as (t & Ht). discriminate.
    + intros _. split; [exact Hs |].
      destruct He as [He | [He | He]]; rewrite He; repeat constructor.
    + intros Hin. apply Hnone in Hin as (t & Ht). discriminate.
  - destruct H as (e0 & err & Hs & _ & He). rewrite He.
    split; [| split].
    + intros e id Hin. cbn [In] in Hin.
      destruct Hin as [H | [H | [H | []]]]; discriminate.
    + intros _. split; [exact Hs | repeat constructor].
    + intros Hin. cbn [In] in Hin.
      destruct Hin as [H | [H | [H | []]]]; discriminate.
  - destruct H as (e0 & id0 & cd & ok & saved & tail & Hev & Hsaved & Htail
                   & _ & Hc & Hid & Hch & Hby & Htitle & _ & Hfile & Hdisk).
    rewrite Hev. split; [| split].
    + intros e id Hin.
      assert (E : e = e0 /\ id = id0).
      { cbn [In] in Hin.
        destruct Hin as [H | [H | [H | [H | H]]]]; try discriminate.
        - injection H as <- <-. split; reflexivity.
        - destruct Hsaved as [(t & ->) | (l & msg & ->)]; discriminate.
        - destruct Htail as [-> | (err & ->)]; cbn [In] in H;
            repeat (destruct H as [H | H]; try discriminate); contradiction. }
      destruct E as [-> ->]. exists cd.
      repeat (split; [assumption |]). exists ok.
      split; [right; left; reflexivity |].
      split; [intros ->; exact Hfile |].
      split; [intros ->; exact Hfile | exact Hdisk].
    + intros Hno. exfalso. apply (Hno e0 id0). left. reflexivity.
    + intros Hin. exists cd.
      destruct Htail as [-> | (err & ->)].
      * cbn [In] in Hin.
        repeat (destruct Hin as [Hin | Hin];
                try discriminate Hin); try contradiction.
        destruct Hsaved as [(t & ->) | (l & msg & ->)]; discriminate.
      * exists err. split; [exact Hc |].
        do 6 right. left. reflexivity.
Qed.

(** X11. When the send of the tracking message throws, the create
    command completes, changes neither the array, the file nor the status
    text, makes no save and replies with the message of the error. *)
Theorem create_send_failure_changes_nothing (e : Embed) (err : jsstring) :
  let x := messageCreate m env s in
  In (Send (channel_id m) e (Throw err)) (events_of x) ->
  value_of x = Ok tt
  /\ same_store s (state_after x)
  /\ quiet (events_of x)
  /\ In (Reply (create_error_text err)) (events_of x).
Proof.
  cbv zeta. rewrite (dispatch_create Hcommand).
  destruct (create_outcomes env s m) as [H | [H | H]].
  - destruct H as (_ & He). intros Hin. exfalso.
    destruct He as [He | [He | He]]; rewrite He in Hin;
      cbn [In] in Hin; repeat (destruct Hin as [Hin | Hin]);
      try contradiction; discriminate.
  - destruct H as (e0 & err0 & Hs & Hv & He). rewrite He. intros Hin.
    assert (err = err0).
    { cbn [In] in Hin. destruct Hin as [H | [H | [H | []]]];
        try discriminate. injection H as _ <-. reflexivity. }
    subst err0. split; [exact Hv |]. split; [exact Hs |].
    split; [repeat constructor |]. right. right. left. reflexivity.
  - destruct H as (e0 & id0 & cd & ok & saved & tail & Hev & Hsaved & Htail
                   & _).
    rewrite Hev. intros Hin. exfalso. cbn [In] in Hin.
    destruct Hin as [H | [H | [H | [H | H]]]]; try discriminate.
    + destruct Hsaved as [(t & ->) | (l & msg & ->)]; discriminate.
    + destruct Htail as [-> | (err1 & ->)]; cbn [In] in H;
        repeat (destruct H as [H | H]; try discriminate); contradiction.
Qed.

End HandlerProperties.

Lemma status_text_follows_the_store_witness :
  in_step
    (state_after (updateAllCountdowns [[]; [delete_first]] sample_env
                    tidy_state)).
Proof.
  exact (proj2 (status_text_follows_the_store sample_env tidy_state
                  delete_first [[]; [delete_first]] eq_refl)).
Defined.

Lemma file_follows_the_store_witness :
  synced
    (state_after (updateAllCountdowns [[]; [delete_first]] sample_env
                    tidy_state)).
Proof.
  exact (proj1 (proj2 (file_follows_the_store sample_env tidy_state
                         delete_first [[]; [delete_first]]
                         (fun _ _ => eq_refl) eq_refl))).
Defined.

Lemma other_messages_change_nothing_witness :
  same_store sample_state
    (state_after
       (messageCreate (command_message false "U1" (lit "!help") false)
          sample_env sample_state)).
Proof.
  pose proof (other_messages_change_nothing sample_env sample_state
                (command_message false "U1" (lit "!help") false)) as H.
  cbv zeta in H. refine (proj1 (H _)). right. right.
  split; vm_compute; discriminate.
Defined.

Lemma create_stores_what_it_sent_witness :
  exists cd err,
    countdowns
      (state_after
         (messageCreate (command_message false "U1" launch_command false)
            mute_env sample_state))
    = countdowns sample_state ++ [cd]
    /\ In (Reply (create_error_text err))
          (events_of
             (messageCreate (command_message false "U1" launch_command false)
                mute_env sample_state)).
Proof.
  pose proof (create_stores_what_it_sent mute_env sample_state
                (command_message false "U1" launch_command false)
                eq_refl eq_refl eq_refl) as H.
  cbv zeta in H. destruct H as (_ & _ & H). refine (H _).
  vm_compute. do 4 right. left. reflexivity.
Defined.

Lemma create_send_failure_changes_nothing_witness :
  same_store sample_state
    (state_after
       (messageCreate (command_message false "U1" launch_command false)
          deaf_env sample_state)).
Proof.
  epose proof (create_send_failure_changes_nothing deaf_env sample_state
                 (command_message false "U1" launch_command false)
                 eq_refl eq_refl eq_refl _ (lit "Missing Access")) as H.
  cbv zeta in H. refine (proj1 (proj2 (H _))).
  vm_compute. left. reflexivity.
Defined.


(** ** The list command *)


Section Listing.

Variable env : Env.
Hypothesis Hvalid : forall e, embed_ok env e = true.

Lemma list_fields_numbered (cds : list Countdown) :
  forall (i : nat) (e : Embed) (s : State),
  exists e' s' added,
    list_fields cds i e env s = (Ok e', s', [])
    /\ same_store s s'
    /\ title e' = title e
    /\ fields e' = fields e ++ added
    /\ List.length added = List.length cds
    /\ (forall k cd,
          nth_error cds k = Some cd ->
          exists body,
            nth_error added k
            = Some (count_text (i + k + 1) ++ lit ". " ++ name cd, body)).
Proof.
  induction cds as [| cd rest IH]; intros i e s.
  - exists e, s, []. split; [reflexivity |]. split; [repeat split |].
    split; [reflexivity |].
    split; [rewrite app_nil_r; reflexivity |]. split; [reflexivity |].
    intros k cd Hk. destruct k; discriminate.
  - cbn [list_fields]. run_bot. rewrite Hvalid. run_bot.
    match goal with
    | |- context [list_fields rest ?j ?e1 env ?s1] =>
        destruct (IH j e1 s1)
          as (e' & s' & added & Hrun & Hs & Ht & Hf & Hlen & Hnth)
    end.
    rewrite Hrun. cbn [fst snd app fields title] in *.
    rewrite <- app_assoc in Hf. cbn [app] in Hf.
    eexists e', s', (_ :: added). split; [reflexivity |].
    split; [destruct Hs as (? & ? & ?); repeat split; assumption |].
    split; [exact Ht |].
    split; [exact Hf |]. split; [cbn; lia |].
    intros k cd' Hk. destruct k as [| k].
    + cbn in Hk. injection Hk as <-. eexists. cbn [nth_error].
      rewrite Nat.add_0_r. reflexivity.
    + cbn [nth_error] in Hk |- *. destruct (Hnth k cd' Hk) as (body & Hb).
      exists body. rewrite Hb.
      replace (S i + k + 1)%nat with (i + S k + 1)%nat by lia. reflexivity.
Qed.

(** X9. The list command of a human author, when every embed is
    accepted: on an empty array it replies that there is no countdown and
    does nothing else; otherwise it sends one embed and nothing else, with
    one field per record in the order of the array, the field of the
    record at position k being headed by k + 1 and the name. *)
Theorem list_numbers_from_one (s : State) (m : Message) :
  author_bot m = false ->
  startsWith (content m) prefix = true ->
  toLowerCase (hd [] (arguments_of (content m))) = lit "countdowns" ->
  let x := messageCreate m env s in
  (countdowns s = [] ->
   x = (Ok tt, s, [Reply no_countdowns_text]))
  /\ (countdowns s <> [] ->
      exists e answer,
        events_of x = [Send (channel_id m) e answer]
        /\ title e = lit "Active Countdowns"
        /\ List.length (fields e) = List.length (countdowns s)
        /\ forall k cd,
             nth_error (countdowns s) k = Some cd ->
             exists body,
               nth_error (fields e) k
               = Some (count_text (k + 1) ++ lit ". " ++ name cd, body)).
Proof.
  intros Hhuman Hprefix Hcommand. cbv zeta.
  unfold messageCreate. rewrite Hhuman, Hprefix. cbn [negb]. cbv zeta.
  rewrite Hcommand.
  change (jseqb (lit "countdowns") (lit "countdown")) with false.
  change (jseqb (lit "countdowns") (lit "countdowns")) with true.
  cbv iota. unfold list_countdowns. run_bot.
  split.
  - intros ->. reflexivity.
  - intros Hne.
    destruct (countdowns s) as [| cd0 rest] eqn:Ecds; [congruence |].
    cbn [List.length Nat.eqb]. run_bot. rewrite Hvalid. run_bot.
    match goal with
    | |- context [list_fields ?c ?j ?e1 env ?s1] =>
        destruct (list_fields_numbered c j e1 s1)
          as (e' & s' & added & Hrun & _ & Htitle & Hf & Hlen & Hnth)
    end.
    rewrite Hrun. run_bot. cbn [fields title app] in Hf, Htitle.
    destruct (send_message env _ _ _) eqn:Hsend; run_bot;
      unfold events_of; cbn [snd];
      eexists e', _; (split; [reflexivity |]); (split; [exact Htitle |]);
      rewrite Hf; (split; [exact Hlen |]); exact Hnth.
Qed.

End Listing.

Lemma list_numbers_from_one_witness :
  exists e answer,
    events_of
      (messageCreate (command_message false "U1" (lit "!countdowns") false)
         sample_env sample_state)
    = [Send (lit "C") e answer]
    /\ List.length (fields e) = 3%nat.
Proof.
  pose proof (list_numbers_from_one sample_env (fun _ => eq_refl) sample_state
                (command_message false "U1" (lit "!countdowns") false)
                eq_refl eq_refl eq_refl) as H.
  cbv zeta in H. destruct H as (_ & H).
  destruct (H ltac:(discriminate)) as (e & answer & Hev & _ & Hlen & _).
  exists e, answer. split; [exact Hev | exact Hlen].
Defined.


(** ** The expression of the create command *)

Lemma rmatch_sound (r : re) :
  forall s c k res,
    rmatch r s c k = Some res ->
    exists s1 c1, matches r s c s1 c1 /\ k s1 c1 = Some res.
Proof.
  induction r as [| p | a IHa b IHb | a IHa | a IHa | i a IHa |];
    intros s c k res H; cbn [rmatch] in H.
  - exists s, c. split; [constructor | exact H].
  - destruct s as [| x s]; [discriminate |].
    destruct (p x) eqn:Hp; [| discriminate].
    exists s, c. split; [constructor; exact Hp | exact H].
  - apply IHa in H as (s1 & c1 & Ha & H).
    apply IHb in H as (s2 & c2 & Hb & H).
    exists s2, c2. split; [econstructor; eassumption | exact H].
  - destruct (rmatch a s c k) as [r0 |] eqn:E.
    + injection H as <-. apply IHa in E as (s1 & c1 & Ha & E).
      exists s1, c1. split; [constructor; exact Ha | exact E].
    + exists s, c. split; [apply matches_opt_none | exact H].
  - revert H. generalize (List.length s). intros n. revert s c.
    induction n as [| n IHn]; intros s c H.
    + exists s, c. split; [apply matches_star_stop | exact H].
    + match type of H with
      | match ?scrut with _ => _ end = _ => destruct scrut as [r0 |] eqn:E
      end.
      * injection H as <-. apply IHa in E as (s1 & c1 & Ha & E).
        apply IHn in E as (s2 & c2 & Hs & E).
        exists s2, c2. split; [econstructor; eassumption | exact E].
      * exists s, c. split; [apply matches_star_stop | exact H].
  - apply IHa in H as (s1 & c1 & Ha & H).
    exists s1, ((i, firstn (List.length s - List.length s1) s) :: c1).
    split; [constructor; exact Ha | exact H].
  - destruct s; [| discriminate].
    exists [], c. split; [constructor | exact H].
Qed.

Lemma exec_sound (r : re) (s : jsstring) (caps : captures) :
  exec r s = Some caps -> exists s1, matches r s [] s1 caps.
Proof.
  unfold exec. intros H. apply rmatch_sound in H as (s1 & c1 & Hm & H).
  injection H as <-. exists s1. exact Hm.
Qed.

(** Inversion, one constructor of [re] at a time. *)

Lemma matches_chr_inv p s c s1 c1 :
  matches (Chr p) s c s1 c1 -> exists x, s = x :: s1 /\ p x = true /\ c1 = c.
Proof. inversion 1; subst. eauto. Qed.

Lemma matches_seq_inv a b s c s2 c2 :
  matches (Seq a b) s c s2 c2 ->
  exists s1 c1, matches a s c s1 c1 /\ matches b s1 c1 s2 c2.
Proof. inversion 1; subst. eauto. Qed.

Lemma matches_opt_inv a s c s1 c1 :
  matches (Opt a) s c s1 c1 ->
  matches a s c s1 c1 \/ (s1 = s /\ c1 = c).
Proof. inversion 1; subst; auto. Qed.

Lemma matches_eos_inv s c s1 c1 :
  matches Eos s c s1 c1 -> s = [] /\ s1 = [] /\ c1 = c.
Proof. inversion 1; subst; auto. Qed.

Lemma matches_eps_inv s c s1 c1 :
  matches Eps s c s1 c1 -> s1 = s /\ c1 = c.
Proof. inversion 1; subst; auto. Qed.

Lemma matches_prefix r s c s1 c1 :
  matches r s c s1 c1 -> exists w, s = w ++ s1.
Proof.
  induction 1.
  - exists []. reflexivity.
  - exists [x]. reflexivity.
  - destruct IHmatches1 as (w1 & ->), IHmatches2 as (w2 & ->).
    exists (w1 ++ w2). rewrite <- app_assoc. reflexivity.
  - exact IHmatches.
  - exists []. reflexivity.
  - exists []. reflexivity.
  - destruct IHmatches1 as (w1 & ->), IHmatches2 as (w2 & ->).
    exists (w1 ++ w2). rewrite <- app_assoc. reflexivity.
  - exact IHmatches.
  - exists []. reflexivity.
Qed.

Lemma firstn_prefix {A} (w r : list A) :
  firstn (List.length (w ++ r) - List.length r) (w ++ r) = w.
Proof.
  rewrite length_app, Nat.add_sub.
  rewrite firstn_app, Nat.sub_diag, firstn_all. cbn. apply app_nil_r.
Qed.

Lemma matches_group_inv i a s c s1 c1 :
  matches (Group i a) s c s1 c1 ->
  exists w c0, s = w ++ s1 /\ matches a (w ++ s1) c s1 c0
               /\ c1 = (i, w) :: c0.
Proof.
  inversion 1; subst.
  destruct (matches_prefix _ _ _ _ _ H6) as (w & ->).
  exists w, c2. rewrite firstn_prefix. auto.
Qed.

Lemma matches_star_chr_inv p s c s1 c1 :
  matches (Star (Chr p)) s c s1 c1 ->
  exists w, s = w ++ s1 /\ forallb p w = true /\ c1 = c.
Proof.
  intros H. remember (Star (Chr p)) as r eqn:Er.
  induction H; try discriminate.
  - exists []. auto.
  - injection Er as ->.
    apply matches_chr_inv in H as (x & -> & Hp & ->).
    destruct (IHmatches2 eq_refl) as (w & -> & Hw & ->).
    exists (x :: w). cbn. rewrite Hp, Hw. auto.
Qed.

Lemma matches_plus_chr_inv p s c s1 c1 :
  matches (plus (Chr p)) s c s1 c1 ->
  exists w, s = w ++ s1 /\ w <> [] /\ forallb p w = true /\ c1 = c.
Proof.
  unfold plus. intros H.
  apply matches_seq_inv in H as (s0 & c0 & Hc & Hs).
  apply matches_chr_inv in Hc as (x & -> & Hp & ->).
  apply matches_star_chr_inv in Hs as (w & -> & Hw & ->).
  exists (x :: w). cbn. rewrite Hp, Hw. repeat split; discriminate.
Qed.

Lemma matches_literal_inv (w : jsstring) s c s1 c1 :
  w <> [] ->
  matches (seqs (map chr w)) s c s1 c1 -> s = w ++ s1 /\ c1 = c.
Proof.
  revert s c. induction w as [| x w IH]; intros s c Hne H; [congruence |].
  destruct w as [| y w].
  - cbn in H. apply matches_chr_inv in H as (z & -> & Hz & ->).
    unfold chr in Hz. apply N.eqb_eq in Hz. subst z. auto.
  - change (seqs (map chr (x :: y :: w)))
      with (Seq (chr x) (seqs (map chr (y :: w)))) in H.
    apply matches_seq_inv in H as (s0 & c0 & Hc & Hr).
    apply matches_chr_inv in Hc as (z & -> & Hz & ->).
    apply N.eqb_eq in Hz. subst z.
    apply IH in Hr as (-> & ->); [auto | discriminate].
Qed.

Ltac invert_re :=
  repeat match goal with
  | H : matches (Seq _ _) _ _ _ _ |- _ =>
      apply matches_seq_inv in H as (? & ? & ? & ?)
  | H : matches (plus (Chr _)) _ _ _ _ |- _ =>
      apply matches_plus_chr_inv in H as (? & ? & ? & ? & ?)
  | H : matches (Star (Chr _)) _ _ _ _ |- _ =>
      apply matches_star_chr_inv in H as (? & ? & ? & ?)
  | H : matches (Chr _) _ _ _ _ |- _ =>
      apply matches_chr_inv in H as (? & ? & ? & ?)
  | H : matches (chr _) _ _ _ _ |- _ =>
      apply matches_chr_inv in H as (? & ? & ? & ?)
  | H : matches dgt _ _ _ _ |- _ =>
      apply matches_chr_inv in H as (? & ? & ? & ?)
  | H : matches ws _ _ _ _ |- _ =>
      apply matches_chr_inv in H as (? & ? & ? & ?)
  | H : matches (in_range _ _) _ _ _ _ |- _ =>
      apply matches_chr_inv in H as (? & ? & ? & ?)
  | H : matches Eos _ _ _ _ |- _ =>
      apply matches_eos_inv in H as (? & ? & ?)
  end.

Lemma matches_date_inv s c s1 c1 :
  matches (seqs [dgt; dgt; dgt; dgt; chr 45; dgt; dgt; chr 45; dgt; dgt])
    s c s1 c1 ->
  exists date, s = date ++ s1 /\ is_date_text date = true /\ c1 = c.
Proof.
  cbn [seqs]. intros H. invert_re. subst.
  repeat match goal with
         | H : N.eqb _ _ = true |- _ => apply N.eqb_eq in H; subst
         end.
  eexists [_; _; _; _; _; _; _; _; _; _]. split; [reflexivity |].
  split; [| reflexivity].
  cbn [is_date_text forallb].
  repeat match goal with H : is_digit _ = true |- _ => rewrite H; clear H end.
  reflexivity.
Qed.

Lemma matches_time_inv s c s1 c1 :
  matches (seqs [ Opt (in_range 48 50); dgt; chr 58; in_range 48 53; dgt;
                  Opt (seqs [chr 58; in_range 48 53; dgt]) ]) s c s1 c1 ->
  exists time, s = time ++ s1 /\ is_time_text time = true /\ c1 = c.
Proof.
  cbn [seqs]. intros H.
  apply matches_seq_inv in H as (sa & ca & Hh & H).
  apply matches_seq_inv in H as (sb & cb & Hd & H).
  apply matches_seq_inv in H as (sc & cc & Hc & H).
  apply matches_seq_inv in H as (sd & cd & Hm1 & H).
  apply matches_seq_inv in H as (se & ce & Hm2 & Hs).
  apply matches_chr_inv in Hd as (h & -> & Hdh & ->).
  apply matches_chr_inv in Hc as (x & -> & Hx & ->).
  apply N.eqb_eq in Hx. subst x.
  apply matches_chr_inv in Hm1 as (a & -> & Ha & ->).
  apply matches_chr_inv in Hm2 as (b & -> & Hb & ->).
  change (between 48 53 a = true) in Ha.
  assert (Htail : exists tl, se = tl ++ s1 /\ c1 = ca
            /\ is_clock_tail (58%N :: a :: b :: tl) = true).
  { apply matches_opt_inv in Hs as [Hs | [-> ->]].
    - invert_re. subst.
      match goal with H : N.eqb _ _ = true |- _ =>
        apply N.eqb_eq in H; subst end.
      eexists [_; _; _]. split; [reflexivity |]. split; [reflexivity |].
      unfold is_clock_tail. cbn [firstn skipn is_sixtieth].
      unfold between in *.
      repeat match goal with H : _ = true |- _ => rewrite H; clear H end.
      reflexivity.
    - exists []. split; [reflexivity |]. split; [reflexivity |].
      unfold is_clock_tail. cbn [firstn skipn is_sixtieth].
      rewrite Ha, Hb. reflexivity. }
  destruct Htail as (tl & -> & -> & Htl).
  apply matches_opt_inv in Hh as [Hh | [E1 E2]].
  - apply matches_chr_inv in Hh as (h0 & -> & Hh0 & ->).
    change (between 48 50 h0 = true) in Hh0.
    exists (h0 :: h :: 58%N :: a :: b :: tl). split; [reflexivity |].
    split; [| reflexivity].
    assert (Hd0 : is_digit h0 = true).
    { unfold between in Hh0. unfold is_digit.
      apply andb_true_iff in Hh0 as [H1 H2].
      apply N.leb_le in H1, H2. apply andb_true_iff.
      split; apply N.leb_le; lia. }
    cbn [is_time_text]. rewrite Hd0, Hh0, Hdh, Htl.
    rewrite orb_true_r. reflexivity.
  - subst s ca. exists (h :: 58%N :: a :: b :: tl). split; [reflexivity |].
    split; [| reflexivity].
    cbn [is_time_text]. rewrite Hdh, Htl. reflexivity.
Qed.

Lemma countdown_re_shape (content : jsstring) (caps : captures) :
  exec countdown_re content = Some caps ->
  exists name date time,
    create_shape content name date time
    /\ caps = match time with
              | Some t => [(3%nat, t); (2%nat, date); (1%nat, name)]
              | None => [(2%nat, date); (1%nat, name)]
              end.
Proof.
  intros H. apply exec_sound in H as (s1 & H).
  unfold countdown_re in H. cbn [seqs] in H.
  apply matches_seq_inv in H as (s2 & c2 & Hlit & H).
  apply matches_literal_inv in Hlit as (-> & ->); [| discriminate].
  apply matches_seq_inv in H as (s3 & c3 & Hw1 & H).
  apply matches_plus_chr_inv in Hw1 as (w1 & -> & Hn1 & Hw1 & ->).
  apply matches_seq_inv in H as (s4 & c4 & Hq1 & H).
  apply matches_chr_inv in Hq1 as (q1 & -> & Hq1 & ->).
  apply N.eqb_eq in Hq1. subst q1.
  apply matches_seq_inv in H as (s5 & c5 & Hname & H).
  apply matches_group_inv in Hname as (name & c0 & -> & Hname & ->).
  apply matches_plus_chr_inv in Hname as (name' & E & Hnn & Hname & ->).
  apply app_inv_tail in E. subst name'.
  apply matches_seq_inv in H as (s6 & c6 & Hq2 & H).
  apply matches_chr_inv in Hq2 as (q2 & -> & Hq2 & ->).
  apply N.eqb_eq in Hq2. subst q2.
  apply matches_seq_inv in H as (s7 & c7 & Hw2 & H).
  apply matches_plus_chr_inv in Hw2 as (w2 & -> & Hn2 & Hw2 & ->).
  apply matches_seq_inv in H as (s8 & c8 & Hdate & H).
  apply matches_group_inv in Hdate as (date & c0 & -> & Hdate & ->).
  apply matches_date_inv in Hdate as (date' & E & Hdate & ->).
  apply app_inv_tail in E. subst date'.
  apply matches_seq_inv in H as (s9 & c9 & Htime & H).
  apply matches_seq_inv in H as (s10 & c10 & Hw4 & Hend).
  apply matches_star_chr_inv in Hw4 as (w4 & -> & Hw4 & ->).
  apply matches_eos_inv in Hend as (-> & -> & ->).
  rewrite app_nil_r in *.
  apply matches_opt_inv in Htime as [Htime | [-> ->]].
  - cbn [seqs] in Htime.
    apply matches_seq_inv in Htime as (s11 & c11 & Hw3 & Htime).
    apply matches_plus_chr_inv in Hw3 as (w3 & -> & Hn3 & Hw3 & ->).
    apply matches_group_inv in Htime as (time & c0 & -> & Htime & ->).
    apply matches_time_inv in Htime as (time' & E & Htime & ->).
    apply app_inv_tail in E. subst time'.
    exists name, date, (Some time). split; [| reflexivity].
    exists w1, w2, (w3 ++ time ++ w4).
    split; [reflexivity |]. repeat (split; [assumption |]).
    exists w3, w4. auto.
  - exists name, date, None. split; [| reflexivity].
    exists w1, w2, s8.
    split; [reflexivity |]. repeat (split; [assumption |]). assumption.
Qed.

(** The matcher on the shapes of the create command, forwards. *)

Lemma rmatch_star_greedy p (w r : jsstring) c k res :
  forallb p w = true ->
  (forall x r', r = x :: r' -> p x = false) ->
  k r c = Some res ->
  rmatch (Star (Chr p)) (w ++ r) c k = Some res.
Proof.
  intros Hw Hr Hk. cbn [rmatch].
  assert (Hn : (List.length w <= List.length (w ++ r))%nat)
    by (rewrite length_app; lia).
  revert Hn. generalize (List.length (w ++ r)). intros n. revert n.
  induction w as [| x w IH]; intros n Hn.
  - cbn [app]. destruct n as [| n].
    + exact Hk.
    + destruct r as [| y r'].
      * exact Hk.
      * rewrite (Hr y r' eq_refl). exact Hk.
  - cbn in Hw. apply andb_true_iff in Hw as [Hx Hw].
    destruct n as [| n]; [cbn in Hn; lia |].
    cbn [app]. rewrite Hx. rewrite (IH Hw n); [reflexivity |].
    cbn in Hn. lia.
Qed.

Lemma rmatch_star_fails p (w r : jsstring) c k :
  forallb p w = true ->
  (forall x r', r = x :: r' -> p x = false) ->
  (forall u v, w = u ++ v -> k (v ++ r) c = None) ->
  rmatch (Star (Chr p)) (w ++ r) c k = None.
Proof.
  intros Hw Hr Hk. cbn [rmatch].
  generalize (List.length (w ++ r)). intros n. revert n.
  induction w as [| x w IH]; intros n.
  - cbn [app]. pose proof (Hk [] [] eq_refl) as H0. cbn [app] in H0.
    destruct n as [| n].
    + exact H0.
    + destruct r as [| y r'].
      * exact H0.
      * rewrite (Hr y r' eq_refl). exact H0.
  - cbn in Hw. apply andb_true_iff in Hw as [Hx Hw].
    pose proof (Hk [] (x :: w) eq_refl) as H0.
    destruct n as [| n]; [exact H0 |].
    cbn [app]. rewrite Hx. rewrite (IH Hw); [exact H0 |].
    intros u v E. apply (Hk (x :: u) v). rewrite E. reflexivity.
Qed.

Lemma rmatch_plus_greedy p (w r : jsstring) c k res :
  w <> [] -> forallb p w = true ->
  (forall x r', r = x :: r' -> p x = false) ->
  k r c = Some res ->
  rmatch (plus (Chr p)) (w ++ r) c k = Some res.
Proof.
  intros Hne Hw Hr Hk. destruct w as [| x w]; [congruence |].
  cbn in Hw. apply andb_true_iff in Hw as [Hx Hw].
  unfold plus. cbn [rmatch app]. rewrite Hx.
  exact (rmatch_star_greedy p w r c k res Hw Hr Hk).
Qed.

Lemma rmatch_plus_fails p (w r : jsstring) c k :
  forallb p w = true ->
  (forall x r', r = x :: r' -> p x = false) ->
  (forall u v, w = u ++ v -> k (v ++ r) c = None) ->
  rmatch (plus (Chr p)) (w ++ r) c k = None.
Proof.
  intros Hw Hr Hk. unfold plus.
  destruct w as [| x w].
  - cbn [rmatch app]. destruct r as [| y r']; [reflexivity |].
    rewrite (Hr y r' eq_refl). reflexivity.
  - cbn in Hw. apply andb_true_iff in Hw as [Hx Hw].
    cbn [rmatch app]. rewrite Hx.
    apply (rmatch_star_fails p w r c k Hw Hr).
    intros u v E. apply (Hk (x :: u) v). rewrite E. reflexivity.
Qed.

Lemma rmatch_literal (w s : jsstring) c k :
  w <> [] -> rmatch (seqs (map chr w)) (w ++ s) c k = k s c.
Proof.
  revert c. induction w as [| x w IH]; intros c Hne; [congruence |].
  destruct w as [| y w].
  - cbn. rewrite N.eqb_refl. reflexivity.
  - change (seqs (map chr (x :: y :: w)))
      with (Seq (chr x) (seqs (map chr (y :: w)))).
    cbn [rmatch chr app]. rewrite N.eqb_refl.
    apply (IH c). discriminate.
Qed.

Lemma rmatch_seq a b s c k :
  rmatch (Seq a b) s c k = rmatch a s c (fun s' c' => rmatch b s' c' k).
Proof. reflexivity. Qed.

Lemma rmatch_chr p x s c k :
  p x = true -> rmatch (Chr p) (x :: s) c k = k s c.
Proof. intros H. cbn [rmatch]. rewrite H. reflexivity. Qed.

Lemma rmatch_group i a s c k :
  rmatch (Group i a) s c k
  = rmatch a s c
      (fun s' c' =>
         k s' ((i, firstn (List.length s - List.length s') s) :: c')).
Proof. reflexivity. Qed.

Lemma rmatch_date (date r : jsstring) c k :
  is_date_text date = true ->
  rmatch (seqs [dgt; dgt; dgt; dgt; chr 45; dgt; dgt; chr 45; dgt; dgt])
    (date ++ r) c k = k r c.
Proof.
  intros H.
  destruct date as [| y1 [| y2 [| y3 [| y4 [| h1 [| m1 [| m2 [| h2
    [| d1 [| d2 [| z l]]]]]]]]]]]; try discriminate H.
  cbn [is_date_text forallb] in H.
  repeat match goal with
         | E : (_ && _)%bool = true |- _ => apply andb_true_iff in E as [? ?]
         end.
  repeat match goal with
         | E : N.eqb _ _ = true |- _ => apply N.eqb_eq in E; subst
         end.
  cbn [seqs app]. unfold dgt, chr.
  repeat (rewrite rmatch_seq;
          rewrite rmatch_chr by (assumption || apply N.eqb_refl);
          cbv beta).
  rewrite rmatch_chr by assumption. reflexivity.
Qed.

Lemma clock_tail_inv (s : jsstring) :
  is_clock_tail s = true ->
  exists a b tl,
    s = 58%N :: a :: b :: tl
    /\ between 48 53 a = true /\ is_digit b = true
    /\ (tl = []
        \/ exists c d, tl = [58%N; c; d]
                       /\ between 48 53 c = true /\ is_digit d = true).
Proof.
  unfold is_clock_tail.
  destruct s as [| x [| a [| b tl]]]; cbn [firstn is_sixtieth andb];
    try discriminate.
  cbn [skipn]. intros H.
  apply andb_true_iff in H as [H Htl].
  apply andb_true_iff in H as [H Hb].
  apply andb_true_iff in H as [Hx Ha].
  apply N.eqb_eq in Hx. subst x.
  exists a, b, tl. repeat (split; [assumption || reflexivity |]).
  destruct tl as [| y [| c [| d [| z l]]]]; cbn [is_sixtieth] in Htl;
    try discriminate; [left; reflexivity |].
  apply andb_true_iff in Htl as [H Hd].
  apply andb_true_iff in H as [Hy Hc].
  apply N.eqb_eq in Hy. subst y.
  right. exists c, d. auto.
Qed.

Lemma space_not_colon (x : N) : is_space x = true -> (58 =? x)%N = false.
Proof.
  intros H. destruct (N.eqb_spec 58 x) as [<- |]; [| reflexivity].
  discriminate H.
Qed.

Lemma rmatch_clock_tail (s r : jsstring) c k res :
  is_clock_tail s = true ->
  (forall x r', r = x :: r' -> is_space x = true) ->
  k r c = Some res ->
  rmatch (seqs [ chr 58; in_range 48 53; dgt;
                 Opt (seqs [chr 58; in_range 48 53; dgt]) ])
    (s ++ r) c k = Some res.
Proof.
  intros Hs Hr Hk.
  apply clock_tail_inv in Hs as (a & b & tl & -> & Ha & Hb & Htl).
  cbn [seqs app]. unfold dgt, chr, in_range.
  rewrite rmatch_seq, rmatch_chr by apply N.eqb_refl. cbv beta.
  rewrite rmatch_seq, rmatch_chr by exact Ha. cbv beta.
  rewrite rmatch_seq, rmatch_chr by exact Hb. cbv beta.
  destruct Htl as [-> | (x & d & -> & Hx & Hd)].
  - cbn [app]. cbn [rmatch]. destruct r as [| y r'].
    + exact Hk.
    + rewrite (space_not_colon y (Hr y r' eq_refl)). exact Hk.
  - cbn [app].
    change (rmatch (Opt ?a) ?s ?c ?k)
      with (match rmatch a s c k with Some res => Some res | None => k s c end).
    rewrite rmatch_seq, rmatch_chr by apply N.eqb_refl. cbv beta.
    rewrite rmatch_seq, rmatch_chr by exact Hx. cbv beta.
    rewrite rmatch_chr by exact Hd.
    rewrite Hk. reflexivity.
Qed.

Lemma rmatch_time (t r : jsstring) c k res :
  is_time_text t = true ->
  (forall x r', r = x :: r' -> is_space x = true) ->
  k r c = Some res ->
  rmatch time_re (t ++ r) c k = Some res.
Proof.
  intros Ht Hr Hk. unfold time_re.
  destruct t as [| h rest]; [discriminate |].
  cbn [is_time_text] in Ht. apply andb_true_iff in Ht as [Hh Ht].
  assert (Htail := rmatch_clock_tail).
  cbn [seqs] in Htail |- *.
  rewrite rmatch_seq.
  change (rmatch (Opt ?a) ?s ?c ?k)
    with (match rmatch a s c k with Some res => Some res | None => k s c end).
  destruct (is_clock_tail rest) eqn:Hrest.
  - (* an hour of one digit *)
    assert (Hone :
      rmatch (Seq dgt (Seq (chr 58) (Seq (in_range 48 53)
                (Seq dgt (Opt (Seq (chr 58) (Seq (in_range 48 53) dgt)))))))
        ((h :: rest) ++ r) c k = Some res).
    { cbn [app]. unfold dgt at 1. rewrite rmatch_seq, rmatch_chr by exact Hh.
      cbv beta. apply Htail; assumption. }
    assert (Htwo :
      rmatch (in_range 48 50) ((h :: rest) ++ r) c
        (fun s' c' =>
           rmatch (Seq dgt (Seq (chr 58) (Seq (in_range 48 53)
                     (Seq dgt (Opt (Seq (chr 58)
                        (Seq (in_range 48 53) dgt))))))) s' c' k) = None).
    { apply clock_tail_inv in Hrest as (a & b & tl & -> & _).
      cbn [app]. unfold in_range at 1. cbn [rmatch].
      destruct ((48 <=? h)%N && (h <=? 50)%N); reflexivity. }
    rewrite Htwo. exact Hone.
  - (* an hour of two digits *)
    cbn [orb] in Ht. destruct rest as [| h' rest']; [discriminate |].
    apply andb_true_iff in Ht as [Ht Hrest'].
    apply andb_true_iff in Ht as [Hb Hh'].
    cbn [app]. unfold in_range at 1. rewrite rmatch_chr by exact Hb.
    cbv beta. unfold dgt at 1. rewrite rmatch_seq, rmatch_chr by exact Hh'.
    cbv beta.
    rewrite (Htail rest' r c k res Hrest' Hr Hk). reflexivity.
Qed.

Lemma rmatch_time_fails (s : jsstring) c k :
  (forall x r', s = x :: r' -> is_digit x = false) ->
  rmatch time_re s c k = None.
Proof.
  intros Hs. unfold time_re. cbn [seqs]. rewrite rmatch_seq.
  unfold in_range at 1, dgt at 1. cbn [rmatch].
  destruct s as [| x r]; [reflexivity |].
  rewrite (Hs x r eq_refl).
  destruct ((48 <=? x)%N && (x <=? 50)%N) eqn:E; [| reflexivity].
  destruct r as [| y r']; [reflexivity |].
  destruct (is_digit y); [| reflexivity].
  exfalso. specialize (Hs x (y :: r') eq_refl). unfold is_digit in Hs.
  apply andb_true_iff in E as [H1 H2]. apply N.leb_le in H1, H2.
  apply andb_false_iff in Hs as [H | H]; apply N.leb_gt in H; lia.
Qed.

Lemma spaces_head (w r : jsstring) :
  spaces w = true -> forall x r', w ++ [] = x :: r' -> is_space x = true.
Proof.
  intros Hw x r' E. rewrite app_nil_r in E. subst w.
  cbn in Hw. apply andb_true_iff in Hw as [Hx _]. exact Hx.
Qed.

Lemma spaces_suffix (u v : jsstring) :
  spaces (u ++ v) = true -> spaces v = true.
Proof.
  unfold spaces. rewrite forallb_app. intros H.
  apply andb_true_iff in H as [_ H]. exact H.
Qed.

Lemma time_text_head (t r : jsstring) :
  is_time_text t = true ->
  forall x r', t ++ r = x :: r' -> is_space x = false.
Proof.
  destruct t as [| h t]; [discriminate |].
  cbn [is_time_text]. intros H x r' E. injection E as <- _.
  apply andb_true_iff in H as [H _]. apply digit_not_space. exact H.
Qed.

Lemma date_text_head (d r : jsstring) :
  is_date_text d = true ->
  forall x r', d ++ r = x :: r' -> is_space x = false.
Proof.
  destruct d as [| y1 [| y2 [| y3 [| y4 [| h1 [| m1 [| m2 [| h2
    [| d1 [| d2 [| z l]]]]]]]]]]]; try discriminate.
  cbn [is_date_text forallb]. intros H x r' E. injection E as <- _.
  apply andb_true_iff in H as [H _]. apply andb_true_iff in H as [H _].
  apply andb_true_iff in H as [H _]. apply digit_not_space. exact H.
Qed.

Lemma countdown_re_complete (content name date : jsstring)
    (time : option jsstring) :
  create_shape content name date time ->
  exec countdown_re content
  = Some match time with
         | Some t => [(3%nat, t); (2%nat, date); (1%nat, name)]
         | None => [(2%nat, date); (1%nat, name)]
         end.
Proof.
  intros (w1 & w2 & rest & -> & Hn1 & Hw1 & Hnn & Hname & Hn2 & Hw2
          & Hdate & Htime).
  unfold exec, countdown_re. cbn [seqs].
  rewrite rmatch_seq. unfold literal.
  rewrite rmatch_literal by discriminate. cbv beta.
  rewrite rmatch_seq.
  apply rmatch_plus_greedy; [exact Hn1 | exact Hw1 | |].
  { intros x r' E. injection E as <- _. reflexivity. }
  cbv beta. change (quote_mark ++ ?r) with (34%N :: r).
  rewrite rmatch_seq. unfold chr at 1.
  rewrite rmatch_chr by reflexivity. cbv beta.
  rewrite rmatch_seq, rmatch_group.
  apply rmatch_plus_greedy; [exact Hnn | exact Hname | |].
  { intros x r' E. injection E as <- _. reflexivity. }
  cbv beta. rewrite firstn_prefix.
  change (quote_mark ++ ?r) with (34%N :: r).
  rewrite rmatch_seq. unfold chr at 1.
  rewrite rmatch_chr by reflexivity. cbv beta.
  rewrite rmatch_seq.
  apply rmatch_plus_greedy; [exact Hn2 | exact Hw2 | |].
  { apply date_text_head. exact Hdate. }
  cbv beta. rewrite rmatch_seq, rmatch_group.
  rewrite rmatch_date by exact Hdate.
  cbv beta. rewrite firstn_prefix.
  rewrite rmatch_seq.
  change (rmatch (Opt ?a) ?s ?c ?k)
    with (match rmatch a s c k with Some res => Some res | None => k s c end).
  destruct time as [t |].
  - destruct Htime as (w3 & w4 & -> & Hn3 & Hw3 & Ht & Hw4).
    rewrite rmatch_seq.
    rewrite (rmatch_plus_greedy is_space w3 (t ++ w4) _ _
               [(3%nat, t); (2%nat, date); (1%nat, name)]);
      [reflexivity | exact Hn3 | exact Hw3 | |].
    { apply time_text_head. exact Ht. }
    cbv beta. rewrite rmatch_group.
    rewrite <- (app_nil_r w4).
    apply (rmatch_time t (w4 ++ [])); [exact Ht | |].
    { apply spaces_head; [exact [] | exact Hw4]. }
    cbv beta. rewrite app_nil_r, firstn_prefix. rewrite <- (app_nil_r w4).
    apply rmatch_star_greedy; [exact Hw4 | discriminate | reflexivity].
  - rewrite rmatch_seq. rewrite <- (app_nil_r rest).
    rewrite (rmatch_plus_fails is_space rest []).
    + apply rmatch_star_greedy; [exact Htime | discriminate | reflexivity].
    + exact Htime.
    + discriminate.
    + intros u v E. rewrite rmatch_group.
      apply rmatch_time_fails.
      intros x r' Ex. rewrite app_nil_r in Ex. subst rest v.
      apply spaces_suffix in Htime. cbn in Htime.
      apply andb_true_iff in Htime as [Hx _].
      destruct (is_digit x) eqn:Hd; [| reflexivity].
      apply digit_not_space in Hd. congruence.
Qed.

(** X12. The expression of the create command matches a content exactly
    when the content is the command word, white space, a name of one or
    more code units other than the double quote between double quotes,
    white space, a date of the form dddd-dd-dd, optionally white space and
    a time of the form h:mm, hh:mm, h:mm:ss or hh:mm:ss whose hour starts
    with 0, 1 or 2 when it has two digits and whose minutes and seconds
    start with 0 to 5, and then white space to the end; the captures are
    the name, the date and the time. *)
Theorem create_pattern_matches_exactly (content : jsstring) (caps : captures) :
  exec countdown_re content = Some caps
  <-> exists name date time,
        create_shape content name date time
        /\ caps = create_captures name date time.
Proof.
  split.
  - apply countdown_re_shape.
  - intros (name & date & time & Hs & ->).
    apply countdown_re_complete. exact Hs.
Qed.

Lemma launch_shape :
  create_shape launch_command (lit "Launch") (lit "2030-06-15")
    (Some (lit "09:30")).
Proof.
  exists [32%N], [32%N], (lit " 09:30").
  split; [reflexivity |]. split; [discriminate |]. split; [reflexivity |].
  split; [discriminate |]. split; [reflexivity |].
  split; [discriminate |]. split; [reflexivity |]. split; [reflexivity |].
  exists [32%N], []. split; [reflexivity |]. split; [discriminate |].
  repeat split.
Qed.

Lemma tab_shape :
  create_shape tab_command (lit "Launch") (lit "2030-06-15")
    (Some (lit "09:30")).
Proof.
  exists [9%N], [32%N], (lit " 09:30").
  split; [reflexivity |]. split; [discriminate |]. split; [reflexivity |].
  split; [discriminate |]. split; [reflexivity |].
  split; [discriminate |]. split; [reflexivity |]. split; [reflexivity |].
  exists [32%N], []. split; [reflexivity |]. split; [discriminate |].
  repeat split.
Qed.

Lemma create_pattern_matches_exactly_witness :
  exec countdown_re launch_command
  = Some [(3%nat, lit "09:30"); (2%nat, lit "2030-06-15");
          (1%nat, lit "Launch")].
Proof.
  apply (proj2 (create_pattern_matches_exactly launch_command _)).
  exists (lit "Launch"), (lit "2030-06-15"), (Some (lit "09:30")).
  split; [exact launch_shape | reflexivity].
Defined.

(** ** The create command on a well-formed content *)

Lemma digit_value (c : N) :
  is_digit c = true -> 0 <= Z.of_N c - 48 <= 9.
Proof.
  unfold is_digit. rewrite andb_true_iff, !N.leb_le. lia.
Qed.

Lemma digit_not (c x : N) :
  is_digit c = true -> (x < 48)%N \/ (57 < x)%N -> (c =? x)%N = false.
Proof.
  unfold is_digit. rewrite andb_true_iff, !N.leb_le. intros H Hx.
  apply N.eqb_neq. lia.
Qed.


Lemma split_on_digits (sep : N) (ds r cur : jsstring) :
  forallb is_digit ds = true -> (sep < 48)%N \/ (57 < sep)%N ->
  split_on_aux sep (ds ++ r) cur = split_on_aux sep r (rev ds ++ cur).
Proof.
  intros Hds Hsep. revert cur.
  induction ds as [| d ds IH]; intros cur; [reflexivity |].
  cbn in Hds. apply andb_true_iff in Hds as [Hd Hds].
  cbn [app split_on_aux rev]. rewrite (digit_not d sep Hd Hsep).
  rewrite (IH Hds). rewrite <- app_assoc. reflexivity.
Qed.

Lemma split_on_sep (sep : N) (r cur : jsstring) :
  split_on_aux sep (sep :: r) cur = rev cur :: split_on_aux sep r [].
Proof. cbn [split_on_aux]. rewrite N.eqb_refl. reflexivity. Qed.

Lemma Number_digits (ds : jsstring) :
  forallb is_digit ds = true -> Number ds = Some (digits_value 0 ds).
Proof. intros H. unfold Number. rewrite H. reflexivity. Qed.

Lemma date_fields (date : jsstring) :
  is_date_text date = true ->
  map Number (split_on 45 date)
  = [Some (date_year date); Some (date_month date); Some (date_day date)]
  /\ 0 <= date_year date <= 9999
  /\ 0 <= date_month date <= 99
  /\ 0 <= date_day date <= 99.
Proof.
  intros H.
  destruct date as [| y1 [| y2 [| y3 [| y4 [| h1 [| m1 [| m2 [| h2
    [| d1 [| d2 [| z l]]]]]]]]]]]; try discriminate H.
  cbn [is_date_text forallb] in H.
  apply andb_true_iff in H as [H Hh2]. apply andb_true_iff in H as [H Hh1].
  apply N.eqb_eq in Hh1, Hh2. subst h1 h2.
  apply andb_true_iff in H as [Hy1 H]. apply andb_true_iff in H as [Hy2 H].
  apply andb_true_iff in H as [Hy3 H]. apply andb_true_iff in H as [Hy4 H].
  apply andb_true_iff in H as [Hm1 H]. apply andb_true_iff in H as [Hm2 H].
  apply andb_true_iff in H as [Hd1 H]. apply andb_true_iff in H as [Hd2 _].
  assert (Hy : forallb is_digit [y1; y2; y3; y4] = true)
    by (cbn; rewrite Hy1, Hy2, Hy3, Hy4; reflexivity).
  assert (Hm : forallb is_digit [m1; m2] = true)
    by (cbn; rewrite Hm1, Hm2; reflexivity).
  assert (Hd : forallb is_digit [d1; d2] = true)
    by (cbn; rewrite Hd1, Hd2; reflexivity).
  split.
  - unfold split_on.
    change [y1; y2; y3; y4; 45%N; m1; m2; 45%N; d1; d2]
      with ([y1; y2; y3; y4] ++ 45%N :: [m1; m2] ++ 45%N :: [d1; d2] ++ [])
      at 1.
    rewrite (split_on_digits 45 _ _ _ Hy), split_on_sep by (left; reflexivity).
    rewrite (split_on_digits 45 _ _ _ Hm), split_on_sep by (left; reflexivity).
    rewrite (split_on_digits 45 _ _ _ Hd) by (left; reflexivity).
    cbn [split_on_aux rev app map].
    rewrite (Number_digits _ Hy), (Number_digits _ Hm), (Number_digits _ Hd).
    reflexivity.
  - unfold date_year, date_month, date_day.
    cbn [firstn skipn digits_value].
    pose proof (digit_value _ Hy1). pose proof (digit_value _ Hy2).
    pose proof (digit_value _ Hy3). pose proof (digit_value _ Hy4).
    pose proof (digit_value _ Hm1). pose proof (digit_value _ Hm2).
    pose proof (digit_value _ Hd1). pose proof (digit_value _ Hd2).
    lia.
Qed.

Lemma between_digit (lo hi c : N) :
  (48 <= lo)%N -> (hi <= 57)%N -> between lo hi c = true ->
  is_digit c = true.
Proof.
  unfold between, is_digit. rewrite !andb_true_iff, !N.leb_le. lia.
Qed.

Lemma between_value (lo hi c : N) :
  between lo hi c = true -> (lo <= c <= hi)%N.
Proof.
  unfold between. rewrite !andb_true_iff, !N.leb_le. lia.
Qed.

(** A time text is an hour of one or two digits and a clock tail. *)
Lemma time_text_inv (t : jsstring) :
  is_time_text t = true ->
  exists h r,
    t = h ++ r /\ forallb is_digit h = true /\ is_clock_tail r = true
    /\ 0 <= digits_value 0 h <= 29 /\ h <> [].
Proof.
  destruct t as [| h rest]; [discriminate |].
  cbn [is_time_text]. intros H. apply andb_true_iff in H as [Hh H].
  pose proof (digit_value _ Hh) as Vh.
  destruct (is_clock_tail rest) eqn:Hrest.
  - exists [h], rest. cbn [forallb digits_value app]. rewrite Hh.
    repeat split; try reflexivity; try assumption; try lia. discriminate.
  - cbn [orb] in H. destruct rest as [| h' rest']; [discriminate |].
    apply andb_true_iff in H as [H Hrest'].
    apply andb_true_iff in H as [Hb Hh'].
    pose proof (digit_value _ Hh') as Vh'.
    apply between_value in Hb.
    exists [h; h'], rest'. cbn [forallb digits_value app]. rewrite Hh, Hh'.
    repeat split; try reflexivity; try assumption; try lia. discriminate.
Qed.

Lemma take_while_prefix (p : N -> bool) (h : jsstring) (x : N) (r : jsstring) :
  forallb p h = true -> p x = false -> take_while p (h ++ x :: r) = h.
Proof.
  intros Hh Hx. induction h as [| c h IH]; cbn [app take_while].
  - rewrite Hx. reflexivity.
  - cbn in Hh. apply andb_true_iff in Hh as [Hc Hh].
    rewrite Hc, (IH Hh). reflexivity.
Qed.

Lemma skipn_prefix {A} (h : list A) (x : A) (r : list A) :
  skipn (List.length h + 1) (h ++ x :: r) = r.
Proof.
  induction h as [| c h IH]; [reflexivity | exact IH].
Qed.

Lemma time_fields (t : jsstring) :
  is_time_text t = true ->
  let hms := map Number (split_on 58 (or_else t (lit "00:00:00"))) in
  exists hh mi se,
    clock_fields (Some t) = (hh, mi, se)
    /\ or_zero (element hms 0) = Some hh
    /\ or_zero (element hms 1) = Some mi
    /\ or_zero (element hms 2) = Some se
    /\ 0 <= hh <= 29 /\ 0 <= mi <= 59 /\ 0 <= se <= 59.
Proof.
  intros Ht. cbv zeta.
  assert (Hor : or_else t (lit "00:00:00") = t).
  { destruct t; [discriminate | reflexivity]. }
  rewrite Hor. clear Hor.
  apply time_text_inv in Ht as (h & r & -> & Hh & Hr & Vh & Hne).
  apply clock_tail_inv in Hr as (a & b & tl & -> & Ha & Hb & Htl).
  pose proof (between_digit 48 53 a ltac:(lia) ltac:(lia) Ha) as Da.
  pose proof (between_value _ _ _ Ha) as Va.
  pose proof (digit_value _ Hb) as Vb.
  assert (Hab : forallb is_digit [a; b] = true)
    by (cbn; rewrite Da, Hb; reflexivity).
  unfold clock_fields.
  rewrite (take_while_prefix is_digit h 58 _ Hh eq_refl), skipn_prefix.
  unfold split_on.
  rewrite (split_on_digits 58 h _ [] Hh), split_on_sep by (right; reflexivity).
  rewrite app_nil_r, rev_involutive.
  destruct Htl as [-> | (c & d & -> & Hc & Hd)].
  - exists (digits_value 0 h), (digits_value 0 [a; b]), 0.
    change (split_on_aux 58 [a; b] [])
      with (split_on_aux 58 ([a; b] ++ []) []).
    rewrite (split_on_digits 58 _ _ [] Hab) by (right; reflexivity).
    cbn [split_on_aux rev app map element nth_error or_zero firstn skipn].
    rewrite (Number_digits _ Hh), (Number_digits _ Hab).
    cbn [digits_value]. repeat split; try reflexivity; lia.
  - pose proof (between_digit 48 53 c ltac:(lia) ltac:(lia) Hc) as Dc.
    pose proof (between_value _ _ _ Hc) as Vc.
    pose proof (digit_value _ Hd) as Vd.
    assert (Hcd : forallb is_digit [c; d] = true)
      by (cbn; rewrite Dc, Hd; reflexivity).
    exists (digits_value 0 h), (digits_value 0 [a; b]), (digits_value 0 [c; d]).
    change (split_on_aux 58 (a :: b :: [58%N; c; d]) [])
      with (split_on_aux 58 ([a; b] ++ 58%N :: [c; d] ++ []) []).
    rewrite (split_on_digits 58 _ _ [] Hab), split_on_sep
      by (right; reflexivity).
    rewrite (split_on_digits 58 _ _ [] Hcd) by (right; reflexivity).
    cbn [split_on_aux rev app map element nth_error or_zero firstn skipn].
    rewrite (Number_digits _ Hh), (Number_digits _ Hab), (Number_digits _ Hcd).
    cbn [digits_value]. repeat split; try reflexivity; lia.
Qed.

Lemma DayFromYear_bound (y : Z) :
  0 <= y <= 11000 -> -720000 <= JSDate.DayFromYear y <= 3300000.
Proof.
  intros H. unfold JSDate.DayFromYear.
  Z.to_euclidean_division_equations. lia.
Qed.

Lemma DayWithinYear_bound (leap : bool) (m : Z) :
  0 <= JSDate.DayWithinYear leap m <= 335.
Proof.
  unfold JSDate.DayWithinYear. destruct leap;
    repeat match goal with
           | |- context [match ?x with _ => _ end] => destruct x
           end; lia.
Qed.

Lemma construct_in_range (utc : Z -> Z) (y mo d h mi se : Z) :
  (forall t, Z.abs (utc t - t) <= JSDate.msPerDay) ->
  0 <= y <= 9999 -> 0 <= mo <= 99 -> 0 <= d <= 99 ->
  0 <= h <= 29 -> 0 <= mi <= 59 -> 0 <= se <= 59 ->
  JSDate.construct utc (Some y) (Some (mo - 1)) (Some d)
    (Some h) (Some mi) (Some se)
  = Some (utc (JSDate.MakeDate
                 (JSDate.MakeDay
                    (if (0 <=? y) && (y <=? 99) then 1900 + y else y)
                    (mo - 1) d)
                 (JSDate.MakeTime h mi se 0))).
Proof.
  intros Hz Hy Hmo Hd Hh Hmi Hse. unfold JSDate.construct. cbv zeta.
  set (yr := if (0 <=? y) && (y <=? 99) then 1900 + y else y).
  assert (Hyr : 0 <= yr <= 9999).
  { subst yr. destruct ((0 <=? y) && (y <=? 99)) eqn:E; [| lia].
    apply andb_true_iff in E as [_ E]. apply Z.leb_le in E. lia. }
  set (t := JSDate.MakeDate _ _).
  assert (Ht : Z.abs t <= 300000000000000).
  { subst t. unfold JSDate.MakeDate, JSDate.MakeDay, JSDate.MakeTime,
      JSDate.msPerDay.
    pose proof (DayWithinYear_bound
                  (JSDate.InLeapYear (yr + (mo - 1) / 12)) ((mo - 1) mod 12)).
    assert (Hq : -1 <= (mo - 1) / 12 <= 8)
      by (Z.to_euclidean_division_equations; lia).
    pose proof (DayFromYear_bound (yr + (mo - 1) / 12)) as Hb.
    destruct (Z.eq_dec (yr + (mo - 1) / 12) (-1)) as [E | E].
    - rewrite E in *. change (JSDate.DayFromYear (-1)) with (-719893) in *.
      lia.
    - lia. }
  unfold JSDate.TimeClip. specialize (Hz t). unfold JSDate.msPerDay in Hz.
  destruct (Z.abs (utc t) <=? 8640000000000000) eqn:E; [reflexivity |].
  apply Z.leb_gt in E. lia.
Qed.

(** The command word of a create command. *)


Lemma drop_while_keep (p : N -> bool) (l : jsstring) (x : N) (r : jsstring) :
  p x = false -> exists l', drop_while p (l ++ x :: r) = l' ++ x :: r.
Proof.
  intros Hx. induction l as [| c l IH]; cbn [app drop_while].
  - rewrite Hx. exists []. reflexivity.
  - destruct (p c); [exact IH | exists (c :: l); reflexivity].
Qed.

Lemma trim_keep (u : jsstring) (x : N) (v : jsstring) :
  drop_while is_space (u ++ x :: v) = u ++ x :: v ->
  is_space x = false ->
  exists v', trim (u ++ x :: v) = u ++ x :: v'.
Proof.
  intros Hu Hx. unfold trim. rewrite Hu.
  rewrite rev_app_distr. cbn [rev]. rewrite <- app_assoc. cbn [app].
  destruct (drop_while_keep is_space (rev v) x (rev u) Hx) as (l' & ->).
  exists (rev l'). rewrite rev_app_distr. cbn [rev].
  rewrite rev_involutive, <- app_assoc. reflexivity.
Qed.

Lemma split_spaces_head (s cur : jsstring) :
  hd [] (split_spaces_aux s cur false) = rev cur ++ take_while not_blank s.
Proof.
  revert cur. induction s as [| c r IH]; intros cur.
  - cbn. rewrite app_nil_r. reflexivity.
  - cbn [split_spaces_aux take_while]. unfold not_blank at 1.
    destruct (c =? 32)%N; cbn [negb hd].
    + rewrite app_nil_r. reflexivity.
    + rewrite IH. cbn [rev]. rewrite <- app_assoc. reflexivity.
Qed.

Lemma command_word (w1 rest : jsstring) :
  exists v,
    hd [] (arguments_of (lit "!countdown" ++ w1 ++ quote_mark ++ rest))
    = lit "countdown" ++ take_while not_blank (w1 ++ 34%N :: v).
Proof.
  unfold arguments_of, slice.
  change (skipn (List.length prefix)
            (lit "!countdown" ++ w1 ++ quote_mark ++ rest))
    with ((lit "countdown" ++ w1) ++ 34%N :: rest).
  destruct (trim_keep (lit "countdown" ++ w1) 34 rest) as (v & ->);
    [reflexivity | reflexivity |].
  exists v. unfold split_spaces. rewrite split_spaces_head.
  rewrite <- app_assoc. reflexivity.
Qed.

Section WellFormedCreate.

Variables (env : Env) (s : State) (m : Message).
Variables (name date : jsstring) (time : option jsstring).

Hypothesis Hhuman : author_bot m = false.
Hypothesis Hshape : create_shape (content m) name date time.

Lemma shape_prefix : startsWith (content m) prefix = true.
Proof.
  destruct Hshape as (w1 & w2 & rest & -> & _). reflexivity.
Qed.

Lemma shape_command :
  nth_error (content m) 10 = Some 32%N ->
  toLowerCase (hd [] (arguments_of (content m))) = lit "countdown".
Proof.
  destruct Hshape as (w1 & w2 & rest & -> & Hn1 & _).
  destruct w1 as [| x w1]; [congruence |].
  intros H. change (Some x = Some 32%N) in H. injection H as ->.
  destruct (command_word (32%N :: w1)
              (name ++ quote_mark ++ w2 ++ date ++ rest)) as (v & ->).
  reflexivity.
Qed.

Lemma shape_other_command :
  nth_error (content m) 10 <> Some 32%N ->
  let command := toLowerCase (hd [] (arguments_of (content m))) in
  command <> lit "countdown" /\ command <> lit "countdowns"
  /\ command <> lit "delcountdown" /\ command <> lit "help".
Proof.
  destruct Hshape as (w1 & w2 & rest & -> & Hn1 & Hw1 & _).
  destruct w1 as [| x w1]; [congruence |].
  intros H. change (Some x <> Some 32%N) in H.
  cbn in Hw1. apply andb_true_iff in Hw1 as [Hx _].
  destruct (command_word (x :: w1)
              (name ++ quote_mark ++ w2 ++ date ++ rest)) as (v & ->).
  assert (Hb : not_blank x = true).
  { unfold not_blank. destruct (N.eqb_spec x 32) as [-> | _];
      [congruence | reflexivity]. }
  cbn [app take_while]. rewrite Hb.
  cbv zeta. unfold toLowerCase.
  change (lit "countdown") with [99; 111; 117; 110; 116; 100; 111; 119; 110]%N.
  cbn [app map].
  repeat split; intros E.
  - apply (f_equal (@List.length N)) in E. cbn in E. lia.
  - apply (f_equal (fun l => nth 9 l 0%N)) in E. cbn [nth] in E.
    change (nth 9 (lit "countdowns") 0%N) with 115%N in E.
    unfold lower_unit in E.
    destruct ((65 <=? x)%N && (x <=? 90)%N); cbv beta iota in E.
    + assert (x = 83%N) by lia. subst x. discriminate Hx.
    + subst x. discriminate Hx.
  - apply (f_equal (fun l => nth 0 l 0%N)) in E. discriminate E.
  - apply (f_equal (fun l => nth 0 l 0%N)) in E. discriminate E.
Qed.

(** X13. A content that the expression of the create command matches,
    but whose command word is followed by white space other than the
    space U+0020, is not taken for a command at all: the handler completes
    without a reply, without an event and without a change of state. *)
Theorem create_after_other_space_is_ignored :
  nth_error (content m) 10 <> Some 32%N ->
  messageCreate m env s = (Ok tt, s, []).
Proof.
  intros H. destruct (shape_other_command H) as (H1 & H2 & H3 & H4).
  cbv zeta in H1, H2, H3, H4.
  apply jseqb_neq in H1, H2, H3, H4.
  unfold messageCreate. rewrite Hhuman, shape_prefix. cbn [negb]. cbv zeta.
  rewrite H1, H2, H3, H4. reflexivity.
Qed.

Lemma shape_target :
  zone_within_a_day env ->
  forall caps, exec countdown_re (content m) = Some caps ->
  capture 1 caps = Some name
  /\ JSDate.construct (utc_of_local env)
       (or_nan (element (map Number (split_on 45
          match capture 2 caps with Some d => d | None => [] end)) 0))
       (option_map (fun mo => mo - 1)
          (or_nan (element (map Number (split_on 45
             match capture 2 caps with Some d => d | None => [] end)) 1)))
       (or_nan (element (map Number (split_on 45
          match capture 2 caps with Some d => d | None => [] end)) 2))
       (or_zero (element (map Number (split_on 58
          match capture 3 caps with
          | Some t => or_else t (lit "00:00:00")
          | None => lit "00:00:00"
          end)) 0))
       (or_zero (element (map Number (split_on 58
          match capture 3 caps with
          | Some t => or_else t (lit "00:00:00")
          | None => lit "00:00:00"
          end)) 1))
       (or_zero (element (map Number (split_on 58
          match capture 3 caps with
          | Some t => or_else t (lit "00:00:00")
          | None => lit "00:00:00"
          end)) 2))
     = Some (create_target (utc_of_local env) date time).
Proof.
  intros Hzone caps Hexec.
  rewrite (countdown_re_complete _ _ _ _ Hshape) in Hexec.
  injection Hexec as <-.
  destruct Hshape as (w1 & w2 & rest & _ & _ & _ & _ & _ & _ & _
                      & Hdate & Htime).
  destruct (date_fields date Hdate) as (Eymd & Hy & Hmo & Hd).
  unfold create_target.
  destruct time as [t |].
  - destruct Htime as (w3 & w4 & _ & _ & _ & Ht & _).
    destruct (time_fields t Ht) as (hh & mi & se & Ec & E0 & E1 & E2
                                    & Hh & Hmi & Hse).
    cbv zeta in E0, E1, E2.
    cbn [capture Nat.eqb]. rewrite Eymd, Ec, E0, E1, E2.
    cbn [element nth_error or_nan option_map].
    split; [reflexivity |].
    apply construct_in_range; assumption.
  - cbn [capture Nat.eqb]. rewrite Eymd.
    cbn [element nth_error or_nan option_map].
    split; [reflexivity |].
    change (map Number (split_on 58 (lit "00:00:00")))
      with [Some 0; Some 0; Some 0].
    cbn [element nth_error or_zero clock_fields].
    apply construct_in_range; try assumption; lia.
Qed.

Lemma error_text_other (err : jsstring) :
  create_error_text err <> usage_text
  /\ create_error_text err <> invalid_date_text.
Proof.
  unfold usage_text, invalid_date_text, create_error_text. cbn.
  split; congruence.
Qed.

Ltac no_other_reply :=
  let text := fresh "text" in
  let Hin := fresh "Hin" in
  intros text Hin; cbn [In] in Hin;
  repeat (destruct Hin as [Hin | Hin]; try discriminate Hin);
  try contradiction; injection Hin as <-; apply error_text_other.

(** X14. A well-formed create command of a human author, with a space
    after the command word, in a time zone within a day of UTC. It is
    never answered with the usage or the invalid date reply: no reply
    among its events is one of these two. When the
    embed is accepted, the first event is the send of an embed whose title
    is the name, whose description is the formatted time to the target and
    whose footer is the target; when the send goes through, the record
    appended to the array has the name, the channel, the author and, as its
    target, the time value of the local date and time that the texts of
    the command spell; when the send throws, nothing is stored and the
    error is reported. When the embed is refused, the handler throws and
    nothing is stored. *)
Theorem wellformed_create_is_read :
  nth_error (content m) 10 = Some 32%N ->
  zone_within_a_day env ->
  let x := messageCreate m env s in
  let target := create_target (utc_of_local env) date time in
  let draft :=
    mkEmbed blue (icon ++ name)
      (remaining_text
         (formatTimeRemaining (getTimeRemaining target (clock env (step s)))))
      (target_text env target) in
  (forall text,
     In (Reply text) (events_of x) ->
     text <> usage_text /\ text <> invalid_date_text)
  /\
  if embed_ok env (draft None [])
  then
    exists answer rest,
      events_of x
      = Send (channel_id m) (draft (Some (clock env (S (step s)))) []) answer
        :: rest
      /\ match answer with
         | Ok id =>
             countdowns (state_after x)
             = countdowns s
               ++ [mkCountdown name target (channel_id m) id (author_id m)
                     (clock env (S (S (S (step s)))))]
         | Throw err =>
             same_store s (state_after x)
             /\ rest = [ConsoleError (lit "Error creating countdown:") err;
                        Reply (create_error_text err)]
         end
  else
    value_of x = Throw (lit "ValidationError")
    /\ events_of x = [] /\ same_store s (state_after x).
Proof.
  intros Hsep Hzone. cbv zeta.
  rewrite (dispatch_create env s m Hhuman shape_prefix (shape_command Hsep)).
  unfold create_countdown.
  destruct (exec countdown_re (content m)) as [caps |] eqn:Hexec.
  2:{ rewrite (countdown_re_complete _ _ _ _ Hshape) in Hexec.
      discriminate Hexec. }
  destruct (shape_target Hzone caps Hexec) as (Hname & Htarget).
  rewrite Htarget, Hname.
  set (target := create_target (utc_of_local env) date time).
  run_bot.
  destruct (embed_ok env _) eqn:Hembed; run_bot.
  2:{ unfold value_of, events_of, state_after, same_store.
      cbn [fst snd countdowns file activity].
      split; [intros text [] | repeat split]. }
  destruct (send_message env (S (S (step s))) (channel_id m) _) as [id | err]
    eqn:Hsend; run_bot.
  - rewrite saveCountdowns_run. cbv zeta. run_bot.
    unfold value_of, state_after, events_of.
    destruct (write_file env _ _) as [[] | wmsg]; run_bot;
      destruct (react_message env _ _) as [[] | rmsg]; run_bot;
      (split; [no_other_reply |]);
      eexists (Ok id), _; (split; [reflexivity |]); reflexivity.
  - unfold value_of, state_after, events_of, same_store.
    cbn [fst snd countdowns file activity].
    split; [no_other_reply |].
    eexists (Throw err), _. split; [reflexivity |]. repeat split.
Qed.

End WellFormedCreate.

Lemma create_after_other_space_is_ignored_witness :
  messageCreate (command_message false "U1" tab_command false)
    sample_env sample_state
  = (Ok tt, sample_state, []).
Proof.
  apply (create_after_other_space_is_ignored sample_env sample_state
           (command_message false "U1" tab_command false)
           (lit "Launch") (lit "2030-06-15") (Some (lit "09:30"))
           eq_refl tab_shape).
  vm_compute. discriminate.
Defined.

Lemma sample_zone : zone_within_a_day sample_env.
Proof.
  intros t. cbn [utc_of_local sample_env]. rewrite Z.sub_diag.
  unfold JSDate.msPerDay. cbn. lia.
Qed.

Lemma wellformed_create_is_read_witness :
  let x :=
    messageCreate (command_message false "U1" launch_command false)
      sample_env sample_state in
  exists answer rest,
    events_of x
    = Send (lit "C")
        (mkEmbed blue (icon ++ lit "Launch")
           (remaining_text
              (formatTimeRemaining
                 (getTimeRemaining 1907746200000 1700000000000)))
           (target_text sample_env 1907746200000)
           (Some 1700000000001) [])
        answer
      :: rest
    /\ match answer with
       | Ok id =>
           countdowns (state_after x)
           = sample_store
             ++ [mkCountdown (lit "Launch") 1907746200000 (lit "C") id
                   (lit "U1") 1700000000003]
       | Throw err =>
           same_store sample_state (state_after x)
           /\ rest = [ConsoleError (lit "Error creating countdown:") err;
                      Reply (create_error_text err)]
       end.
Proof.
  exact (proj2 (wellformed_create_is_read sample_env sample_state
                  (command_message false "U1" launch_command false)
                  (lit "Launch") (lit "2030-06-15") (Some (lit "09:30"))
                  eq_refl launch_shape eq_refl sample_zone)).
Defined.


(** ** A restart *)

Lemma ready_synced (env : Env) (tag : jsstring) (s : State) :
  synced s ->
  exists boot,
    ready tag (file s) = Some boot
    /\ boot env (fresh (file s))
       = (Ok tt,
          mkState 0 (countdowns s) (file s)
            (Some (status_text (List.length (countdowns s)))),
          [ConsoleLog (lit "Logged in as " ++ tag ++ lit ".");
           ConsoleLog (lit "Loaded " ++ count_text (List.length (countdowns s))
                       ++ lit " countdown(s) from file.");
           SetActivity (status_text (List.length (countdowns s)))]).
Proof.
  unfold synced. intros Hs. rewrite Hs. unfold ready.
  unfold loadCountdowns, load_try, JSON_parse.
  cbn [file_exists readFileSync].
  rewrite JSONFacts.parse_stringify_store.
  unfold length_text, encode_store. rewrite length_map.
  fold (encode_store (countdowns s)). rewrite decode_encode_store.
  eexists. split; [reflexivity |].
  unfold bind, console_log, emit, updateBotStatus, fresh, status_text,
    count_text.
  cbn [fst snd countdowns step file activity app]. reflexivity.
Qed.

Section Restart.

Variables (env : Env) (s : State) (m : Message) (tag : jsstring).
Variable arriving : list (list Message).

(** X15. On a disk whose writes all go through, from a state whose file
    holds the text of the array: after any message was handled, and after
    any refresh cycle, whatever messages were handled while it awaited,
    the [ready] handler of a process started on the file left behind
    completes, loads exactly the array left behind, sets the status text
    to its size and writes no error line. *)
Theorem restart_restores_the_store :
  reliable_disk env -> synced s ->
  forall s1,
    s1 = state_after (messageCreate m env s)
    \/ s1 = state_after (updateAllCountdowns arriving env s) ->
    exists boot,
      ready tag (file s1) = Some boot
      /\ let x := boot env (fresh (file s1)) in
         value_of x = Ok tt
         /\ countdowns (state_after x) = countdowns s1
         /\ in_step (state_after x)
         /\ synced (state_after x)
         /\ filter is_console_error (events_of x) = [].
Proof.
  intros Hd Hs s1 Hs1.
  assert (H1 : synced s1).
  { destruct Hs1 as [-> | ->].
    - exact (settled_synced env s _ (messageCreate_settled env s m) Hd Hs).
    - exact (proj2 (refresh_tidy env arriving s) Hd Hs). }
  destruct (ready_synced env tag s1 H1) as (boot & Hboot & Hrun).
  exists boot. split; [exact Hboot |]. cbv zeta. rewrite Hrun.
  unfold value_of, state_after, events_of, in_step, synced.
  cbn [fst snd countdowns file activity filter is_console_error].
  repeat split. exact H1.
Qed.

End Restart.

Lemma restart_restores_the_store_witness :
  exists boot,
    ready (lit "Bot#0001")
      (file (state_after
               (messageCreate
                  (command_message false "U1" (lit "!delcountdown 1") false)
                  sample_env tidy_state)))
    = Some boot
    /\ countdowns
         (state_after
            (boot sample_env
               (fresh
                  (file (state_after
                           (messageCreate
                              (command_message false "U1"
                                 (lit "!delcountdown 1") false)
                              sample_env tidy_state))))))
       = [ sample_record "Past" 1600000000000 "U2";
           sample_record "Party" 1800000000000 "U1" ].
Proof.
  destruct (restart_restores_the_store sample_env tidy_state
              (command_message false "U1" (lit "!delcountdown 1") false)
              (lit "Bot#0001") [] (fun _ _ => eq_refl) eq_refl _
              (or_introl eq_refl)) as (boot & Hboot & H).
  cbv zeta in H. exists boot. split; [exact Hboot |].
  rewrite (proj1 (proj2 H)). vm_compute. reflexivity.
Defined.


(** X16. The [ready] handler of a process whose file is missing, cannot
    be read or holds text that [JSON.parse] refuses completes with the
    empty array and the status text of no countdown, and leaves the file
    as it is; it writes no error line when the file is missing and one,
    that of the load, otherwise. *)
Theorem ready_without_a_store (env : Env) (tag : jsstring) (f : FileState) :
  f = Missing
  \/ (exists message, f = Unreadable message)
  \/ (exists data, f = Content data /\ JSON.parse data = None) ->
  exists boot,
    ready tag f = Some boot
    /\ let x := boot env (fresh f) in
       value_of x = Ok tt
       /\ countdowns (state_after x) = []
       /\ file (state_after x) = f
       /\ activity (state_after x) = Some (lit "0 countdowns")
       /\ (f = Missing -> filter is_console_error (events_of x) = [])
       /\ (f <> Missing ->
           exists message,
             filter is_console_error (events_of x) = [load_error message]).
Proof.
  intros [-> | [(message & ->) | (data & -> & Hparse)]].
  - eexists. split; [reflexivity |]. cbv zeta.
    repeat split; try reflexivity. intros H. congruence.
  - eexists. split; [reflexivity |]. cbv zeta.
    repeat split; try reflexivity; try discriminate.
    intros _. exists message. reflexivity.
  - unfold ready, loadCountdowns, load_try, JSON_parse.
    cbn [file_exists readFileSync]. rewrite Hparse.
    eexists. split; [reflexivity |]. cbv zeta.
    repeat split; try reflexivity; try discriminate.
    intros _. eexists. reflexivity.
Qed.

Lemma ready_without_a_store_witness :
  exists boot,
    ready (lit "Bot#0001") Missing = Some boot
    /\ activity (state_after (boot sample_env (fresh Missing)))
       = Some (lit "0 countdowns").
Proof.
  destruct (ready_without_a_store sample_env (lit "Bot#0001") Missing
              (or_introl eq_refl)) as (boot & Hboot & H).
  cbv zeta in H. exists boot. split; [exact Hboot |].
  exact (proj1 (proj2 (proj2 (proj2 H)))).
Defined.

(** ** A create command and the delete command that undoes it *)

Lemma splice1_last (cds : list Countdown) (cd : Countdown) :
  splice1 (List.length cds) (cds ++ [cd]) = cds.
Proof.
  unfold splice1.
  rewrite firstn_app, Nat.sub_diag, firstn_all. cbn [firstn].
  rewrite skipn_all2 by (rewrite length_app; cbn; lia).
  rewrite !app_nil_r. reflexivity.
Qed.

Lemma parseInt10_truthy (arg0 : jsstring) (n : Z) :
  parseInt10 arg0 = Some n -> arg0 <> [].
Proof. intros H ->. discriminate H. Qed.

Section CreateThenDelete.

Variables (env : Env) (s : State) (m1 m2 : Message) (arg0 : jsstring).

Hypothesis Hhuman1 : author_bot m1 = false.
Hypothesis Hprefix1 : startsWith (content m1) prefix = true.
Hypothesis Hcommand1 :
  toLowerCase (hd [] (arguments_of (content m1))) = lit "countdown".
Hypothesis Hhuman2 : author_bot m2 = false.
Hypothesis Hprefix2 : startsWith (content m2) prefix = true.
Hypothesis Hcommand2 :
  toLowerCase (hd [] (arguments_of (content m2))) = lit "delcountdown".
Hypothesis Harg : hd_error (tl (arguments_of (content m2))) = Some arg0.

(** X17. When a create command of a human author got its tracking
    message sent, a delete command of the same author whose index is the
    length of the array after the create command removes the record that
    was just added, which is the last one: the array is then what it was
    before the create command, and the reply names that record. *)
Theorem create_then_delete_restores :
  let x1 := messageCreate m1 env s in
  let s1 := state_after x1 in
  (exists e id, In (Send (channel_id m1) e (Ok id)) (events_of x1)) ->
  parseInt10 arg0 = Some (Z.of_nat (List.length (countdowns s1))) ->
  author_id m2 = author_id m1 ->
  let x2 := messageCreate m2 env s1 in
  countdowns (state_after x2) = countdowns s
  /\ exists cd,
       countdowns s1 = countdowns s ++ [cd]
       /\ In (Reply (deleted_text (name cd))) (events_of x2).
Proof.
  cbv zeta. rewrite (dispatch_create env s m1 Hhuman1 Hprefix1 Hcommand1).
  intros (e & id & Hin) Hn Hsame.
  destruct (create_outcomes env s m1) as [H | [H | H]].
  - exfalso. destruct H as (_ & He).
    destruct He as [He | [He | He]]; rewrite He in Hin;
      cbn [In] in Hin; repeat (destruct Hin as [Hin | Hin]);
      try contradiction; discriminate.
  - exfalso. destruct H as (e0 & err & _ & _ & He). rewrite He in Hin.
    cbn [In] in Hin. destruct Hin as [H | [H | [H | []]]]; discriminate.
  - destruct H as (e0 & id0 & cd & ok & saved & tail & _ & _ & _
                   & _ & Hc & _ & _ & Hby & _).
    set (s1 := state_after (create_countdown m1 env s)) in *.
    assert (Hlen : List.length (countdowns s1)
                   = S (List.length (countdowns s)))
      by (rewrite Hc, length_app; cbn; lia).
    assert (Hcd : nth_error (countdowns s1)
                    (Z.to_nat (Z.of_nat (List.length (countdowns s1)) - 1))
                  = Some cd).
    { rewrite Hlen.
      replace (Z.to_nat (Z.of_nat (S (List.length (countdowns s))) - 1))
        with (List.length (countdowns s)) by lia.
      rewrite Hc, nth_error_app2 by lia. rewrite Nat.sub_diag. reflexivity. }
    rewrite (delete_checks env s1 m2 Hhuman2 Hprefix2 Hcommand2 arg0 Harg
               (parseInt10_truthy _ _ Hn) _ cd Hn ltac:(lia) Hcd).
    assert (Hown : jseqb (createdBy cd) (author_id m2) = true)
      by (apply jseqb_eq; congruence).
    rewrite Hown. cbn [negb andb].
    replace (Z.to_nat (Z.of_nat (List.length (countdowns s1)) - 1))
      with (List.length (countdowns s)) by lia.
    rewrite Hc, splice1_last.
    run_bot. rewrite saveCountdowns_run. cbv zeta. run_bot.
    unfold state_after, events_of.
    destruct (write_file env _ _) as [[] | wmsg]; run_bot;
      (split; [reflexivity |]); exists cd;
      (split; [reflexivity |]); do 3 right; left; reflexivity.
Qed.

End CreateThenDelete.

Lemma create_then_delete_restores_witness :
  countdowns
    (state_after
       (messageCreate (command_message false "U1" (lit "!delcountdown 4") false)
          sample_env
          (state_after
             (messageCreate (command_message false "U1" launch_command false)
                sample_env sample_state))))
  = sample_store.
Proof.
  pose proof (create_then_delete_restores sample_env sample_state
                (command_message false "U1" launch_command false)
                (command_message false "U1" (lit "!delcountdown 4") false)
                (lit "4") eq_refl eq_refl eq_refl eq_refl eq_refl eq_refl
                eq_refl) as H.
  cbv zeta in H. refine (proj1 (H _ _ eq_refl)).
  - eexists _, _. vm_compute. left. reflexivity.
  - vm_compute. reflexivity.
Defined.

(** * Where the code departs from the claims *)

(** ** A delete command handled while a refresh is awaited *)

Lemma expired_at (target now : Z) :
  expired (getTimeRemaining target now) = (target - now <=? 0).
Proof.
  unfold getTimeRemaining. destruct (target - now <=? 0); reflexivity.
Qed.

Section Race.

Variables (env : Env) (m : Message).

Hypothesis Hembed : forall e, embed_ok env e = true.
Hypothesis Hchannel : forall k c, fetch_channel env k c = Ok tt.
Hypothesis Hmessage : forall k c i, fetch_message env k c i = Ok tt.
Hypothesis Hedit : forall k c i e, edit_message env k c i e = Ok tt.

(** The refresh of a record when the platform answers every call: five
    calls to the outside, one edit, and the flag of a record that is not
    due at the first of them. *)
Lemma update_answered (cd : Countdown) (s : State) :
  exists e,
    updateCountdownMessage cd env s
    = (Ok (negb (targetDate cd - clock env (step s) <=? 0)),
       mkState (5 + step s) (countdowns s) (file s) (activity s),
       [Edit (channelId cd) (messageId cd) e true]).
Proof.
  unfold updateCountdownMessage, refresh_embed.
  run_bot. rewrite Hembed. run_bot.
  unfold channels_fetch, messages_fetch, message_edit. run_bot.
  rewrite Hchannel. run_bot. rewrite Hmessage. run_bot.
  rewrite Hedit. run_bot. rewrite expired_at.
  eexists. reflexivity.
Qed.

Hypothesis Hhuman : author_bot m = false.
Hypothesis Hcontent : content m = lit "!delcountdown 1".

(** The delete command for the first record, from its creator: one call
    to the outside, the write of the records that are left. *)
Lemma delete_first_run (cd : Countdown) (rest : list Countdown) (s : State) :
  countdowns s = cd :: rest ->
  author_id m = createdBy cd ->
  exists ok saved s',
    messageCreate m env s
    = (Ok tt, s',
       [WriteFile (JSON.stringify2 (encode_store rest)) ok; saved;
        SetActivity (status_text (List.length rest));
        Reply (deleted_text (name cd))])
    /\ (forall c i e b, saved <> Edit c i e b)
    /\ countdowns s' = rest
    /\ step s' = S (step s).
Proof.
  intros Hcds Hauthor.
  assert (Hprefix : startsWith (content m) prefix = true)
    by (rewrite Hcontent; reflexivity).
  assert (Hcommand : toLowerCase (hd [] (arguments_of (content m)))
                     = lit "delcountdown")
    by (rewrite Hcontent; reflexivity).
  assert (Harg : hd_error (tl (arguments_of (content m))) = Some (lit "1"))
    by (rewrite Hcontent; reflexivity).
  rewrite (delete_checks env s m Hhuman Hprefix Hcommand (lit "1") Harg
             ltac:(discriminate) 1 cd eq_refl
             ltac:(rewrite Hcds; cbn [List.length]; lia)
             ltac:(rewrite Hcds; reflexivity)).
  assert (Hown : jseqb (createdBy cd) (author_id m) = true)
    by (apply jseqb_eq; congruence).
  rewrite Hown. cbn [negb andb].
  rewrite Hcds. change (splice1 (Z.to_nat (1 - 1)) (cd :: rest)) with rest.
  run_bot. rewrite saveCountdowns_run. cbv zeta. run_bot.
  unfold status_text, count_text.
  destruct (write_file env _ _) as [[] | wmsg]; run_bot;
    eexists _, _, _; (split; [reflexivity |]);
    (split; [discriminate | split; reflexivity]).
Qed.

Lemma handle_one (s s' : State) (ev : list Event) :
  messageCreate m env s = (Ok tt, s', ev) ->
  handle_all [m] env s = (Ok tt, s', ev).
Proof.
  intros H. cbn [handle_all]. rewrite (bind_ok _ _ _ _ _ _ _ H).
  cbn. rewrite app_nil_r. reflexivity.
Qed.

(** C1 (the code departs from it). The store holds the records [a], [b]
    and [c] when a cycle starts; the platform answers every call; [a] and
    [b] are not due at any moment of the cycle and [c] is due. While the
    refresh of [a] is awaited, the handler of the command
    [!delcountdown 1] of the creator of [a] runs: it takes [a] out of the
    array that the loop is iterating, and answers that [a] was deleted.
    The loop goes on at index 1, where [c] now is. The record [b], whose
    edit would succeed and which is not due, is never refreshed and is
    not retained; the cycle ends with a store that holds [a], the deleted
    record, and nothing else. *)
Theorem delete_during_refresh_loses_a_live_record (s : State)
    (a b c : Countdown) :
  countdowns s = [a; b; c] ->
  author_id m = createdBy a ->
  ahead_during env s 12 (targetDate a) ->
  ahead_during env s 12 (targetDate b) ->
  due_during env s 12 (targetDate c) ->
  messageId b <> messageId a ->
  messageId b <> messageId c ->
  let x := updateAllCountdowns [[m]] env s in
  value_of (refresh_each [[m]] 0 [] env s) = Ok [a]
  /\ value_of x = Ok tt
  /\ countdowns (state_after x) = [a]
  /\ In (Reply (deleted_text (name a))) (events_of x)
  /\ (forall e ok,
        ~ In (Edit (channelId b) (messageId b) e ok) (events_of x)).
Proof.
  intros Hcds Hauthor Ha Hb Hc Hba Hbc.
  destruct (update_answered a s) as (ea & Hrun_a).
  set (s1 := mkState (5 + step s) (countdowns s) (file s) (activity s)) in *.
  destruct (delete_first_run a [b; c] s1 Hcds Hauthor)
    as (ok & saved & s2 & Hdel & Hsaved & Hcds2 & Hstep2).
  apply handle_one in Hdel.
  destruct (update_answered c s2) as (ec & Hrun_c).
  assert (Hlive : (targetDate a - clock env (step s) <=? 0) = false).
  { apply Z.leb_gt. specialize (Ha (step s) ltac:(lia)). lia. }
  assert (Hpast : (targetDate c - clock env (step s2) <=? 0) = true).
  { apply Z.leb_le. rewrite Hstep2. cbn [step s1].
    specialize (Hc (S (5 + step s)) ltac:(lia)). lia. }
  rewrite Hlive in Hrun_a. rewrite Hpast in Hrun_c. cbn [negb] in *.
  assert (Hpass : exists s3,
            refresh_each [[m]] 0 [] env s
            = (Ok [a], s3,
               [Edit (channelId a) (messageId a) ea true]
               ++ [WriteFile (JSON.stringify2 (encode_store [b; c])) ok;
                   saved; SetActivity (status_text (List.length [b; c]));
                   Reply (deleted_text (name a))]
               ++ [Edit (channelId c) (messageId c) ec true])
            /\ countdowns s3 = [b; c]).
  { cbn [refresh_each]. rewrite bind_get, Hcds. cbn [nth_error].
    rewrite (bind_ok _ _ _ _ _ _ _ Hrun_a).
    rewrite (bind_ok _ _ _ _ _ _ _ Hdel).
    rewrite bind_get, Hcds2. cbn [skipn refresh_rest].
    rewrite (bind_ok _ _ _ _ _ _ _ Hrun_c).
    eexists. split; [reflexivity | exact Hcds2]. }
  destruct Hpass as (s3 & Hpass & Hcds3).
  cbv zeta. split; [rewrite Hpass; reflexivity |].
  unfold updateAllCountdowns.
  rewrite (bind_ok _ _ _ _ _ _ _ Hpass).
  rewrite bind_get, Hcds3. cbn [List.length Nat.eqb negb].
  run_bot. rewrite saveCountdowns_run. cbv zeta. run_bot.
  destruct (write_file env _ _) as [[] | wmsg]; run_bot;
    unfold value_of, state_after, events_of; cbn [fst snd countdowns];
    (split; [reflexivity |]); (split; [reflexivity |]);
    (split; [cbn; tauto |]);
    intros e okb Hin; cbn in Hin;
    repeat (destruct Hin as [Hin | Hin];
            [first [discriminate Hin
                   | injection Hin as _ Hid _ _; congruence
                   | exact (Hsaved _ _ _ _ Hin)] |]);
    exact Hin.
Qed.

(** C9 (the code departs from it). The store holds the records [a] and
    [b] when a cycle starts; the platform answers every call and neither
    record is due at any moment of the cycle. While the refresh of [b],
    the last one, is awaited, the handler of the command
    [!delcountdown 1] of the creator of [a] runs and answers that [a] was
    deleted. Both records are retained, as many as the store held when
    the pass started; the length that the code compares with is that of
    the array after the loop, which is 1. So the cycle does save and does
    set the status: the store is the two records again, the deleted one
    among them, the file is written with both, and the status text tells
    two countdowns. *)
Theorem delete_during_refresh_is_undone (s : State) (a b : Countdown) :
  countdowns s = [a; b] ->
  author_id m = createdBy a ->
  ahead_during env s 12 (targetDate a) ->
  ahead_during env s 12 (targetDate b) ->
  let x := updateAllCountdowns [[]; [m]] env s in
  let data := JSON.stringify2 (encode_store [a; b]) in
  value_of (refresh_each [[]; [m]] 0 [] env s) = Ok [a; b]
  /\ List.length [a; b] = List.length (countdowns s)
  /\ value_of x = Ok tt
  /\ countdowns (state_after x) = [a; b]
  /\ In (Reply (deleted_text (name a))) (events_of x)
  /\ (exists ok, In (WriteFile data ok) (events_of x)
                 /\ (ok = true -> file (state_after x) = Content data))
  /\ In (SetActivity (status_text 2)) (events_of x)
  /\ activity (state_after x) = Some (status_text 2)
  /\ ~ quiet (events_of x).
Proof.
  intros Hcds Hauthor Ha Hb.
  destruct (update_answered a s) as (ea & Hrun_a).
  set (s1 := mkState (5 + step s) (countdowns s) (file s) (activity s)) in *.
  destruct (update_answered b s1) as (eb & Hrun_b).
  set (s2 := mkState (5 + step s1) (countdowns s1) (file s1) (activity s1))
    in *.
  destruct (delete_first_run a [b] s2 Hcds Hauthor)
    as (ok & saved & s3 & Hdel & Hsaved & Hcds3 & _).
  apply handle_one in Hdel.
  assert (Hlive_a : (targetDate a - clock env (step s) <=? 0) = false).
  { apply Z.leb_gt. specialize (Ha (step s) ltac:(lia)). lia. }
  assert (Hlive_b : (targetDate b - clock env (step s1) <=? 0) = false).
  { apply Z.leb_gt. cbn [step s1].
    specialize (Hb (5 + step s)%nat ltac:(lia)). lia. }
  rewrite Hlive_a in Hrun_a. rewrite Hlive_b in Hrun_b. cbn [negb] in *.
  assert (Hpass :
            refresh_each [[]; [m]] 0 [] env s
            = (Ok [a; b], s3,
               [Edit (channelId a) (messageId a) ea true]
               ++ [Edit (channelId b) (messageId b) eb true]
               ++ [WriteFile (JSON.stringify2 (encode_store [b])) ok; saved;
                   SetActivity (status_text (List.length [b]));
                   Reply (deleted_text (name a))])).
  { cbn [refresh_each]. rewrite bind_get, Hcds. cbn [nth_error].
    rewrite (bind_ok _ _ _ _ _ _ _ Hrun_a).
    cbn [handle_all]. rewrite bind_ret.
    rewrite bind_get. change (countdowns s1) with (countdowns s).
    rewrite Hcds. cbn [nth_error].
    rewrite (bind_ok _ _ _ _ _ _ _ Hrun_b).
    rewrite (bind_ok _ _ _ _ _ _ _ Hdel).
    rewrite bind_get, Hcds3. cbn [skipn refresh_rest]. unfold ret.
    cbn [app]. reflexivity. }
  cbv zeta. split; [rewrite Hpass; reflexivity |].
  split; [rewrite Hcds; reflexivity |].
  unfold updateAllCountdowns.
  rewrite (bind_ok _ _ _ _ _ _ _ Hpass).
  rewrite bind_get, Hcds3. cbn [List.length Nat.eqb negb].
  run_bot. rewrite saveCountdowns_run. cbv zeta. run_bot.
  unfold status_text, count_text.
  destruct (write_file env _ _) as [[] | wmsg]; run_bot;
    unfold value_of, state_after, events_of;
    cbn [fst snd countdowns file activity];
    (split; [reflexivity |]); (split; [reflexivity |]);
    (split; [cbn; tauto |]);
    (split; [eexists; split;
               [cbn; eauto 12 | first [reflexivity | discriminate]] |]);
    (split; [cbn; tauto |]); (split; [reflexivity |]);
    intros Hq; unfold quiet in Hq; do 6 apply Forall_inv_tail in Hq;
    apply Forall_inv in Hq; discriminate Hq.
Qed.

End Race.

Lemma delete_during_refresh_loses_a_live_record_witness :
  countdowns
    (state_after (updateAllCountdowns [[delete_first]] sample_env busy_state))
  = [sample_record "Launch" 4070952000000 "U1"].
Proof.
  refine (proj1 (proj2 (proj2
    (delete_during_refresh_loses_a_live_record sample_env delete_first
       (fun _ => eq_refl) (fun _ _ => eq_refl) (fun _ _ _ => eq_refl)
       (fun _ _ _ _ => eq_refl) eq_refl eq_refl busy_state
       (sample_record "Launch" 4070952000000 "U1")
       (sample_record "Party" 1800000000000 "U1")
       (sample_record "Past" 1600000000000 "U2")
       eq_refl eq_refl _ _ _ _ _)))).
  - intros k Hk. change (1700000000000 + Z.of_nat k < 4070952000000).
    change (step busy_state) with 0%nat in Hk. lia.
  - intros k Hk. change (1700000000000 + Z.of_nat k < 1800000000000).
    change (step busy_state) with 0%nat in Hk. lia.
  - intros k Hk. change (1600000000000 <= 1700000000000 + Z.of_nat k). lia.
  - discriminate.
  - discriminate.
Defined.

Lemma delete_during_refresh_is_undone_witness :
  countdowns
    (state_after (updateAllCountdowns [[]; [delete_first]] sample_env
                    calm_state))
  = [ sample_record "Launch" 4070952000000 "U1";
      sample_record "Party" 1800000000000 "U1" ].
Proof.
  refine (proj1 (proj2 (proj2 (proj2
    (delete_during_refresh_is_undone sample_env delete_first
       (fun _ => eq_refl) (fun _ _ => eq_refl) (fun _ _ _ => eq_refl)
       (fun _ _ _ _ => eq_refl) eq_refl eq_refl calm_state
       (sample_record "Launch" 4070952000000 "U1")
       (sample_record "Party" 1800000000000 "U1")
       eq_refl eq_refl _ _))))).
  - intros k Hk. change (1700000000000 + Z.of_nat k < 4070952000000).
    change (step calm_state) with 0%nat in Hk. lia.
  - intros k Hk. change (1700000000000 + Z.of_nat k < 1800000000000).
    change (step calm_state) with 0%nat in Hk. lia.
Defined.

(** ** The delete command on an argument that is no numeral *)

(** C6 (the code departs from it). The argument [2abc] of a delete
    command is no numeral. [parseInt] reads it as 2, and the command of
    the creator of the second record, or of a user who may manage
    messages, is carried out: the second record leaves the array, the
    array is saved, the reply tells that the record was deleted, and no
    reply tells that the index is invalid. *)
Theorem non_numeric_index_is_accepted (env : Env) (s : State) (m : Message)
    (cd : Countdown) :
  author_bot m = false ->
  content m = lit "!delcountdown 2abc" ->
  nth_error (countdowns s) 1 = Some cd ->
  createdBy cd = author_id m \/ can_manage_messages m = true ->
  let x := messageCreate m env s in
  numeric (lit "2abc") = false
  /\ hd_error (tl (arguments_of (content m))) = Some (lit "2abc")
  /\ value_of x = Ok tt
  /\ countdowns (state_after x)
     = firstn 1 (countdowns s) ++ skipn 2 (countdowns s)
  /\ List.length (countdowns s)
     = S (List.length (countdowns (state_after x)))
  /\ (exists ok,
        In (WriteFile
              (JSON.stringify2 (encode_store (countdowns (state_after x))))
              ok)
           (events_of x))
  /\ In (Reply (deleted_text (name cd))) (events_of x)
  /\ ~ In (Reply invalid_index_text) (events_of x).
Proof.
  intros Hhuman Hcontent Hcd Hauth.
  assert (Hprefix : startsWith (content m) prefix = true)
    by (rewrite Hcontent; reflexivity).
  assert (Hcommand : toLowerCase (hd [] (arguments_of (content m)))
                     = lit "delcountdown")
    by (rewrite Hcontent; reflexivity).
  assert (Harg : hd_error (tl (arguments_of (content m)))
                 = Some (lit "2abc"))
    by (rewrite Hcontent; reflexivity).
  assert (Hlen : (2 <= List.length (countdowns s))%nat).
  { apply Nat.le_succ_l. apply nth_error_Some. rewrite Hcd. discriminate. }
  cbv zeta. split; [reflexivity |]. split; [exact Harg |].
  rewrite (delete_checks env s m Hhuman Hprefix Hcommand (lit "2abc") Harg
             ltac:(discriminate) 2 cd eq_refl ltac:(lia) Hcd).
  assert (Hgo : negb (jseqb (createdBy cd) (author_id m))
                && negb (can_manage_messages m) = false).
  { destruct Hauth as [Hown | Hperm].
    - apply jseqb_eq in Hown. rewrite Hown. reflexivity.
    - rewrite Hperm. apply andb_false_r. }
  rewrite Hgo.
  change (Z.to_nat (2 - 1)) with 1%nat.
  assert (Hsplice : splice1 1 (countdowns s)
                    = firstn 1 (countdowns s) ++ skipn 2 (countdowns s))
    by reflexivity.
  assert (Hshort : List.length (countdowns s)
                   = S (List.length (splice1 1 (countdowns s)))).
  { rewrite Hsplice. destruct (countdowns s) as [| c0 [| c1 r]];
      cbn in Hlen |- *; [lia | lia | reflexivity]. }
  run_bot. rewrite saveCountdowns_run. cbv zeta. run_bot.
  destruct (write_file env _ _) as [[] | wmsg]; run_bot;
    unfold value_of, state_after, events_of; cbn [fst snd countdowns];
    (split; [reflexivity |]); (split; [exact Hsplice |]);
    (split; [exact Hshort |]);
    (split; [eexists; left; reflexivity |]);
    (split; [cbn; tauto |]);
    intros Hin; cbn in Hin;
    repeat (destruct Hin as [Hin | Hin]; [discriminate Hin |]);
    exact Hin.
Qed.

Lemma non_numeric_index_is_accepted_witness :
  countdowns
    (state_after
       (messageCreate
          (command_message false "U2" (lit "!delcountdown 2abc") false)
          sample_env sample_state))
  = [ sample_record "Launch" 4070952000000 "U1";
      sample_record "Party" 1800000000000 "U1" ].
Proof.
  exact (proj1 (proj2 (proj2 (proj2
    (non_numeric_index_is_accepted sample_env sample_state
       (command_message false "U2" (lit "!delcountdown 2abc") false)
       (sample_record "Past" 1600000000000 "U2")
       eq_refl eq_refl eq_refl (or_introl eq_refl)))))).
Defined.

(** ** A file whose text is JSON of another shape *)

(** C8 (the code departs from it). File text that [JSON.parse] accepts
    and whose value is no array of countdown records, and is not [null],
    is malformed persisted data that [loadCountdowns] does not notice: the
    value is assigned to [countdowns] and stays there, the line that is
    logged tells of a successful load, no error is logged, and the
    result is not the empty array. So it is with the texts [5], [{}] and
    [[null]]. *)
Theorem wrong_shape_is_kept (data : jsstring) (v : json) (n : jsstring) :
  JSON.parse data = Some v ->
  length_text v = Ok n ->
  decode_store v = None ->
  loadCountdowns (Content data) (JArr [])
  = (v, [ConsoleLog (lit "Loaded " ++ n ++ lit " countdown(s) from file.")])
  /\ v <> JArr []
  /\ (forall message,
        ~ In (load_error message)
             (snd (loadCountdowns (Content data) (JArr [])))).
Proof.
  intros Hparse Hlength Hshape.
  assert (Hload : loadCountdowns (Content data) (JArr [])
                  = (v, [ConsoleLog (lit "Loaded " ++ n
                                     ++ lit " countdown(s) from file.")])).
  { unfold loadCountdowns, load_try, JSON_parse.
    cbn [file_exists readFileSync]. rewrite Hparse, Hlength. reflexivity. }
  split; [exact Hload |]. split.
  - intros ->. discriminate Hshape.
  - intros message. rewrite Hload. cbn [snd In].
    intros [H | []]. discriminate H.
Qed.

Lemma wrong_shape_is_kept_witness :
  loadCountdowns (Content (lit "5")) (JArr [])
  = (JNum 5, [ConsoleLog (lit "Loaded undefined countdown(s) from file.")])
  /\ loadCountdowns (Content (lit "{}")) (JArr [])
     = (JObj [], [ConsoleLog (lit "Loaded undefined countdown(s) from file.")])
  /\ loadCountdowns (Content (lit "[null]")) (JArr [])
     = (JArr [JNull], [ConsoleLog (lit "Loaded 1 countdown(s) from file.")]).
Proof.
  split; [| split].
  - exact (proj1 (wrong_shape_is_kept (lit "5") (JNum 5) (lit "undefined")
                    ltac:(vm_compute; reflexivity) eq_refl eq_refl)).
  - exact (proj1 (wrong_shape_is_kept (lit "{}") (JObj []) (lit "undefined")
                    ltac:(vm_compute; reflexivity) eq_refl eq_refl)).
  - exact (proj1 (wrong_shape_is_kept (lit "[null]") (JArr [JNull]) (lit "1")
                    ltac:(vm_compute; reflexivity) eq_refl eq_refl)).
Defined.
